(** * libewf handle API (libewf_file.c): a shallow embedding and its properties

    The functions of [src/libewf/libewf_file.c] are embedded as Rocq
    functions over an explicit handle state.  A handle pointer is an
    [option]: [None] is the NULL pointer, [Some ih] points to the internal
    handle [ih].  Every sub-handle pointer ([media], [read], [write]) and
    every nullable buffer is an [option] in the same way.  Integers are [Z];
    where the C code converts between integer types the conversion is
    written out. *)

From Stdlib Require Import ZArith List String Ascii Bool Lia.
Import ListNotations.
Open Scope Z_scope.

(** ** Integer types *)

Module Limits.

Definition INT32_MAX : Z := 2147483647.
Definition INT64_MAX : Z := 9223372036854775807.
Definition UINT8_MODULUS : Z := 2 ^ 8.
Definition UINT32_MODULUS : Z := 2 ^ 32.
Definition UINT64_MODULUS : Z := 2 ^ 64.

(** libewf_config.h: [#define SIZEOF_SIZE_T 4]. *)
Definition SIZEOF_SIZE_T : Z := 4.
Definition SIZE_MODULUS : Z := 2 ^ (8 * SIZEOF_SIZE_T).

Definition to_uint8 (x : Z) : Z := x mod UINT8_MODULUS.
Definition to_uint32 (x : Z) : Z := x mod UINT32_MODULUS.
Definition to_size_t (x : Z) : Z := x mod SIZE_MODULUS.

(** The conversion [(off64_t) x] of an unsigned 64 bit value: values above
    [INT64_MAX] wrap around to negative ones. *)
Definition to_int64 (x : Z) : Z :=
  let r := x mod UINT64_MODULUS in
  if r <=? INT64_MAX then r else r - UINT64_MODULUS.


End Limits.
Export Limits.

(** ** Constants of headers that are not part of the sources

    [libewf_definitions.h], [ewf_definitions.h] and [libewf_header_values.h]
    are included by libewf_file.c but are not available.  The constants
    the modelled functions use are therefore parameters of the development;
    nothing is assumed about their values. *)

Class libewf_definitions : Type := {
  LIBEWF_FLAG_READ : Z;
  LIBEWF_FLAG_WRITE : Z;
  LIBEWF_VOLUME_TYPE_LOGICAL : Z;
  LIBEWF_VOLUME_TYPE_PHYSICAL : Z;
  LIBEWF_FORMAT_ENCASE2 : Z;
  LIBEWF_FORMAT_ENCASE3 : Z;
  EWF_COMPRESSION_NONE : Z;
  LIBEWF_HEADER_VALUES_INDEX_ACQUIRY_SOFTWARE_VERSION : nat;
  LIBEWF_ERROR_SECTOR_SIZE : Z
}.

(** Modelled from the spec: the constant [EWF_MEDIA_FLAGS_IS_PHYSICAL] of
    the missing ewf_definitions.h.  The spec has "media_flags (bit 1 =
    physical volume; bit 0 = media present)" and "writes bit 0x02 for
    physical". *)
Definition EWF_MEDIA_FLAGS_IS_PHYSICAL : Z := 2.

(** Modelled from the spec: the constant [EWF_DIGEST_HASH_SIZE_MD5] of the
    missing ewf_digest_hash.h.  The spec has "hash: 16-byte MD5". *)
Definition EWF_DIGEST_HASH_SIZE_MD5 : Z := 16.

(** ** Data model *)

(** [LIBEWF_ERROR_SECTOR]: one entry of a sector error list. *)
Module ErrorSector.
Record t : Type := mk {
  sector : Z;              (* off64_t *)
  amount_of_sectors : Z    (* uint32_t *)
}.
End ErrorSector.

(** [LIBEWF_VALUES_TABLE]: an array of identifiers and one of values; an
    entry that was not set is a NULL string. *)
Module ValuesTable.
Record t : Type := mk {
  amount : Z;
  identifiers : list (option string);
  values : list (option string)
}.
End ValuesTable.

(** The media sub handle ([internal_handle->media]). *)
Module HandleMedia.
Record t : Type := mk {
  media_size : Z;          (* size64_t *)
  chunk_size : Z;          (* size32_t *)
  sectors_per_chunk : Z;   (* uint32_t *)
  bytes_per_sector : Z;    (* uint32_t *)
  amount_of_sectors : Z;   (* uint32_t *)
  error_granularity : Z;   (* uint32_t *)
  media_type : Z;          (* uint8_t *)
  media_flags : Z          (* uint8_t *)
}.

Definition set_media_size (m : t) (v : Z) : t :=
  mk v (chunk_size m) (sectors_per_chunk m) (bytes_per_sector m)
     (amount_of_sectors m) (error_granularity m) (media_type m) (media_flags m).
Definition set_sectors_per_chunk (m : t) (v : Z) : t :=
  mk (media_size m) (chunk_size m) v (bytes_per_sector m)
     (amount_of_sectors m) (error_granularity m) (media_type m) (media_flags m).
Definition set_bytes_per_sector (m : t) (v : Z) : t :=
  mk (media_size m) (chunk_size m) (sectors_per_chunk m) v
     (amount_of_sectors m) (error_granularity m) (media_type m) (media_flags m).
Definition set_error_granularity (m : t) (v : Z) : t :=
  mk (media_size m) (chunk_size m) (sectors_per_chunk m) (bytes_per_sector m)
     (amount_of_sectors m) v (media_type m) (media_flags m).
Definition set_media_type (m : t) (v : Z) : t :=
  mk (media_size m) (chunk_size m) (sectors_per_chunk m) (bytes_per_sector m)
     (amount_of_sectors m) (error_granularity m) v (media_flags m).
Definition set_media_flags (m : t) (v : Z) : t :=
  mk (media_size m) (chunk_size m) (sectors_per_chunk m) (bytes_per_sector m)
     (amount_of_sectors m) (error_granularity m) (media_type m) v.
End HandleMedia.

(** The read sub handle ([internal_handle->read]). *)
Module HandleRead.
Record t : Type := mk {
  crc_error_sectors : option (list ErrorSector.t);
  crc_amount_of_errors : Z;   (* uint32_t *)
  wipe_on_error : Z           (* uint8_t *)
}.

Definition set_crc_errors (r : t) (l : option (list ErrorSector.t)) (n : Z) : t :=
  mk l n (wipe_on_error r).
End HandleRead.

(** The write sub handle ([internal_handle->write]). *)
Module HandleWrite.
Record t : Type := mk {
  input_write_size : Z;       (* size64_t *)
  segment_file_size : Z;      (* size64_t *)
  amount_of_chunks : Z;       (* uint32_t *)
  compress_empty_block : Z;   (* uint8_t *)
  values_initialized : Z;     (* uint8_t *)
  write_finalized : Z         (* uint8_t *)
}.

Definition set_input_write_size (w : t) (v : Z) : t :=
  mk v (segment_file_size w) (amount_of_chunks w) (compress_empty_block w)
     (values_initialized w) (write_finalized w).
Definition set_segment_file_size (w : t) (v : Z) : t :=
  mk (input_write_size w) v (amount_of_chunks w) (compress_empty_block w)
     (values_initialized w) (write_finalized w).
Definition set_compress_empty_block (w : t) (v : Z) : t :=
  mk (input_write_size w) (segment_file_size w) (amount_of_chunks w) v
     (values_initialized w) (write_finalized w).
End HandleWrite.

(** The first segment file of the delta segment table: only its filename
    is used here. *)
Module SegmentTable.
Record t : Type := mk {
  filename : option string
}.
End SegmentTable.

(** [LIBEWF_INTERNAL_HANDLE], restricted to the fields libewf_file.c uses. *)
Record libewf_internal_handle : Type := mk_handle {
  media : option HandleMedia.t;
  read : option HandleRead.t;
  write : option HandleWrite.t;
  delta_segment_table : option SegmentTable.t;
  current_chunk : Z;                  (* uint32_t *)
  current_chunk_offset : Z;           (* uint32_t *)
  compression_level : Z;              (* int8_t *)
  format : Z;                         (* uint8_t *)
  guid : list Byte.byte;              (* uint8_t[ 16 ] *)
  md5_hash : list Byte.byte;          (* EWF_DIGEST_HASH *)
  md5_hash_set : Z;                   (* uint8_t *)
  xheader : option (list Byte.byte);
  xheader_size : Z;
  header2 : option (list Byte.byte);
  header2_size : Z;
  header : option (list Byte.byte);
  header_size : Z;
  header_values : option ValuesTable.t;
  hash_values : option ValuesTable.t;
  acquiry_error_sectors : option (list ErrorSector.t);
  acquiry_amount_of_errors : Z        (* uint32_t *)
}.

(** Field assignments [internal_handle->field = v]. *)
Definition set_media (ih : libewf_internal_handle) (v : option HandleMedia.t) :=
  mk_handle v (read ih) (write ih) (delta_segment_table ih) (current_chunk ih)
    (current_chunk_offset ih) (compression_level ih) (format ih) (guid ih)
    (md5_hash ih) (md5_hash_set ih) (xheader ih) (xheader_size ih) (header2 ih)
    (header2_size ih) (header ih) (header_size ih) (header_values ih)
    (hash_values ih) (acquiry_error_sectors ih) (acquiry_amount_of_errors ih).
Definition set_read (ih : libewf_internal_handle) (v : option HandleRead.t) :=
  mk_handle (media ih) v (write ih) (delta_segment_table ih) (current_chunk ih)
    (current_chunk_offset ih) (compression_level ih) (format ih) (guid ih)
    (md5_hash ih) (md5_hash_set ih) (xheader ih) (xheader_size ih) (header2 ih)
    (header2_size ih) (header ih) (header_size ih) (header_values ih)
    (hash_values ih) (acquiry_error_sectors ih) (acquiry_amount_of_errors ih).
Definition set_write (ih : libewf_internal_handle) (v : option HandleWrite.t) :=
  mk_handle (media ih) (read ih) v (delta_segment_table ih) (current_chunk ih)
    (current_chunk_offset ih) (compression_level ih) (format ih) (guid ih)
    (md5_hash ih) (md5_hash_set ih) (xheader ih) (xheader_size ih) (header2 ih)
    (header2_size ih) (header ih) (header_size ih) (header_values ih)
    (hash_values ih) (acquiry_error_sectors ih) (acquiry_amount_of_errors ih).
Definition set_delta_segment_table (ih : libewf_internal_handle)
    (v : option SegmentTable.t) :=
  mk_handle (media ih) (read ih) (write ih) v (current_chunk ih)
    (current_chunk_offset ih) (compression_level ih) (format ih) (guid ih)
    (md5_hash ih) (md5_hash_set ih) (xheader ih) (xheader_size ih) (header2 ih)
    (header2_size ih) (header ih) (header_size ih) (header_values ih)
    (hash_values ih) (acquiry_error_sectors ih) (acquiry_amount_of_errors ih).
Definition set_current_chunk (ih : libewf_internal_handle) (v : Z) :=
  mk_handle (media ih) (read ih) (write ih) (delta_segment_table ih) v
    (current_chunk_offset ih) (compression_level ih) (format ih) (guid ih)
    (md5_hash ih) (md5_hash_set ih) (xheader ih) (xheader_size ih) (header2 ih)
    (header2_size ih) (header ih) (header_size ih) (header_values ih)
    (hash_values ih) (acquiry_error_sectors ih) (acquiry_amount_of_errors ih).
Definition set_current_chunk_offset (ih : libewf_internal_handle) (v : Z) :=
  mk_handle (media ih) (read ih) (write ih) (delta_segment_table ih)
    (current_chunk ih) v (compression_level ih) (format ih) (guid ih)
    (md5_hash ih) (md5_hash_set ih) (xheader ih) (xheader_size ih) (header2 ih)
    (header2_size ih) (header ih) (header_size ih) (header_values ih)
    (hash_values ih) (acquiry_error_sectors ih) (acquiry_amount_of_errors ih).
Definition set_compression_level (ih : libewf_internal_handle) (v : Z) :=
  mk_handle (media ih) (read ih) (write ih) (delta_segment_table ih)
    (current_chunk ih) (current_chunk_offset ih) v (format ih) (guid ih)
    (md5_hash ih) (md5_hash_set ih) (xheader ih) (xheader_size ih) (header2 ih)
    (header2_size ih) (header ih) (header_size ih) (header_values ih)
    (hash_values ih) (acquiry_error_sectors ih) (acquiry_amount_of_errors ih).
Definition set_format (ih : libewf_internal_handle) (v : Z) :=
  mk_handle (media ih) (read ih) (write ih) (delta_segment_table ih)
    (current_chunk ih) (current_chunk_offset ih) (compression_level ih) v
    (guid ih) (md5_hash ih) (md5_hash_set ih) (xheader ih) (xheader_size ih)
    (header2 ih) (header2_size ih) (header ih) (header_size ih)
    (header_values ih) (hash_values ih) (acquiry_error_sectors ih)
    (acquiry_amount_of_errors ih).
Definition set_guid (ih : libewf_internal_handle) (v : list Byte.byte) :=
  mk_handle (media ih) (read ih) (write ih) (delta_segment_table ih)
    (current_chunk ih) (current_chunk_offset ih) (compression_level ih)
    (format ih) v (md5_hash ih) (md5_hash_set ih) (xheader ih) (xheader_size ih)
    (header2 ih) (header2_size ih) (header ih) (header_size ih)
    (header_values ih) (hash_values ih) (acquiry_error_sectors ih)
    (acquiry_amount_of_errors ih).
Definition set_md5_hash (ih : libewf_internal_handle) (v : list Byte.byte) :=
  mk_handle (media ih) (read ih) (write ih) (delta_segment_table ih)
    (current_chunk ih) (current_chunk_offset ih) (compression_level ih)
    (format ih) (guid ih) v (md5_hash_set ih) (xheader ih) (xheader_size ih)
    (header2 ih) (header2_size ih) (header ih) (header_size ih)
    (header_values ih) (hash_values ih) (acquiry_error_sectors ih)
    (acquiry_amount_of_errors ih).
Definition set_md5_hash_set (ih : libewf_internal_handle) (v : Z) :=
  mk_handle (media ih) (read ih) (write ih) (delta_segment_table ih)
    (current_chunk ih) (current_chunk_offset ih) (compression_level ih)
    (format ih) (guid ih) (md5_hash ih) v (xheader ih) (xheader_size ih)
    (header2 ih) (header2_size ih) (header ih) (header_size ih)
    (header_values ih) (hash_values ih) (acquiry_error_sectors ih)
    (acquiry_amount_of_errors ih).
Definition set_header_values (ih : libewf_internal_handle)
    (v : option ValuesTable.t) :=
  mk_handle (media ih) (read ih) (write ih) (delta_segment_table ih)
    (current_chunk ih) (current_chunk_offset ih) (compression_level ih)
    (format ih) (guid ih) (md5_hash ih) (md5_hash_set ih) (xheader ih)
    (xheader_size ih) (header2 ih) (header2_size ih) (header ih)
    (header_size ih) v (hash_values ih) (acquiry_error_sectors ih)
    (acquiry_amount_of_errors ih).
Definition set_acquiry_errors (ih : libewf_internal_handle)
    (l : option (list ErrorSector.t)) (n : Z) :=
  mk_handle (media ih) (read ih) (write ih) (delta_segment_table ih)
    (current_chunk ih) (current_chunk_offset ih) (compression_level ih)
    (format ih) (guid ih) (md5_hash ih) (md5_hash_set ih) (xheader ih)
    (xheader_size ih) (header2 ih) (header2_size ih) (header ih)
    (header_size ih) (header_values ih) (hash_values ih) l n.

(** ** Results of the API functions

    An [int] or [off64_t] function returns a value and leaves the handle
    object in some state.  [Undefined] stands for an execution the C
    standard gives no meaning to (a division by zero, an access through a
    NULL pointer or outside an array). *)

Inductive outcome : Type :=
| Returns (value : Z) (handle_after : option libewf_internal_handle)
| Undefined.

(** [libewf_common_memcpy( destination, source, size )] into an array of
    exactly [size] bytes. *)
Definition libewf_common_memcpy (source : list Byte.byte) (size : Z)
  : list Byte.byte :=
  firstn (Z.to_nat size) source.

(** [libewf_common_memcpy] into the start of a caller's buffer. *)
Definition memcpy_into (destination source : list Byte.byte) (size : Z)
  : list Byte.byte :=
  firstn (Z.to_nat size) source ++ skipn (Z.to_nat size) destination.

(** ** Getters and setters of the handle *)

Section HandleValues.

Context {definitions : libewf_definitions}.

(** [libewf_get_md5_hash( handle, md5_hash, size )].  The second component
    is the caller's buffer after the call. *)
Definition libewf_get_md5_hash (handle : option libewf_internal_handle)
    (md5_hash_buffer : option (list Byte.byte)) (size : Z)
  : outcome * option (list Byte.byte) :=
  match handle with
  | None => (Returns (-1) handle, md5_hash_buffer)
  | Some internal_handle =>
      if md5_hash_set internal_handle =? 0 then
        (Returns 0 handle, md5_hash_buffer)
      else
        match md5_hash_buffer with
        | None => (Returns (-1) handle, md5_hash_buffer)
        | Some buffer =>
            if size <? EWF_DIGEST_HASH_SIZE_MD5 then
              (Returns (-1) handle, md5_hash_buffer)
            else
              (Returns 1 handle,
               Some (memcpy_into buffer (md5_hash internal_handle)
                       EWF_DIGEST_HASH_SIZE_MD5))
        end
  end.

(** [libewf_set_sectors_per_chunk( handle, sectors_per_chunk )] *)
Definition libewf_set_sectors_per_chunk
    (handle : option libewf_internal_handle) (sectors_per_chunk : Z)
  : outcome :=
  match handle with
  | None => Returns (-1) handle
  | Some internal_handle =>
      match media internal_handle with
      | None => Returns (-1) handle
      | Some m =>
          if (sectors_per_chunk =? 0) || (sectors_per_chunk >? INT32_MAX) then
            Returns (-1) handle
          else
            match write internal_handle with
            | None => Returns (-1) handle
            | Some w =>
                if negb (HandleWrite.values_initialized w =? 0) then
                  Returns (-1) handle
                else
                  Returns 1
                    (Some (set_media internal_handle
                       (Some (HandleMedia.set_sectors_per_chunk m
                                sectors_per_chunk))))
            end
      end
  end.

(** [libewf_set_bytes_per_sector( handle, bytes_per_sector )] *)
Definition libewf_set_bytes_per_sector
    (handle : option libewf_internal_handle) (bytes_per_sector : Z)
  : outcome :=
  match handle with
  | None => Returns (-1) handle
  | Some internal_handle =>
      match media internal_handle with
      | None => Returns (-1) handle
      | Some m =>
          if (bytes_per_sector =? 0) || (bytes_per_sector >? INT32_MAX) then
            Returns (-1) handle
          else
            match write internal_handle with
            | None => Returns (-1) handle
            | Some w =>
                if negb (HandleWrite.values_initialized w =? 0) then
                  Returns (-1) handle
                else
                  Returns 1
                    (Some (set_media internal_handle
                       (Some (HandleMedia.set_bytes_per_sector m
                                bytes_per_sector))))
            end
      end
  end.

(** [libewf_set_guid( handle, guid, size )] *)
Definition libewf_set_guid (handle : option libewf_internal_handle)
    (guid_buffer : option (list Byte.byte)) (size : Z) : outcome :=
  match handle with
  | None => Returns (-1) handle
  | Some internal_handle =>
      match guid_buffer with
      | None => Returns (-1) handle
      | Some buffer =>
          if size <? 16 then Returns (-1) handle
          else
            let initialized :=
              match write internal_handle with
              | None => false
              | Some w => negb (HandleWrite.values_initialized w =? 0)
              end in
            if initialized then Returns (-1) handle
            else
              Returns 1
                (Some (set_guid internal_handle
                         (libewf_common_memcpy buffer 16)))
      end
  end.

(** [libewf_set_md5_hash( handle, md5_hash, size )] *)
Definition libewf_set_md5_hash (handle : option libewf_internal_handle)
    (md5_hash_buffer : option (list Byte.byte)) (size : Z) : outcome :=
  match handle with
  | None => Returns (-1) handle
  | Some internal_handle =>
      match md5_hash_buffer with
      | None => Returns (-1) handle
      | Some buffer =>
          if size <? EWF_DIGEST_HASH_SIZE_MD5 then Returns (-1) handle
          else if negb (md5_hash_set internal_handle =? 0) then
            Returns (-1) handle
          else
            Returns 1
              (Some (set_md5_hash_set
                       (set_md5_hash internal_handle
                          (libewf_common_memcpy buffer
                             EWF_DIGEST_HASH_SIZE_MD5))
                       1))
      end
  end.

(** [libewf_segment_file_set_filename] lives in libewf_segment_file.c,
    which is not part of the sources: it is a parameter.  It returns the
    result code and the segment file afterwards. *)
Variable libewf_segment_file_set_filename :
  SegmentTable.t -> option string -> Z -> Z * SegmentTable.t.

(** [libewf_set_delta_segment_filename( handle, filename, length )] *)
Definition libewf_set_delta_segment_filename
    (handle : option libewf_internal_handle) (filename : option string)
    (length : Z) : outcome :=
  match handle with
  | None => Returns (-1) handle
  | Some internal_handle =>
      match write internal_handle with
      | None => Returns (-1) handle
      | Some w =>
          if negb (HandleWrite.values_initialized w =? 0) then
            Returns (-1) handle
          else
            match delta_segment_table internal_handle with
            | None => Returns (-1) handle
            | Some table =>
                let '(result, table') :=
                  libewf_segment_file_set_filename table filename length in
                Returns result
                  (Some (set_delta_segment_table internal_handle (Some table')))
            end
      end
  end.

(** [libewf_set_write_segment_file_size( handle, segment_file_size )] *)
Definition libewf_set_write_segment_file_size
    (handle : option libewf_internal_handle) (segment_file_size : Z)
  : outcome :=
  match handle with
  | None => Returns (-1) handle
  | Some internal_handle =>
      match write internal_handle with
      | None => Returns (-1) handle
      | Some w =>
          if negb (HandleWrite.values_initialized w =? 0) then
            Returns (-1) handle
          else if (segment_file_size =? 0) || (segment_file_size >? INT64_MAX)
          then Returns (-1) handle
          else
            Returns 1
              (Some (set_write internal_handle
                 (Some (HandleWrite.set_segment_file_size w segment_file_size))))
      end
  end.

(** [libewf_set_write_error_granularity( handle, error_granularity )] *)
Definition libewf_set_write_error_granularity
    (handle : option libewf_internal_handle) (error_granularity : Z)
  : outcome :=
  match handle with
  | None => Returns (-1) handle
  | Some internal_handle =>
      match media internal_handle with
      | None => Returns (-1) handle
      | Some m =>
          let initialized :=
            match write internal_handle with
            | None => false
            | Some w => negb (HandleWrite.values_initialized w =? 0)
            end in
          if initialized then Returns (-1) handle
          else
            Returns 1
              (Some (set_media internal_handle
                 (Some (HandleMedia.set_error_granularity m error_granularity))))
      end
  end.

(** [libewf_set_write_compression_values( handle, compression_level,
    compress_empty_block )] *)
Definition libewf_set_write_compression_values
    (handle : option libewf_internal_handle) (compression_level : Z)
    (compress_empty_block : Z) : outcome :=
  match handle with
  | None => Returns (-1) handle
  | Some internal_handle =>
      match write internal_handle with
      | None => Returns (-1) handle
      | Some w =>
          let internal_handle :=
            set_compression_level internal_handle compression_level in
          if compression_level =? EWF_COMPRESSION_NONE then
            Returns 1
              (Some (set_write internal_handle
                 (Some (HandleWrite.set_compress_empty_block w
                          compress_empty_block))))
          else Returns 1 (Some internal_handle)
      end
  end.

(** [libewf_set_write_media_type( handle, media_type, volume_type )].  The
    media type is stored before the volume type is looked at. *)
Definition libewf_set_write_media_type
    (handle : option libewf_internal_handle) (media_type volume_type : Z)
  : outcome :=
  match handle with
  | None => Returns (-1) handle
  | Some internal_handle =>
      match media internal_handle with
      | None => Returns (-1) handle
      | Some m =>
          let m := HandleMedia.set_media_type m media_type in
          if volume_type =? LIBEWF_VOLUME_TYPE_LOGICAL then
            Returns 1
              (Some (set_media internal_handle
                 (Some (HandleMedia.set_media_flags m
                    (to_uint8 (Z.land (HandleMedia.media_flags m)
                                 (Z.lnot EWF_MEDIA_FLAGS_IS_PHYSICAL)))))))
          else if volume_type =? LIBEWF_VOLUME_TYPE_PHYSICAL then
            Returns 1
              (Some (set_media internal_handle
                 (Some (HandleMedia.set_media_flags m
                    (to_uint8 (Z.lor (HandleMedia.media_flags m)
                                 EWF_MEDIA_FLAGS_IS_PHYSICAL))))))
          else
            Returns (-1) (Some (set_media internal_handle (Some m)))
      end
  end.

(** [libewf_set_write_format( handle, format )] *)
Definition libewf_set_write_format (handle : option libewf_internal_handle)
    (format : Z) : outcome :=
  match handle with
  | None => Returns (-1) handle
  | Some internal_handle =>
      Returns 1 (Some (set_format internal_handle format))
  end.

(** [libewf_set_write_input_size( handle, input_write_size )] *)
Definition libewf_set_write_input_size
    (handle : option libewf_internal_handle) (input_write_size : Z)
  : outcome :=
  match handle with
  | None => Returns (-1) handle
  | Some internal_handle =>
      match write internal_handle with
      | None => Returns (-1) handle
      | Some w =>
          if negb (HandleWrite.values_initialized w =? 0) then
            Returns (-1) handle
          else if input_write_size >? INT64_MAX then Returns (-1) handle
          else
            Returns 1
              (Some (set_write internal_handle
                 (Some (HandleWrite.set_input_write_size w input_write_size))))
      end
  end.

End HandleValues.

(** ** Calls to functions of other compilation units

    [libewf_open], [libewf_close] and [libewf_parse_header_values] call
    functions that are defined outside libewf_file.c.  These are parameters
    of the model; the model records which of them are called, in order. *)

Inductive call : Type :=
| CallHandleAlloc
| CallHandleReadInitialize
| CallSegmentFileReadOpen
| CallHandleDetermineFormat
| CallSegmentFileWriteOpen
| CallHandleFree
| CallWriteFinalize
| CallSegmentFileCloseAll
| CallParseXheader
| CallParseHeader2
| CallParseHeader
| CallValuesTableFree.

(** ** Opening and closing *)

(** The result of [libewf_open]: the handle pointer it returns. *)
Inductive open_outcome : Type :=
| OpenReturns (handle : option libewf_internal_handle)
| OpenUndefined.

Section OpenClose.

Context {definitions : libewf_definitions}.

Variable libewf_internal_handle_alloc : Z -> option libewf_internal_handle.
Variable libewf_internal_handle_read_initialize :
  libewf_internal_handle -> Z * libewf_internal_handle.
Variable libewf_segment_file_read_open :
  libewf_internal_handle -> list string -> Z -> Z -> Z * libewf_internal_handle.
Variable libewf_internal_handle_determine_format :
  libewf_internal_handle -> Z * libewf_internal_handle.
Variable libewf_segment_file_write_open :
  libewf_internal_handle -> list string -> Z -> Z * libewf_internal_handle.

(** [libewf_open( filenames, file_amount, flags )] *)
Definition libewf_open (filenames : option (list string))
    (file_amount flags : Z) : list call * open_outcome :=
  match filenames with
  | None => ([], OpenReturns None)
  | Some names =>
      if file_amount <? 1 then ([], OpenReturns None)
      else if negb (Z.land flags LIBEWF_FLAG_READ =? LIBEWF_FLAG_READ)
              && negb (Z.land flags LIBEWF_FLAG_WRITE =? LIBEWF_FLAG_WRITE)
      then ([], OpenReturns None)
      else
        match libewf_internal_handle_alloc flags with
        | None => ([CallHandleAlloc], OpenReturns None)
        | Some internal_handle =>
            if Z.land flags LIBEWF_FLAG_READ =? LIBEWF_FLAG_READ then
              let '(initialized, internal_handle) :=
                libewf_internal_handle_read_initialize internal_handle in
              if negb (initialized =? 1) then
                ([CallHandleAlloc; CallHandleReadInitialize; CallHandleFree],
                 OpenReturns None)
              else
                let '(opened, internal_handle) :=
                  libewf_segment_file_read_open internal_handle names
                    file_amount flags in
                if negb (opened =? 1) then
                  ([CallHandleAlloc; CallHandleReadInitialize;
                    CallSegmentFileReadOpen; CallHandleFree],
                   OpenReturns None)
                else
                  let '(_, internal_handle) :=
                    libewf_internal_handle_determine_format internal_handle in
                  ([CallHandleAlloc; CallHandleReadInitialize;
                    CallSegmentFileReadOpen; CallHandleDetermineFormat],
                   match media internal_handle with
                   | None => OpenUndefined
                   | Some m =>
                       OpenReturns
                         (Some (set_media internal_handle
                            (Some (HandleMedia.set_media_size m
                               ((HandleMedia.amount_of_sectors m
                                 * HandleMedia.bytes_per_sector m)
                                mod UINT64_MODULUS)))))
                   end)
            else if Z.land flags LIBEWF_FLAG_WRITE =? LIBEWF_FLAG_WRITE then
              let '(opened, internal_handle) :=
                libewf_segment_file_write_open internal_handle names
                  file_amount in
              if negb (opened =? 1) then
                ([CallHandleAlloc; CallSegmentFileWriteOpen; CallHandleFree],
                 OpenReturns None)
              else
                ([CallHandleAlloc; CallSegmentFileWriteOpen],
                 OpenReturns (Some internal_handle))
            else ([CallHandleAlloc], OpenReturns (Some internal_handle))
        end
  end.

Variable libewf_write_finalize :
  libewf_internal_handle -> Z * libewf_internal_handle.
Variable libewf_segment_file_close_all :
  libewf_internal_handle -> Z * libewf_internal_handle.

(** [libewf_close( handle )].  After [libewf_internal_handle_free] the
    handle object is gone ([None]). *)
Definition libewf_close (handle : option libewf_internal_handle)
  : list call * outcome :=
  match handle with
  | None => ([], Returns (-1) handle)
  | Some internal_handle =>
      let '(finalize, internal_handle) :=
        match write internal_handle with
        | Some w =>
            if HandleWrite.write_finalized w =? 0 then
              ([CallWriteFinalize],
               snd (libewf_write_finalize internal_handle))
            else ([], internal_handle)
        | None => ([], internal_handle)
        end in
      let '(closed, internal_handle) :=
        libewf_segment_file_close_all internal_handle in
      if negb (closed =? 1) then
        (finalize ++ [CallSegmentFileCloseAll],
         Returns (-1) (Some internal_handle))
      else
        (finalize ++ [CallSegmentFileCloseAll; CallHandleFree],
         Returns 0 None)
  end.

End OpenClose.

(** ** Seeking *)

Section Seek.

(** [libewf_segment_file_seek_chunk_offset( internal_handle, chunk )] of
    libewf_segment_file.c: the offset it returns (-1 on error) and the
    handle afterwards. *)
Variable libewf_segment_file_seek_chunk_offset :
  libewf_internal_handle -> Z -> Z * libewf_internal_handle.

(** [libewf_seek_offset( handle, offset )] *)
Definition libewf_seek_offset (handle : option libewf_internal_handle)
    (offset : Z) : outcome :=
  match handle with
  | None => Returns (-1) handle
  | Some internal_handle =>
      match media internal_handle with
      | None => Returns (-1) handle
      | Some m =>
          if offset <=? -1 then Returns (-1) handle
          else if offset >=? to_int64 (HandleMedia.media_size m) then
            Returns (-1) handle
          else if HandleMedia.chunk_size m =? 0 then Undefined
          else
            let chunk := offset / HandleMedia.chunk_size m in
            if chunk >=? INT32_MAX then Returns (-1) handle
            else
              let '(sought, internal_handle) :=
                libewf_segment_file_seek_chunk_offset internal_handle chunk in
              if sought =? -1 then Returns (-1) (Some internal_handle)
              else
                match media internal_handle with
                | None => Undefined
                | Some m =>
                    if HandleMedia.chunk_size m =? 0 then Undefined
                    else
                      let chunk_offset := offset mod HandleMedia.chunk_size m in
                      if chunk_offset >=? INT32_MAX then
                        Returns (-1) (Some internal_handle)
                      else
                        Returns offset
                          (Some (set_current_chunk_offset internal_handle
                                   chunk_offset))
                end
      end
  end.

End Seek.

(** ** Header values *)

Section HeaderValues.

Context {definitions : libewf_definitions}.

(** The parsers of libewf_header_values.c: given the header bytes, their
    size and the date format they return a new values table, or NULL. *)
Variable libewf_header_values_parse_xheader :
  list Byte.byte -> Z -> Z -> option ValuesTable.t.
Variable libewf_header_values_parse_header2 :
  list Byte.byte -> Z -> Z -> option ValuesTable.t.
Variable libewf_header_values_parse_header :
  list Byte.byte -> Z -> Z -> option ValuesTable.t.

(** [value[ 0 ] == '3'] on a NUL terminated string. *)
Definition first_character_is (c : ascii) (value : string) : bool :=
  match value with
  | EmptyString => false
  | String first _ => Ascii.eqb first c
  end.

(** The three parse attempts of [libewf_parse_header_values], with the
    calls they make. *)
Definition parse_headers (internal_handle : libewf_internal_handle)
    (date_format : Z) : list call * option ValuesTable.t :=
  let '(calls1, header_values) :=
    match xheader internal_handle with
    | Some data =>
        ([CallParseXheader],
         libewf_header_values_parse_xheader data
           (xheader_size internal_handle) date_format)
    | None => ([], None)
    end in
  let '(calls2, header_values) :=
    match header_values, header2 internal_handle with
    | None, Some data =>
        ([CallParseHeader2],
         libewf_header_values_parse_header2 data
           (header2_size internal_handle) date_format)
    | _, _ => ([], header_values)
    end in
  let '(calls3, header_values) :=
    match header_values, header internal_handle with
    | None, Some data =>
        ([CallParseHeader],
         libewf_header_values_parse_header data
           (header_size internal_handle) date_format)
    | _, _ => ([], header_values)
    end in
  (calls1 ++ calls2 ++ calls3, header_values).

(** [libewf_parse_header_values( handle, date_format )] *)
Definition libewf_parse_header_values
    (handle : option libewf_internal_handle) (date_format : Z)
  : list call * outcome :=
  match handle with
  | None => ([], Returns (-1) handle)
  | Some internal_handle =>
      let '(calls, parsed) := parse_headers internal_handle date_format in
      match parsed with
      | None => (calls, Returns (-1) handle)
      | Some new_values =>
          let freed :=
            match header_values internal_handle with
            | Some _ => [CallValuesTableFree]
            | None => []
            end in
          let internal_handle :=
            set_header_values internal_handle (Some new_values) in
          (calls ++ freed,
           if format internal_handle =? LIBEWF_FORMAT_ENCASE2 then
             match nth_error (ValuesTable.values new_values)
                     LIBEWF_HEADER_VALUES_INDEX_ACQUIRY_SOFTWARE_VERSION with
             | None => Undefined
             | Some None => Returns 1 (Some internal_handle)
             | Some (Some version) =>
                 if first_character_is "3"%char version then
                   Returns 1
                     (Some (set_format internal_handle LIBEWF_FORMAT_ENCASE3))
                 else Returns 1 (Some internal_handle)
             end
           else Returns 1 (Some internal_handle))
      end
  end.

End HeaderValues.

(** ** Sector error lists *)

Section ErrorSectors.

Context {definitions : libewf_definitions}.

(** [libewf_common_alloc] and [libewf_common_realloc] of libewf_common.h:
    whether a request for that many bytes is granted. *)
Variable libewf_common_alloc : Z -> bool.
Variable libewf_common_realloc : Z -> bool.

(** The loop [for( iterator = 0; iterator < amount; iterator++ )] over an
    error sector array: [Some true] when an entry with the sector is met,
    [Some false] when the loop runs to its end, [None] when it reads past
    the end of the array. *)
Fixpoint error_sectors_find (error_sectors : list ErrorSector.t)
    (amount : nat) (sector : Z) : option bool :=
  match amount with
  | O => Some false
  | S amount' =>
      match error_sectors with
      | [] => None
      | entry :: rest =>
          if ErrorSector.sector entry =? sector then Some true
          else error_sectors_find rest amount' sector
      end
  end.

(** The amount of entries an allocation of [size] bytes holds; the size
    is a [size_t]. *)
Definition error_sectors_capacity (size : Z) : Z :=
  if LIBEWF_ERROR_SECTOR_SIZE <=? 0 then 0
  else to_size_t size / LIBEWF_ERROR_SECTOR_SIZE.

(** The store [error_sectors[ amount ] = { sector, amount_of_sectors }]
    into an array of [capacity] entries that kept its first [amount]
    entries; [None] when the index is outside the array. *)
Definition error_sectors_store (error_sectors : list ErrorSector.t)
    (capacity amount sector amount_of_sectors : Z)
  : option (list ErrorSector.t) :=
  if (0 <=? amount) && (amount <? capacity) then
    Some (firstn (Z.to_nat amount) error_sectors
          ++ [ErrorSector.mk sector amount_of_sectors])
  else None.

(** [libewf_add_acquiry_error( handle, sector, amount_of_sectors )] *)
Definition libewf_add_acquiry_error (handle : option libewf_internal_handle)
    (sector amount_of_sectors : Z) : outcome :=
  match handle with
  | None => Returns (-1) handle
  | Some internal_handle =>
      match media internal_handle with
      | None => Returns (-1) handle
      | Some _ =>
          if sector <=? -1 then Returns (-1) handle
          else
            let amount := acquiry_amount_of_errors internal_handle in
            let append error_sectors size :=
              match error_sectors_store error_sectors
                      (error_sectors_capacity size) amount sector
                      amount_of_sectors with
              | None => Undefined
              | Some error_sectors' =>
                  Returns 1
                    (Some (set_acquiry_errors internal_handle
                             (Some error_sectors') (to_uint32 (amount + 1))))
              end in
            match acquiry_error_sectors internal_handle with
            | None =>
                let size := LIBEWF_ERROR_SECTOR_SIZE in
                if libewf_common_alloc size then append [] size
                else Returns (-1) handle
            | Some error_sectors =>
                match error_sectors_find error_sectors (Z.to_nat amount)
                        sector with
                | None => Undefined
                | Some true => Returns 1 handle
                | Some false =>
                    let size :=
                      to_size_t
                        (LIBEWF_ERROR_SECTOR_SIZE * to_uint32 (amount + 1)) in
                    if libewf_common_realloc size then
                      append error_sectors size
                    else Returns (-1) handle
                end
            end
      end
  end.

(** [libewf_add_crc_error( handle, sector, amount_of_sectors )] *)
Definition libewf_add_crc_error (handle : option libewf_internal_handle)
    (sector amount_of_sectors : Z) : outcome :=
  match handle with
  | None => Returns (-1) handle
  | Some internal_handle =>
      match media internal_handle with
      | None => Returns (-1) handle
      | Some _ =>
          match read internal_handle with
          | None => Returns (-1) handle
          | Some r =>
              let amount := HandleRead.crc_amount_of_errors r in
              let append error_sectors size :=
                match error_sectors_store error_sectors
                        (error_sectors_capacity size) amount sector
                        amount_of_sectors with
                | None => Undefined
                | Some error_sectors' =>
                    Returns 1
                      (Some (set_read internal_handle
                         (Some (HandleRead.set_crc_errors r
                                  (Some error_sectors')
                                  (to_uint32 (amount + 1))))))
                end in
              match HandleRead.crc_error_sectors r with
              | None =>
                  let size := LIBEWF_ERROR_SECTOR_SIZE in
                  if libewf_common_alloc size then append [] size
                  else Returns (-1) handle
              | Some error_sectors =>
                  match error_sectors_find error_sectors (Z.to_nat amount)
                          sector with
                  | None => Undefined
                  | Some true => Returns 1 handle
                  | Some false =>
                      let size :=
                        to_size_t
                          (LIBEWF_ERROR_SECTOR_SIZE * to_uint32 (amount + 1))
                      in
                      if libewf_common_realloc size then
                        append error_sectors size
                      else Returns (-1) handle
                  end
              end
          end
      end
  end.

End ErrorSectors.

(** ** Reachable handle states

    The operations of libewf_file.c that work on the handle object alone.
    The allocator answers and the functions of other compilation units a
    call depends on are part of the operation. *)

Inductive operation : Type :=
| SetSectorsPerChunk (sectors_per_chunk : Z)
| SetBytesPerSector (bytes_per_sector : Z)
| SetGuid (guid_buffer : option (list Byte.byte)) (size : Z)
| SetMd5Hash (md5_hash_buffer : option (list Byte.byte)) (size : Z)
| SetDeltaSegmentFilename
    (set_filename : SegmentTable.t -> option string -> Z -> Z * SegmentTable.t)
    (filename : option string) (length : Z)
| SetWriteSegmentFileSize (segment_file_size : Z)
| SetWriteErrorGranularity (error_granularity : Z)
| SetWriteCompressionValues (compression_level compress_empty_block : Z)
| SetWriteMediaType (media_type volume_type : Z)
| SetWriteFormat (format : Z)
| SetWriteInputSize (input_write_size : Z)
| ParseHeaderValues
    (parse_xheader parse_header2 parse_header :
       list Byte.byte -> Z -> Z -> option ValuesTable.t)
    (date_format : Z)
| AddAcquiryError (alloc realloc : Z -> bool) (sector amount_of_sectors : Z)
| AddCrcError (alloc realloc : Z -> bool) (sector amount_of_sectors : Z).

Section Reachable.

Context {definitions : libewf_definitions}.

Definition run (op : operation) (handle : option libewf_internal_handle)
  : outcome :=
  match op with
  | SetSectorsPerChunk v => libewf_set_sectors_per_chunk handle v
  | SetBytesPerSector v => libewf_set_bytes_per_sector handle v
  | SetGuid buffer size => libewf_set_guid handle buffer size
  | SetMd5Hash buffer size => libewf_set_md5_hash handle buffer size
  | SetDeltaSegmentFilename set_filename filename length =>
      libewf_set_delta_segment_filename set_filename handle filename length
  | SetWriteSegmentFileSize v => libewf_set_write_segment_file_size handle v
  | SetWriteErrorGranularity v => libewf_set_write_error_granularity handle v
  | SetWriteCompressionValues level empty =>
      libewf_set_write_compression_values handle level empty
  | SetWriteMediaType media_type volume_type =>
      libewf_set_write_media_type handle media_type volume_type
  | SetWriteFormat v => libewf_set_write_format handle v
  | SetWriteInputSize v => libewf_set_write_input_size handle v
  | ParseHeaderValues parse_xheader parse_header2 parse_header date_format =>
      snd (libewf_parse_header_values parse_xheader parse_header2 parse_header
             handle date_format)
  | AddAcquiryError alloc realloc sector amount =>
      libewf_add_acquiry_error alloc realloc handle sector amount
  | AddCrcError alloc realloc sector amount =>
      libewf_add_crc_error alloc realloc handle sector amount
  end.

(** The handle states reached from [initial] by operations that return. *)
Inductive reachable (initial : libewf_internal_handle)
  : libewf_internal_handle -> Prop :=
| reachable_initial : reachable initial initial
| reachable_step (internal_handle internal_handle' : libewf_internal_handle)
    (op : operation) (value : Z) :
    reachable initial internal_handle ->
    run op (Some internal_handle) = Returns value (Some internal_handle') ->
    reachable initial internal_handle'.

End Reachable.

(** The entries of an error sector array ([NULL] has none). *)
Definition error_sector_entries (error_sectors : option (list ErrorSector.t))
  : list ErrorSector.t :=
  match error_sectors with
  | Some entries => entries
  | None => []
  end.

Definition acquiry_errors (internal_handle : libewf_internal_handle)
  : list ErrorSector.t :=
  error_sector_entries (acquiry_error_sectors internal_handle).

Definition crc_errors (internal_handle : libewf_internal_handle)
  : list ErrorSector.t :=
  match read internal_handle with
  | Some r => error_sector_entries (HandleRead.crc_error_sectors r)
  | None => []
  end.

Definition crc_amount (internal_handle : libewf_internal_handle) : Z :=
  match read internal_handle with
  | Some r => HandleRead.crc_amount_of_errors r
  | None => 0
  end.

(** An error list is consistent when its counter is the length of the
    array (zero for NULL) and no start sector occurs twice. *)
Definition error_list_ok (error_sectors : option (list ErrorSector.t))
    (amount : Z) : Prop :=
  Z.of_nat (List.length (error_sector_entries error_sectors)) = amount
  /\ NoDup (map ErrorSector.sector (error_sector_entries error_sectors)).

(** The state of a handle is consistent when it has its media sub handle,
    both error lists are consistent and, as [libewf_add_acquiry_error]
    refuses negative sectors, no acquiry error starts below sector 0. *)
Definition handle_consistent (internal_handle : libewf_internal_handle)
  : Prop :=
  media internal_handle <> None
  /\ Forall (fun entry => 0 <= ErrorSector.sector entry)
       (acquiry_errors internal_handle)
  /\ error_list_ok (acquiry_error_sectors internal_handle)
       (acquiry_amount_of_errors internal_handle)
  /\ match read internal_handle with
     | Some r =>
         error_list_ok (HandleRead.crc_error_sectors r)
           (HandleRead.crc_amount_of_errors r)
     | None => True
     end.

(** The gate of the geometry setters: the write sub handle is missing or
    its values were initialized. *)
Definition write_values_frozen (internal_handle : libewf_internal_handle)
  : Prop :=
  write internal_handle = None
  \/ exists w, write internal_handle = Some w
               /\ HandleWrite.values_initialized w <> 0.

(** ** Example values

    An assignment of the header constants and simple stand-ins for the
    functions of other compilation units, used in the concrete evaluations
    below. *)

Definition example_definitions : libewf_definitions := {|
  LIBEWF_FLAG_READ := 1;
  LIBEWF_FLAG_WRITE := 2;
  LIBEWF_VOLUME_TYPE_LOGICAL := 0;
  LIBEWF_VOLUME_TYPE_PHYSICAL := 1;
  LIBEWF_FORMAT_ENCASE2 := 2;
  LIBEWF_FORMAT_ENCASE3 := 3;
  EWF_COMPRESSION_NONE := 0;
  LIBEWF_HEADER_VALUES_INDEX_ACQUIRY_SOFTWARE_VERSION := 8;
  LIBEWF_ERROR_SECTOR_SIZE := 16
|}.

Definition example_media : HandleMedia.t :=
  HandleMedia.mk 1048576 32768 64 512 2048 64 0 1.

Definition example_write : HandleWrite.t :=
  HandleWrite.mk 0 1500000000 0 0 0 0.

Definition example_read : HandleRead.t :=
  HandleRead.mk None 0 0.

Definition zero_bytes (n : nat) : list Byte.byte := repeat Byte.x00 n.

(** A handle as [libewf_open] leaves it for writing: media and write sub
    handles, no read sub handle, nothing set. *)
Definition example_write_handle : libewf_internal_handle :=
  mk_handle (Some example_media) None (Some example_write)
    (Some (SegmentTable.mk None)) 0 0 0 5 (zero_bytes 16) (zero_bytes 16) 0
    None 0 None 0 None 0 None None None 0.

(** A handle as [libewf_open] leaves it for reading. *)
Definition example_read_handle : libewf_internal_handle :=
  mk_handle (Some example_media) (Some example_read) None None 0 0 0 2
    (zero_bytes 16) (zero_bytes 16) 0
    None 0 None 0 (Some (zero_bytes 4)) 4 None None None 0.

(** Modelled from the spec: a stand-in for
    [libewf_segment_file_seek_chunk_offset] of the missing
    libewf_segment_file.c.  The spec has "Seek resolves chunk = off /
    chunk_size ...; both stored on handle" and "The table is a dense array
    indexed by chunk number": the chunk is looked up among [amount] table
    entries and becomes the current chunk. *)
Definition example_seek_chunk_offset (amount_of_chunks : Z)
    (internal_handle : libewf_internal_handle) (chunk : Z)
  : Z * libewf_internal_handle :=
  if chunk <? amount_of_chunks then
    (chunk * 32772, set_current_chunk internal_handle chunk)
  else (-1, internal_handle).

Definition example_set_filename (segment_file : SegmentTable.t)
    (filename : option string) (length : Z) : Z * SegmentTable.t :=
  match filename with
  | Some name => (1, SegmentTable.mk (Some name))
  | None => (-1, segment_file)
  end.

Definition example_values (version : option string) : ValuesTable.t :=
  ValuesTable.mk 14 (repeat None 14)
    (repeat None 8 ++ version :: repeat None 5).

Definition example_parse_fails (data : list Byte.byte) (size date_format : Z)
  : option ValuesTable.t := None.

Definition example_parse (version : option string) (data : list Byte.byte)
    (size date_format : Z) : option ValuesTable.t :=
  Some (example_values version).

Definition example_helper (result : Z)
    (internal_handle : libewf_internal_handle)
  : Z * libewf_internal_handle := (result, internal_handle).

Definition example_granted (size : Z) : bool := true.


(** ** Notions used in the statements *)

(** The handle [libewf_segment_file_close_all] is called on by
    [libewf_close]: the finalized one when a write was pending. *)
Definition handle_before_closing
    (write_finalize : libewf_internal_handle -> Z * libewf_internal_handle)
    (ih : libewf_internal_handle) : libewf_internal_handle :=
  match write ih with
  | Some w =>
      if HandleWrite.write_finalized w =? 0 then snd (write_finalize ih)
      else ih
  | None => ih
  end.

(** What a parser yields for a header section that may be missing. *)
Definition parsed_values
    (parse : list Byte.byte -> Z -> Z -> option ValuesTable.t)
    (data : option (list Byte.byte)) (size date_format : Z)
  : option ValuesTable.t :=
  match data with
  | Some bytes => parse bytes size date_format
  | None => None
  end.

(** The preference order in the words of the spec, "prefer xheader, then
    header2, then header": the values of the first of the three headers
    that is present and yields values. *)
Definition preferred_header_values
    (parse_xheader parse_header2 parse_header :
       list Byte.byte -> Z -> Z -> option ValuesTable.t)
    (ih : libewf_internal_handle) (date_format : Z)
  : option ValuesTable.t :=
  match parsed_values parse_xheader (xheader ih) (xheader_size ih)
          date_format with
  | Some table => Some table
  | None =>
      match parsed_values parse_header2 (header2 ih) (header2_size ih)
              date_format with
      | Some table => Some table
      | None =>
          parsed_values parse_header (header ih) (header_size ih) date_format
      end
  end.

(** The acquiry software version is present and starts with '3'. *)
Definition version_starts_with_3 (version : option string) : bool :=
  match version with
  | Some value => first_character_is "3"%char value
  | None => false
  end.

(** * Further functions of libewf_file.c *)

(** A pointer to a caller's variable is an [option]: [None] is NULL,
    [Some v] a variable that holds [v].  A getter returns its result
    together with the variable after the call. *)

Definition INT8_MAX : Z := 127.

(** The conversion [(int8_t) x]. *)
Definition to_int8 (x : Z) : Z :=
  let r := x mod UINT8_MODULUS in
  if r <=? INT8_MAX then r else r - UINT8_MODULUS.

Definition is_uint8 (x : Z) : Prop := 0 <= x < UINT8_MODULUS.

Section FlagGetters.

Context {definitions : libewf_definitions}.

(** [libewf_get_flags_read( void )] *)
Definition libewf_get_flags_read : Z := to_uint8 LIBEWF_FLAG_READ.

(** [libewf_get_flags_read_write( void )] *)
Definition libewf_get_flags_read_write : Z :=
  to_uint8 (Z.lor LIBEWF_FLAG_READ LIBEWF_FLAG_WRITE).

(** [libewf_get_flags_write( void )] *)
Definition libewf_get_flags_write : Z := to_uint8 LIBEWF_FLAG_WRITE.

End FlagGetters.

(** ** Checking the file signature *)

(** The calls [libewf_check_file_signature] makes; the descriptor is the
    argument of the call. *)
Inductive file_call : Type :=
| CallFilenameOpen
| CallCheckFileSignature (file_descriptor : Z)
| CallCommonClose (file_descriptor : Z).

Section CheckFileSignature.

(** [LIBEWF_OPEN_READ] and the file functions are defined outside
    libewf_file.c. *)
Variable LIBEWF_OPEN_READ : Z.
Variable libewf_filename_open : string -> Z -> Z.
Variable libewf_segment_file_check_file_signature : Z -> Z.
Variable libewf_common_close : Z -> Z.

(** [libewf_check_file_signature( filename )] *)
Definition libewf_check_file_signature (filename : option string)
  : list file_call * Z :=
  match filename with
  | None => ([], -1)
  | Some name =>
      let file_descriptor := libewf_filename_open name LIBEWF_OPEN_READ in
      if file_descriptor <? 0 then ([CallFilenameOpen], -1)
      else
        let result :=
          libewf_segment_file_check_file_signature file_descriptor in
        let calls :=
          [CallFilenameOpen; CallCheckFileSignature file_descriptor;
           CallCommonClose file_descriptor] in
        if negb (libewf_common_close file_descriptor =? 0) then (calls, -1)
        else if result <=? -1 then (calls, -1)
        else (calls, result)
  end.

End CheckFileSignature.

(** ** Getters of the media values *)

(** [libewf_get_sectors_per_chunk( handle, sectors_per_chunk )] *)
Definition libewf_get_sectors_per_chunk
    (handle : option libewf_internal_handle) (sectors_per_chunk : option Z)
  : outcome * option Z :=
  match handle with
  | None => (Returns (-1) handle, sectors_per_chunk)
  | Some internal_handle =>
      match media internal_handle with
      | None => (Returns (-1) handle, sectors_per_chunk)
      | Some m =>
          match sectors_per_chunk with
          | None => (Returns (-1) handle, sectors_per_chunk)
          | Some _ =>
              if HandleMedia.sectors_per_chunk m >? INT32_MAX then
                (Returns (-1) handle, sectors_per_chunk)
              else (Returns 1 handle, Some (HandleMedia.sectors_per_chunk m))
          end
      end
  end.

(** [libewf_get_bytes_per_sector( handle, bytes_per_sector )] *)
Definition libewf_get_bytes_per_sector
    (handle : option libewf_internal_handle) (bytes_per_sector : option Z)
  : outcome * option Z :=
  match handle with
  | None => (Returns (-1) handle, bytes_per_sector)
  | Some internal_handle =>
      match media internal_handle with
      | None => (Returns (-1) handle, bytes_per_sector)
      | Some m =>
          match bytes_per_sector with
          | None => (Returns (-1) handle, bytes_per_sector)
          | Some _ =>
              if HandleMedia.bytes_per_sector m >? INT32_MAX then
                (Returns (-1) handle, bytes_per_sector)
              else (Returns 1 handle, Some (HandleMedia.bytes_per_sector m))
          end
      end
  end.

(** [libewf_get_amount_of_sectors( handle, amount_of_sectors )] *)
Definition libewf_get_amount_of_sectors
    (handle : option libewf_internal_handle) (amount_of_sectors : option Z)
  : outcome * option Z :=
  match handle with
  | None => (Returns (-1) handle, amount_of_sectors)
  | Some internal_handle =>
      match media internal_handle with
      | None => (Returns (-1) handle, amount_of_sectors)
      | Some m =>
          match amount_of_sectors with
          | None => (Returns (-1) handle, amount_of_sectors)
          | Some _ =>
              if HandleMedia.amount_of_sectors m >? INT32_MAX then
                (Returns (-1) handle, amount_of_sectors)
              else (Returns 1 handle, Some (HandleMedia.amount_of_sectors m))
          end
      end
  end.

(** [libewf_get_error_granularity( handle, error_granularity )] *)
Definition libewf_get_error_granularity
    (handle : option libewf_internal_handle) (error_granularity : option Z)
  : outcome * option Z :=
  match handle with
  | None => (Returns (-1) handle, error_granularity)
  | Some internal_handle =>
      match media internal_handle with
      | None => (Returns (-1) handle, error_granularity)
      | Some m =>
          match error_granularity with
          | None => (Returns (-1) handle, error_granularity)
          | Some _ =>
              if HandleMedia.error_granularity m >? INT32_MAX then
                (Returns (-1) handle, error_granularity)
              else (Returns 1 handle, Some (HandleMedia.error_granularity m))
          end
      end
  end.

Section ChunkSize.

(** [libewf_internal_handle_write_initialize] of another compilation
    unit: its result and the handle afterwards. *)
Variable libewf_internal_handle_write_initialize :
  libewf_internal_handle -> Z * libewf_internal_handle.

(** [libewf_get_chunk_size( handle, chunk_size )]: initializes the write
    values when they are not yet. *)
Definition libewf_get_chunk_size (handle : option libewf_internal_handle)
    (chunk_size : option Z) : outcome * option Z :=
  match handle with
  | None => (Returns (-1) handle, chunk_size)
  | Some internal_handle =>
      match media internal_handle with
      | None => (Returns (-1) handle, chunk_size)
      | Some m =>
          match chunk_size with
          | None => (Returns (-1) handle, chunk_size)
          | Some _ =>
              if HandleMedia.chunk_size m >? INT32_MAX then
                (Returns (-1) handle, chunk_size)
              else
                let pending :=
                  match write internal_handle with
                  | Some w => HandleWrite.values_initialized w =? 0
                  | None => false
                  end in
                let '(initialized, internal_handle) :=
                  if pending then
                    libewf_internal_handle_write_initialize internal_handle
                  else (1, internal_handle) in
                if negb (initialized =? 1) then
                  (Returns (-1) (Some internal_handle), chunk_size)
                else
                  match media internal_handle with
                  | None => (Undefined, chunk_size)
                  | Some m =>
                      (Returns 1 (Some internal_handle),
                       Some (HandleMedia.chunk_size m))
                  end
          end
      end
  end.

End ChunkSize.

(** [libewf_get_compression_level( handle, compression_level )] *)
Definition libewf_get_compression_level
    (handle : option libewf_internal_handle) (level : option Z)
  : outcome * option Z :=
  match handle with
  | None => (Returns (-1) handle, level)
  | Some internal_handle =>
      match level with
      | None => (Returns (-1) handle, level)
      | Some _ =>
          if compression_level internal_handle <=? -1 then
            (Returns (-1) handle, level)
          else (Returns 1 handle, Some (compression_level internal_handle))
      end
  end.

(** [libewf_get_media_size( handle, media_size )]: a media size of zero is
    first replaced by the amount of sectors times the bytes per sector. *)
Definition libewf_get_media_size (handle : option libewf_internal_handle)
    (media_size : option Z) : outcome * option Z :=
  match handle with
  | None => (Returns (-1) handle, media_size)
  | Some internal_handle =>
      match media internal_handle with
      | None => (Returns (-1) handle, media_size)
      | Some m =>
          match media_size with
          | None => (Returns (-1) handle, media_size)
          | Some _ =>
              let m :=
                if HandleMedia.media_size m =? 0 then
                  HandleMedia.set_media_size m
                    ((HandleMedia.amount_of_sectors m
                      * HandleMedia.bytes_per_sector m) mod UINT64_MODULUS)
                else m in
              let internal_handle := set_media internal_handle (Some m) in
              if HandleMedia.media_size m >? INT64_MAX then
                (Returns (-1) (Some internal_handle), media_size)
              else
                (Returns 1 (Some internal_handle),
                 Some (HandleMedia.media_size m))
          end
      end
  end.

(** [libewf_get_media_type( handle, media_type )] *)
Definition libewf_get_media_type (handle : option libewf_internal_handle)
    (media_type : option Z) : outcome * option Z :=
  match handle with
  | None => (Returns (-1) handle, media_type)
  | Some internal_handle =>
      match media internal_handle with
      | None => (Returns (-1) handle, media_type)
      | Some m =>
          if HandleMedia.media_type m >? INT8_MAX then
            (Returns (-1) handle, media_type)
          else
            match media_type with
            | None => (Returns (-1) handle, media_type)
            | Some _ => (Returns 1 handle, Some (HandleMedia.media_type m))
            end
      end
  end.

(** [libewf_get_media_flags( handle, media_flags )] *)
Definition libewf_get_media_flags (handle : option libewf_internal_handle)
    (media_flags : option Z) : outcome * option Z :=
  match handle with
  | None => (Returns (-1) handle, media_flags)
  | Some internal_handle =>
      match media internal_handle with
      | None => (Returns (-1) handle, media_flags)
      | Some m =>
          if HandleMedia.media_flags m >? INT8_MAX then
            (Returns (-1) handle, media_flags)
          else
            match media_flags with
            | None => (Returns (-1) handle, media_flags)
            | Some _ => (Returns 1 handle, Some (HandleMedia.media_flags m))
            end
      end
  end.

Section VolumeType.

Context {definitions : libewf_definitions}.

(** [libewf_get_volume_type( handle, volume_type )]: tests bit [0x02] of
    the media flags. *)
Definition libewf_get_volume_type (handle : option libewf_internal_handle)
    (volume_type : option Z) : outcome * option Z :=
  match handle with
  | None => (Returns (-1) handle, volume_type)
  | Some internal_handle =>
      match media internal_handle with
      | None => (Returns (-1) handle, volume_type)
      | Some m =>
          match volume_type with
          | None => (Returns (-1) handle, volume_type)
          | Some _ =>
              if Z.land (HandleMedia.media_flags m) 2 =? 0 then
                (Returns 1 handle, Some (to_int8 LIBEWF_VOLUME_TYPE_LOGICAL))
              else
                (Returns 1 handle, Some (to_int8 LIBEWF_VOLUME_TYPE_PHYSICAL))
          end
      end
  end.

End VolumeType.

(** [libewf_get_format( handle, format )]: asks for the media sub handle
    although it reads the format of the handle itself. *)
Definition libewf_get_format (handle : option libewf_internal_handle)
    (format_value : option Z) : outcome * option Z :=
  match handle with
  | None => (Returns (-1) handle, format_value)
  | Some internal_handle =>
      match media internal_handle with
      | None => (Returns (-1) handle, format_value)
      | Some _ =>
          if format internal_handle >? INT8_MAX then
            (Returns (-1) handle, format_value)
          else
            match format_value with
            | None => (Returns (-1) handle, format_value)
            | Some _ => (Returns 1 handle, Some (format internal_handle))
            end
      end
  end.

(** [libewf_get_guid( handle, guid, size )] *)
Definition libewf_get_guid (handle : option libewf_internal_handle)
    (guid_buffer : option (list Byte.byte)) (size : Z)
  : outcome * option (list Byte.byte) :=
  match handle with
  | None => (Returns (-1) handle, guid_buffer)
  | Some internal_handle =>
      match guid_buffer with
      | None => (Returns (-1) handle, guid_buffer)
      | Some buffer =>
          if size <? 16 then (Returns (-1) handle, guid_buffer)
          else
            (Returns 1 handle,
             Some (memcpy_into buffer (guid internal_handle) 16))
      end
  end.

(** [libewf_get_write_amount_of_chunks( handle, amount_of_chunks )] *)
Definition libewf_get_write_amount_of_chunks
    (handle : option libewf_internal_handle) (amount_of_chunks : option Z)
  : outcome * option Z :=
  match handle with
  | None => (Returns (-1) handle, amount_of_chunks)
  | Some internal_handle =>
      match write internal_handle with
      | None => (Returns (-1) handle, amount_of_chunks)
      | Some w =>
          match amount_of_chunks with
          | None => (Returns (-1) handle, amount_of_chunks)
          | Some _ => (Returns 1 handle, Some (HandleWrite.amount_of_chunks w))
          end
      end
  end.

(** [libewf_get_amount_of_header_values( handle, amount_of_values )] *)
Definition libewf_get_amount_of_header_values
    (handle : option libewf_internal_handle) (amount_of_values : option Z)
  : outcome * option Z :=
  match handle with
  | None => (Returns (-1) handle, amount_of_values)
  | Some internal_handle =>
      match amount_of_values with
      | None => (Returns (-1) handle, amount_of_values)
      | Some _ =>
          match header_values internal_handle with
          | None => (Returns 0 handle, amount_of_values)
          | Some table => (Returns 1 handle, Some (ValuesTable.amount table))
          end
      end
  end.

(** ** Getters of the sector error lists *)

(** [libewf_get_amount_of_acquiry_errors( handle, amount_of_errors )] *)
Definition libewf_get_amount_of_acquiry_errors
    (handle : option libewf_internal_handle) (amount_of_errors : option Z)
  : outcome * option Z :=
  match handle with
  | None => (Returns (-1) handle, amount_of_errors)
  | Some internal_handle =>
      match amount_of_errors with
      | None => (Returns (-1) handle, amount_of_errors)
      | Some _ =>
          match acquiry_error_sectors internal_handle with
          | None => (Returns 0 handle, amount_of_errors)
          | Some _ =>
              (Returns 1 handle,
               Some (acquiry_amount_of_errors internal_handle))
          end
      end
  end.

(** The part two getters share: the read [error_sectors[ index ]] after
    the tests of the list, the two output pointers and the index. *)
Definition error_sectors_get (handle : option libewf_internal_handle)
    (error_sectors : option (list ErrorSector.t)) (amount index : Z)
    (sector amount_of_sectors : option Z)
  : outcome * option Z * option Z :=
  match error_sectors with
  | None => (Returns (-1) handle, sector, amount_of_sectors)
  | Some entries =>
      match sector, amount_of_sectors with
      | None, _ => (Returns (-1) handle, sector, amount_of_sectors)
      | _, None => (Returns (-1) handle, sector, amount_of_sectors)
      | Some _, Some _ =>
          if index >=? amount then
            (Returns (-1) handle, sector, amount_of_sectors)
          else
            match nth_error entries (Z.to_nat index) with
            | None => (Undefined, sector, amount_of_sectors)
            | Some entry =>
                (Returns 1 handle, Some (ErrorSector.sector entry),
                 Some (ErrorSector.amount_of_sectors entry))
            end
      end
  end.

(** [libewf_get_acquiry_error( handle, index, sector, amount_of_sectors )] *)
Definition libewf_get_acquiry_error (handle : option libewf_internal_handle)
    (index : Z) (sector amount_of_sectors : option Z)
  : outcome * option Z * option Z :=
  match handle with
  | None => (Returns (-1) handle, sector, amount_of_sectors)
  | Some internal_handle =>
      if acquiry_amount_of_errors internal_handle =? 0 then
        (Returns 0 handle, sector, amount_of_sectors)
      else
        error_sectors_get handle (acquiry_error_sectors internal_handle)
          (acquiry_amount_of_errors internal_handle) index sector
          amount_of_sectors
  end.

(** [libewf_get_amount_of_crc_errors( handle, amount_of_errors )] *)
Definition libewf_get_amount_of_crc_errors
    (handle : option libewf_internal_handle) (amount_of_errors : option Z)
  : outcome * option Z :=
  match handle with
  | None => (Returns (-1) handle, amount_of_errors)
  | Some internal_handle =>
      match read internal_handle with
      | None => (Returns (-1) handle, amount_of_errors)
      | Some r =>
          match amount_of_errors with
          | None => (Returns (-1) handle, amount_of_errors)
          | Some _ =>
              match HandleRead.crc_error_sectors r with
              | None => (Returns 0 handle, amount_of_errors)
              | Some _ =>
                  (Returns 1 handle, Some (HandleRead.crc_amount_of_errors r))
              end
          end
      end
  end.

(** [libewf_get_crc_error( handle, index, sector, amount_of_sectors )] *)
Definition libewf_get_crc_error (handle : option libewf_internal_handle)
    (index : Z) (sector amount_of_sectors : option Z)
  : outcome * option Z * option Z :=
  match handle with
  | None => (Returns (-1) handle, sector, amount_of_sectors)
  | Some internal_handle =>
      match read internal_handle with
      | None => (Returns (-1) handle, sector, amount_of_sectors)
      | Some r =>
          if HandleRead.crc_amount_of_errors r =? 0 then
            (Returns 0 handle, sector, amount_of_sectors)
          else
            error_sectors_get handle (HandleRead.crc_error_sectors r)
              (HandleRead.crc_amount_of_errors r) index sector
              amount_of_sectors
      end
  end.

(** ** Setting a header value *)

(** The calls [libewf_set_header_value] makes to the values table
    functions of other compilation units. *)
Inductive values_call : Type :=
| CallValuesTableAlloc
| CallHeaderValuesInitialize
| CallValuesTableSetValue.

Section SetHeaderValue.

Variable LIBEWF_HEADER_VALUES_DEFAULT_AMOUNT : Z.
Variable libewf_values_table_alloc : Z -> option ValuesTable.t.
Variable libewf_header_values_initialize :
  ValuesTable.t -> Z * ValuesTable.t.
Variable libewf_values_table_set_value :
  ValuesTable.t -> string -> option string -> Z -> Z * ValuesTable.t.

(** [libewf_set_header_value( handle, identifier, value, length )].  The
    values table functions work on the table the handle points to: the
    table they leave behind is the one of the handle afterwards. *)
Definition libewf_set_header_value (handle : option libewf_internal_handle)
    (identifier value : option string) (length : Z)
  : list values_call * outcome :=
  match handle with
  | None => ([], Returns (-1) handle)
  | Some internal_handle =>
      match identifier with
      | None => ([], Returns (-1) handle)
      | Some name =>
          match header_values internal_handle with
          | Some table =>
              let '(result, table) :=
                libewf_values_table_set_value table name value length in
              ([CallValuesTableSetValue],
               Returns result
                 (Some (set_header_values internal_handle (Some table))))
          | None =>
              match libewf_values_table_alloc
                      LIBEWF_HEADER_VALUES_DEFAULT_AMOUNT with
              | None => ([CallValuesTableAlloc], Returns (-1) handle)
              | Some table =>
                  let '(initialized, table) :=
                    libewf_header_values_initialize table in
                  if negb (initialized =? 1) then
                    ([CallValuesTableAlloc; CallHeaderValuesInitialize],
                     Returns (-1)
                       (Some (set_header_values internal_handle
                                (Some table))))
                  else
                    let '(result, table) :=
                      libewf_values_table_set_value table name value length
                    in
                    ([CallValuesTableAlloc; CallHeaderValuesInitialize;
                      CallValuesTableSetValue],
                     Returns result
                       (Some (set_header_values internal_handle
                                (Some table))))
              end
          end
      end
  end.

End SetHeaderValue.

(** ** Notions used in the further statements *)

(** What the plain getters have in common: the handle is as before, the
    result is 1, 0 or -1, and the caller's variable is written only
    together with the result 1. *)
Definition getter_contract {A : Type} (ih : libewf_internal_handle)
    (variable : option A) (result : outcome * option A) : Prop :=
  exists value,
    fst result = Returns value (Some ih)
    /\ (value = 1 \/ value = 0 \/ value = -1)
    /\ (value <> 1 -> snd result = variable).

(** Example stand-ins for the file functions. *)
Definition example_filename_open (descriptor : Z) (name : string) (flags : Z)
  : Z := descriptor.

Definition example_file_answer (answer : Z) (file_descriptor : Z) : Z :=
  answer.

(** * Properties *)

(** ** Proof support *)

Ltac split_guard :=
  match goal with
  | |- context [if ?c then _ else _] => destruct c eqn:?
  | |- context [match ?x with _ => _ end] => destruct x eqn:?
  end.

Lemma frozen_write_cases (ih : libewf_internal_handle) :
  write_values_frozen ih ->
  match write ih with
  | None => True
  | Some w => negb (HandleWrite.values_initialized w =? 0) = true
  end.
Proof.
  intros [Hnone | (w & Hw & Hinit)].
  - rewrite Hnone; exact I.
  - rewrite Hw. apply negb_true_iff, Z.eqb_neq, Hinit.
Qed.

(** ** The MD5 hash getter *)

(** C9: on a handle without MD5 hash [libewf_get_md5_hash] returns 0
    whatever the output buffer and its size are, and touches neither the
    handle nor the buffer; once a hash is set, a NULL buffer or a size
    below 16 gives -1. *)
Theorem get_md5_hash_unset_skips_validation
    (ih : libewf_internal_handle) (buffer : option (list Byte.byte))
    (size : Z) :
  (md5_hash_set ih = 0 ->
   libewf_get_md5_hash (Some ih) buffer size = (Returns 0 (Some ih), buffer))
  /\ (md5_hash_set ih <> 0 ->
      buffer = None \/ size < 16 ->
      libewf_get_md5_hash (Some ih) buffer size
      = (Returns (-1) (Some ih), buffer)).
Proof.
  split; intros Hset; unfold libewf_get_md5_hash.
  - rewrite Hset; reflexivity.
  - intros Hbad.
    apply Z.eqb_neq in Hset; rewrite Hset.
    destruct buffer as [bytes |]; [| reflexivity].
    destruct Hbad as [Hnull | Hsmall]; [discriminate |].
    unfold EWF_DIGEST_HASH_SIZE_MD5.
    apply Z.ltb_lt in Hsmall; rewrite Hsmall; reflexivity.
Qed.

Lemma get_md5_hash_unset_skips_validation_witness :
  libewf_get_md5_hash (Some example_write_handle) None 0
  = (Returns 0 (Some example_write_handle), None)
  /\ libewf_get_md5_hash (Some (set_md5_hash_set example_write_handle 1))
       (Some (zero_bytes 4)) 4
     = (Returns (-1) (Some (set_md5_hash_set example_write_handle 1)),
        Some (zero_bytes 4)).
Proof.
  split.
  - apply (get_md5_hash_unset_skips_validation example_write_handle None 0).
    reflexivity.
  - apply (get_md5_hash_unset_skips_validation
             (set_md5_hash_set example_write_handle 1)
             (Some (zero_bytes 4)) 4);
      [simpl; lia | right; lia].
Defined.

(** With a hash set and a buffer of at least 16 bytes the hash is copied
    and 1 is returned: the argument checks are only skipped, not absent. *)
Lemma get_md5_hash_set_copies (ih : libewf_internal_handle)
    (bytes : list Byte.byte) (size : Z) :
  md5_hash_set ih <> 0 -> 16 <= size ->
  libewf_get_md5_hash (Some ih) (Some bytes) size
  = (Returns 1 (Some ih), Some (memcpy_into bytes (md5_hash ih) 16)).
Proof.
  intros Hset Hsize; unfold libewf_get_md5_hash.
  apply Z.eqb_neq in Hset; rewrite Hset.
  unfold EWF_DIGEST_HASH_SIZE_MD5.
  destruct (size <? 16) eqn:Hlt; [apply Z.ltb_lt in Hlt; lia | reflexivity].
Qed.

(** ** The state gate of the setters *)

Section SetterGate.

Context {definitions : libewf_definitions}.

Lemma set_sectors_per_chunk_frozen ih v :
  write_values_frozen ih ->
  libewf_set_sectors_per_chunk (Some ih) v = Returns (-1) (Some ih).
Proof.
  intros Hfrozen; apply frozen_write_cases in Hfrozen.
  unfold libewf_set_sectors_per_chunk.
  repeat split_guard; try reflexivity; congruence.
Qed.

Lemma set_bytes_per_sector_frozen ih v :
  write_values_frozen ih ->
  libewf_set_bytes_per_sector (Some ih) v = Returns (-1) (Some ih).
Proof.
  intros Hfrozen; apply frozen_write_cases in Hfrozen.
  unfold libewf_set_bytes_per_sector.
  repeat split_guard; try reflexivity; congruence.
Qed.

Lemma set_write_segment_file_size_frozen ih v :
  write_values_frozen ih ->
  libewf_set_write_segment_file_size (Some ih) v = Returns (-1) (Some ih).
Proof.
  intros Hfrozen; apply frozen_write_cases in Hfrozen.
  unfold libewf_set_write_segment_file_size.
  repeat split_guard; try reflexivity; congruence.
Qed.

Lemma set_write_input_size_frozen ih v :
  write_values_frozen ih ->
  libewf_set_write_input_size (Some ih) v = Returns (-1) (Some ih).
Proof.
  intros Hfrozen; apply frozen_write_cases in Hfrozen.
  unfold libewf_set_write_input_size.
  repeat split_guard; try reflexivity; congruence.
Qed.

Lemma set_delta_segment_filename_frozen set_filename ih name len :
  write_values_frozen ih ->
  libewf_set_delta_segment_filename set_filename (Some ih) name len
  = Returns (-1) (Some ih).
Proof.
  intros Hfrozen; apply frozen_write_cases in Hfrozen.
  unfold libewf_set_delta_segment_filename.
  destruct (write ih) as [w |]; [| reflexivity].
  rewrite Hfrozen; reflexivity.
Qed.

Lemma set_guid_initialized ih w buffer size :
  write ih = Some w -> HandleWrite.values_initialized w <> 0 ->
  libewf_set_guid (Some ih) buffer size = Returns (-1) (Some ih).
Proof.
  intros Hw Hinit; unfold libewf_set_guid; rewrite Hw.
  apply Z.eqb_neq in Hinit; rewrite Hinit; simpl.
  repeat split_guard; reflexivity.
Qed.

Lemma set_write_error_granularity_initialized ih w v :
  write ih = Some w -> HandleWrite.values_initialized w <> 0 ->
  libewf_set_write_error_granularity (Some ih) v = Returns (-1) (Some ih).
Proof.
  intros Hw Hinit; unfold libewf_set_write_error_granularity; rewrite Hw.
  apply Z.eqb_neq in Hinit; rewrite Hinit; simpl.
  repeat split_guard; reflexivity.
Qed.

Lemma set_write_compression_values_no_write ih level empty :
  write ih = None ->
  libewf_set_write_compression_values (Some ih) level empty
  = Returns (-1) (Some ih).
Proof.
  intros Hw; unfold libewf_set_write_compression_values; rewrite Hw;
    reflexivity.
Qed.

End SetterGate.

(** C2 (as amended): on a handle whose write sub handle is missing or
    whose write values were initialized, [libewf_set_sectors_per_chunk],
    [libewf_set_bytes_per_sector], [libewf_set_write_segment_file_size],
    [libewf_set_write_input_size] and [libewf_set_delta_segment_filename]
    return -1 and leave the handle as it was; [libewf_set_guid] and
    [libewf_set_write_error_granularity] do so when the write sub handle is
    present and initialized, [libewf_set_write_compression_values] when it
    is missing. *)
Theorem geometry_setters_refuse_frozen_handle
    {definitions : libewf_definitions}
    (set_filename : SegmentTable.t -> option string -> Z -> Z * SegmentTable.t)
    (ih : libewf_internal_handle) :
  write_values_frozen ih ->
  (forall v, libewf_set_sectors_per_chunk (Some ih) v = Returns (-1) (Some ih))
  /\ (forall v,
        libewf_set_bytes_per_sector (Some ih) v = Returns (-1) (Some ih))
  /\ (forall v,
        libewf_set_write_segment_file_size (Some ih) v
        = Returns (-1) (Some ih))
  /\ (forall v,
        libewf_set_write_input_size (Some ih) v = Returns (-1) (Some ih))
  /\ (forall name len,
        libewf_set_delta_segment_filename set_filename (Some ih) name len
        = Returns (-1) (Some ih))
  /\ (write ih <> None ->
      forall buffer size,
        libewf_set_guid (Some ih) buffer size = Returns (-1) (Some ih))
  /\ (write ih <> None ->
      forall v,
        libewf_set_write_error_granularity (Some ih) v
        = Returns (-1) (Some ih))
  /\ (write ih = None ->
      forall level empty,
        libewf_set_write_compression_values (Some ih) level empty
        = Returns (-1) (Some ih)).
Proof.
  intros Hfrozen.
  repeat match goal with |- _ /\ _ => split end; intros.
  - now apply set_sectors_per_chunk_frozen.
  - now apply set_bytes_per_sector_frozen.
  - now apply set_write_segment_file_size_frozen.
  - now apply set_write_input_size_frozen.
  - now apply set_delta_segment_filename_frozen.
  - destruct Hfrozen as [Hnone | (w & Hw & Hinit)]; [congruence |].
    now apply set_guid_initialized with w.
  - destruct Hfrozen as [Hnone | (w & Hw & Hinit)]; [congruence |].
    now apply set_write_error_granularity_initialized with w.
  - now apply set_write_compression_values_no_write.
Qed.

Lemma geometry_setters_refuse_frozen_handle_witness :
  write_values_frozen example_read_handle
  /\ libewf_set_sectors_per_chunk (Some example_read_handle) 64
     = Returns (-1) (Some example_read_handle)
  /\ libewf_set_write_input_size (Some example_read_handle) 1048576
     = Returns (-1) (Some example_read_handle).
Proof.
  assert (Hfrozen : write_values_frozen example_read_handle)
    by (left; reflexivity).
  split; [exact Hfrozen |].
  pose proof (@geometry_setters_refuse_frozen_handle example_definitions
                example_set_filename example_read_handle Hfrozen)
    as (Hspc & _ & _ & Hinput & _).
  split; [apply Hspc | apply Hinput].
Defined.

(** C2 (as stated) fails: on a handle opened for reading, which has no
    write sub handle, [libewf_set_write_format] and [libewf_set_guid] both
    return 1 and change the handle. *)
Lemma setters_without_write_gate_counterexample :
  write_values_frozen example_read_handle
  /\ libewf_set_write_format (Some example_read_handle) 5
     = Returns 1 (Some (set_format example_read_handle 5))
  /\ format (set_format example_read_handle 5) <> format example_read_handle
  /\ libewf_set_guid (Some example_read_handle)
       (Some (repeat Byte.xff 16)) 16
     = Returns 1 (Some (set_guid example_read_handle (repeat Byte.xff 16)))
  /\ guid (set_guid example_read_handle (repeat Byte.xff 16))
     <> guid example_read_handle.
Proof.
  split; [left; reflexivity |].
  split; [reflexivity |].
  split; [simpl; lia |].
  split; [reflexivity |].
  simpl; discriminate.
Qed.

(** The gate is not empty: on a handle opened for writing, before the
    write values are initialized, the geometry setters store their value. *)
Lemma set_sectors_per_chunk_open_gate
    (ih : libewf_internal_handle) (m : HandleMedia.t) (w : HandleWrite.t)
    (v : Z) :
  media ih = Some m -> write ih = Some w ->
  HandleWrite.values_initialized w = 0 -> 0 < v <= INT32_MAX ->
  libewf_set_sectors_per_chunk (Some ih) v
  = Returns 1
      (Some (set_media ih (Some (HandleMedia.set_sectors_per_chunk m v)))).
Proof.
  intros Hm Hw Hinit Hv; unfold libewf_set_sectors_per_chunk.
  rewrite Hm, Hw, Hinit; simpl.
  destruct (v =? 0) eqn:H0; [apply Z.eqb_eq in H0; lia |].
  destruct (v >? INT32_MAX) eqn:Hmax; [| reflexivity].
  rewrite Z.gtb_ltb in Hmax; apply Z.ltb_lt in Hmax; lia.
Qed.

(** ** Failing calls and the handle state *)

(** C3: at the failing input, [libewf_set_write_media_type] with a volume
    type that is neither logical nor physical returns -1, yet the media
    type of the handle has changed from 0 to 1 (the media flags are
    untouched). *)
Theorem set_write_media_type_mutates_before_failing :
  exists ih',
    @libewf_set_write_media_type example_definitions
      (Some example_write_handle) 1 7
    = Returns (-1) (Some ih')
    /\ option_map HandleMedia.media_type (media example_write_handle) = Some 0
    /\ option_map HandleMedia.media_type (media ih') = Some 1
    /\ option_map HandleMedia.media_flags (media ih')
       = option_map HandleMedia.media_flags (media example_write_handle).
Proof.
  eexists; repeat split; reflexivity.
Qed.

(** The same for every handle with a media sub handle and every
    unsupported volume type: the result is -1 and the media type is the
    argument of the failed call. *)
Lemma set_write_media_type_unsupported_volume_type
    {definitions : libewf_definitions}
    (ih : libewf_internal_handle) (m : HandleMedia.t)
    (media_type volume_type : Z) :
  media ih = Some m ->
  volume_type <> LIBEWF_VOLUME_TYPE_LOGICAL ->
  volume_type <> LIBEWF_VOLUME_TYPE_PHYSICAL ->
  libewf_set_write_media_type (Some ih) media_type volume_type
  = Returns (-1)
      (Some (set_media ih (Some (HandleMedia.set_media_type m media_type)))).
Proof.
  intros Hm Hlogical Hphysical; unfold libewf_set_write_media_type.
  rewrite Hm.
  apply Z.eqb_neq in Hlogical, Hphysical.
  rewrite Hlogical, Hphysical; reflexivity.
Qed.

(** ** Write-once values *)

(** C4 (as amended): the MD5 hash is write-once: after a successful
    [libewf_set_md5_hash] on any handle the stored hash is the 16 bytes
    that were set, and every further call returns -1 and leaves the
    handle, and so the stored hash, as it was.  The GUID is not: after a
    successful [libewf_set_guid] on any handle a further call with a
    buffer of at least 16 bytes returns 1 again and the stored GUID is
    the 16 bytes of that call. *)
Theorem md5_hash_write_once_guid_replaced :
  (forall (ih ih_md5 : libewf_internal_handle) (bytes : list Byte.byte)
          (size : Z),
     libewf_set_md5_hash (Some ih) (Some bytes) size
     = Returns 1 (Some ih_md5) ->
     md5_hash ih_md5 = firstn 16 bytes
     /\ forall hash' size',
          libewf_set_md5_hash (Some ih_md5) hash' size'
          = Returns (-1) (Some ih_md5))
  /\ (forall (ih ih_guid : libewf_internal_handle)
             (bytes bytes' : list Byte.byte) (size size' : Z),
        libewf_set_guid (Some ih) (Some bytes) size
        = Returns 1 (Some ih_guid) ->
        16 <= size' ->
        guid ih_guid = firstn 16 bytes
        /\ exists ih_again,
             libewf_set_guid (Some ih_guid) (Some bytes') size'
             = Returns 1 (Some ih_again)
             /\ guid ih_again = firstn 16 bytes'
             /\ md5_hash ih_again = md5_hash ih_guid
             /\ md5_hash_set ih_again = md5_hash_set ih_guid).
Proof.
  split.
  - intros ih ih_md5 bytes size Hmd5.
    unfold libewf_set_md5_hash in Hmd5.
    repeat (revert Hmd5; split_guard; intros Hmd5); try discriminate.
    injection Hmd5 as <-.
    split; [reflexivity |].
    intros hash' size'; unfold libewf_set_md5_hash.
    cbn [md5_hash_set set_md5_hash_set]; change (1 =? 0) with false.
    cbn [negb]; repeat split_guard; reflexivity.
  - intros ih ih_guid bytes bytes' size size' Hguid Hsize.
    assert (Hfacts : write ih_guid = write ih
                     /\ guid ih_guid = firstn 16 bytes).
    { unfold libewf_set_guid in Hguid.
      repeat (revert Hguid; split_guard; intros Hguid); try discriminate;
        injection Hguid as <-; split; reflexivity. }
    destruct Hfacts as [Hwrite Hstored].
    split; [exact Hstored |].
    exists (set_guid ih_guid (libewf_common_memcpy bytes' 16)).
    split; [| repeat split].
    unfold libewf_set_guid in *; rewrite Hwrite.
    destruct (size <? 16); [discriminate |].
    destruct (size' <? 16) eqn:Hlt; [apply Z.ltb_lt in Hlt; lia |].
    destruct (write ih) as [w |];
      [destruct (negb (HandleWrite.values_initialized w =? 0)) |];
      try discriminate; reflexivity.
Qed.

Lemma md5_hash_write_once_guid_replaced_witness :
  let ih_md5 :=
    set_md5_hash_set (set_md5_hash example_write_handle (repeat Byte.xff 16)) 1
  in
  let ih_guid := set_guid example_write_handle (repeat Byte.xff 16) in
  libewf_set_md5_hash (Some ih_md5) (Some (repeat Byte.x01 16)) 16
  = Returns (-1) (Some ih_md5)
  /\ md5_hash ih_md5 = repeat Byte.xff 16
  /\ exists ih_again,
       libewf_set_guid (Some ih_guid) (Some (repeat Byte.x01 16)) 16
       = Returns 1 (Some ih_again)
       /\ guid ih_again = repeat Byte.x01 16.
Proof.
  intros ih_md5 ih_guid.
  destruct md5_hash_write_once_guid_replaced as [Hmd5 Hguid].
  destruct (Hmd5 example_write_handle ih_md5 (repeat Byte.xff 16) 16 eq_refl)
    as [Hstored Honce].
  destruct (Hguid example_write_handle ih_guid (repeat Byte.xff 16)
              (repeat Byte.x01 16) 16 16 eq_refl ltac:(lia))
    as (_ & ih_again & Hagain & Hreplaced & _).
  split; [apply Honce |].
  split; [exact Hstored |].
  exists ih_again; split; [exact Hagain | exact Hreplaced].
Defined.

(** C4 (as stated) fails for the GUID: after a successful
    [libewf_set_guid] a second call returns 1, not -1, and the stored
    GUID is the one of the second call. *)
Lemma guid_not_write_once_counterexample :
  let first := set_guid example_write_handle (repeat Byte.xff 16) in
  let second := set_guid first (repeat Byte.x01 16) in
  libewf_set_guid (Some example_write_handle) (Some (repeat Byte.xff 16)) 16
  = Returns 1 (Some first)
  /\ libewf_set_guid (Some first) (Some (repeat Byte.x01 16)) 16
     = Returns 1 (Some second)
  /\ guid second <> guid first.
Proof.
  simpl; repeat split; discriminate.
Qed.

(** ** Opening *)

Section OpenProperties.

Context {definitions : libewf_definitions}.

Variable handle_alloc : Z -> option libewf_internal_handle.
Variables read_initialize determine_format :
  libewf_internal_handle -> Z * libewf_internal_handle.
Variable read_open :
  libewf_internal_handle -> list string -> Z -> Z -> Z * libewf_internal_handle.
Variable write_open :
  libewf_internal_handle -> list string -> Z -> Z * libewf_internal_handle.

(** C5: [libewf_open] returns NULL when the filenames array is NULL, the
    file amount is below 1, or the flags hold neither the read nor the
    write flag; it does so before any call is made, so that no handle is
    allocated. *)
Theorem open_rejects_invalid_arguments
    (filenames : option (list string)) (file_amount flags : Z) :
  filenames = None
  \/ file_amount < 1
  \/ (Z.land flags LIBEWF_FLAG_READ <> LIBEWF_FLAG_READ
      /\ Z.land flags LIBEWF_FLAG_WRITE <> LIBEWF_FLAG_WRITE) ->
  libewf_open handle_alloc read_initialize read_open determine_format
    write_open filenames file_amount flags
  = ([], OpenReturns None).
Proof.
  intros Hbad; unfold libewf_open.
  destruct filenames as [names |]; [| reflexivity].
  destruct (file_amount <? 1) eqn:Hamount; [reflexivity |].
  destruct Hbad as [Hnull | [Hfew | [Hread Hwrite]]].
  - discriminate.
  - apply Z.ltb_ge in Hamount; lia.
  - apply Z.eqb_neq in Hread, Hwrite; rewrite Hread, Hwrite; reflexivity.
Qed.

(** With valid arguments the allocation is the first call. *)
Lemma open_valid_arguments_allocate
    (names : list string) (file_amount flags : Z) :
  1 <= file_amount ->
  Z.land flags LIBEWF_FLAG_READ = LIBEWF_FLAG_READ
  \/ Z.land flags LIBEWF_FLAG_WRITE = LIBEWF_FLAG_WRITE ->
  exists rest,
    fst (libewf_open handle_alloc read_initialize read_open determine_format
           write_open (Some names) file_amount flags)
    = CallHandleAlloc :: rest.
Proof.
  intros Hamount Hflags; unfold libewf_open.
  destruct (file_amount <? 1) eqn:Hlt; [apply Z.ltb_lt in Hlt; lia |].
  assert (Hguard :
    (negb (Z.land flags LIBEWF_FLAG_READ =? LIBEWF_FLAG_READ)
     && negb (Z.land flags LIBEWF_FLAG_WRITE =? LIBEWF_FLAG_WRITE))%bool
    = false).
  { apply andb_false_iff.
    destruct Hflags as [H | H]; [left | right];
      apply negb_false_iff, Z.eqb_eq, H. }
  rewrite Hguard.
  repeat split_guard; simpl; eexists; reflexivity.
Qed.

End OpenProperties.

Lemma open_rejects_invalid_arguments_witness :
  @libewf_open example_definitions (fun _ => Some example_write_handle)
    (example_helper 1) (fun ih _ _ _ => (1, ih)) (example_helper 1)
    (fun ih _ _ => (1, ih)) (Some ["image"%string]) 1 4
  = ([], OpenReturns None).
Proof.
  apply (@open_rejects_invalid_arguments example_definitions).
  right; right; simpl; split; discriminate.
Defined.

(** ** Closing *)

Section CloseProperties.

Variables write_finalize segment_file_close_all :
  libewf_internal_handle -> Z * libewf_internal_handle.

Lemma close_result (ih : libewf_internal_handle) :
  snd (libewf_close write_finalize segment_file_close_all (Some ih))
  = if fst (segment_file_close_all (handle_before_closing write_finalize ih))
       =? 1
    then Returns 0 None
    else
      Returns (-1)
        (Some (snd (segment_file_close_all
                      (handle_before_closing write_finalize ih)))).
Proof.
  unfold libewf_close, handle_before_closing.
  destruct (write ih) as [w |];
    [destruct (HandleWrite.write_finalized w =? 0) |];
    match goal with
    | |- context [segment_file_close_all ?h] =>
        destruct (segment_file_close_all h) as [closed ih']
    end; simpl; destruct (closed =? 1); reflexivity.
Qed.

(** C6: on a handle with a write sub handle whose write is not finalized,
    [libewf_close] calls the write finalization first and closes the
    segment files of the finalized handle next.  For every handle it
    returns 0 when closing the segment files succeeds and -1 when it
    fails; for the NULL handle it returns -1. *)
Theorem close_finalizes_before_closing
    (ih : libewf_internal_handle) (w : HandleWrite.t) :
  write ih = Some w ->
  HandleWrite.write_finalized w = 0 ->
  (exists rest,
     fst (libewf_close write_finalize segment_file_close_all (Some ih))
     = CallWriteFinalize :: CallSegmentFileCloseAll :: rest)
  /\ handle_before_closing write_finalize ih = snd (write_finalize ih)
  /\ (forall any : libewf_internal_handle,
        (fst (segment_file_close_all
                (handle_before_closing write_finalize any)) = 1 ->
         snd (libewf_close write_finalize segment_file_close_all (Some any))
         = Returns 0 None)
        /\ (fst (segment_file_close_all
                   (handle_before_closing write_finalize any)) <> 1 ->
            snd (libewf_close write_finalize segment_file_close_all
                   (Some any))
            = Returns (-1)
                (Some (snd (segment_file_close_all
                              (handle_before_closing write_finalize any))))))
  /\ libewf_close write_finalize segment_file_close_all None
     = ([], Returns (-1) None).
Proof.
  intros Hw Hpending.
  split; [| split; [| split]].
  - unfold libewf_close; rewrite Hw, Hpending; simpl.
    destruct (segment_file_close_all (snd (write_finalize ih)))
      as [closed ih'].
    destruct (closed =? 1); simpl; eexists; reflexivity.
  - unfold handle_before_closing; rewrite Hw, Hpending; reflexivity.
  - intros any; rewrite close_result.
    split; intros Hclosed.
    + rewrite Hclosed; reflexivity.
    + apply Z.eqb_neq in Hclosed; rewrite Hclosed; reflexivity.
  - reflexivity.
Qed.

(** A handle without write sub handle is closed without finalization. *)
Lemma close_without_write (ih : libewf_internal_handle) :
  write ih = None ->
  exists rest,
    fst (libewf_close write_finalize segment_file_close_all (Some ih))
    = CallSegmentFileCloseAll :: rest.
Proof.
  intros Hw; unfold libewf_close; rewrite Hw.
  destruct (segment_file_close_all ih) as [closed ih'].
  destruct (closed =? 1); simpl; eexists; reflexivity.
Qed.

End CloseProperties.

Lemma close_finalizes_before_closing_witness :
  libewf_close (example_helper 0) (example_helper 1)
    (Some example_write_handle)
  = ([CallWriteFinalize; CallSegmentFileCloseAll; CallHandleFree],
     Returns 0 None)
  /\ snd (libewf_close (example_helper 0) (example_helper 0)
            (Some example_write_handle))
     = Returns (-1) (Some example_write_handle).
Proof.
  destruct (close_finalizes_before_closing (example_helper 0)
              (example_helper 0) example_write_handle example_write
              eq_refl eq_refl) as (_ & _ & Hresult & _).
  split; [reflexivity |].
  apply (Hresult example_write_handle); simpl; lia.
Defined.

(** ** Seeking *)

Lemma to_int64_small (x : Z) : 0 <= x <= INT64_MAX -> to_int64 x = x.
Proof.
  intros Hx; unfold to_int64, UINT64_MODULUS, INT64_MAX in *.
  rewrite Z.mod_small by lia.
  destruct (x <=? 9223372036854775807) eqn:Hle; [reflexivity |].
  apply Z.leb_gt in Hle; lia.
Qed.

Section SeekProperties.

Variable seek_chunk_offset :
  libewf_internal_handle -> Z -> Z * libewf_internal_handle.



End SeekProperties.



(** ** Parsing the header values *)

Section ParseProperties.

Context {definitions : libewf_definitions}.

Variables parse_xheader parse_header2 parse_header :
  list Byte.byte -> Z -> Z -> option ValuesTable.t.

Lemma parse_headers_preferred (ih : libewf_internal_handle) (date_format : Z) :
  snd (parse_headers parse_xheader parse_header2 parse_header ih date_format)
  = preferred_header_values parse_xheader parse_header2 parse_header ih
      date_format.
Proof.
  unfold parse_headers, preferred_header_values, parsed_values.
  destruct (xheader ih) as [x |];
    [destruct (parse_xheader x (xheader_size ih) date_format) |];
    (destruct (header2 ih) as [h2 |];
     [destruct (parse_header2 h2 (header2_size ih) date_format) |]);
    destruct (header ih) as [h1 |]; reflexivity.
Qed.

Lemma parse_header_values_calls (ih : libewf_internal_handle)
    (date_format : Z) :
  exists freed,
    fst (libewf_parse_header_values parse_xheader parse_header2 parse_header
           (Some ih) date_format)
    = fst (parse_headers parse_xheader parse_header2 parse_header ih
             date_format) ++ freed
    /\ (freed = [] \/ freed = [CallValuesTableFree]).
Proof.
  unfold libewf_parse_header_values.
  destruct (parse_headers parse_xheader parse_header2 parse_header ih
              date_format) as [calls [table |]]; simpl.
  - destruct (header_values ih); eexists; split; eauto.
  - exists []; rewrite app_nil_r; auto.
Qed.

Lemma parse_header_values_nothing (ih : libewf_internal_handle)
    (date_format : Z) :
  preferred_header_values parse_xheader parse_header2 parse_header ih
    date_format = None ->
  snd (libewf_parse_header_values parse_xheader parse_header2 parse_header
         (Some ih) date_format)
  = Returns (-1) (Some ih).
Proof.
  rewrite <- parse_headers_preferred; unfold libewf_parse_header_values.
  destruct (parse_headers parse_xheader parse_header2 parse_header ih
              date_format) as [calls parsed]; simpl.
  intros ->; reflexivity.
Qed.

(** C8: [libewf_parse_header_values] tries xheader, header2 and header in
    this order.  The xheader is parsed when it is present; header2 is
    parsed exactly when the xheader is missing or gave no values and
    header2 is present; header is parsed exactly when xheader and header2
    are each missing or gave no values and header is present.  The values
    it takes are those of the first header that yields some; when none
    does it returns -1 and the handle, with the header values it had, is
    as before. *)
Theorem parse_header_values_preference
    (ih : libewf_internal_handle) (date_format : Z) :
  let calls :=
    fst (libewf_parse_header_values parse_xheader parse_header2 parse_header
           (Some ih) date_format) in
  let from_xheader :=
    parsed_values parse_xheader (xheader ih) (xheader_size ih) date_format in
  let from_header2 :=
    parsed_values parse_header2 (header2 ih) (header2_size ih) date_format in
  (In CallParseXheader calls <-> xheader ih <> None)
  /\ (In CallParseHeader2 calls <->
      from_xheader = None /\ header2 ih <> None)
  /\ (In CallParseHeader calls <->
      from_xheader = None /\ from_header2 = None /\ header ih <> None)
  /\ snd (parse_headers parse_xheader parse_header2 parse_header ih
            date_format)
     = preferred_header_values parse_xheader parse_header2 parse_header ih
         date_format
  /\ (preferred_header_values parse_xheader parse_header2 parse_header ih
        date_format = None ->
      snd (libewf_parse_header_values parse_xheader parse_header2
             parse_header (Some ih) date_format)
      = Returns (-1) (Some ih)).
Proof.
  intros calls from_xheader from_header2.
  split; [| split; [| split; [| split]]];
    [| | | apply parse_headers_preferred | apply parse_header_values_nothing].
  all: subst calls from_xheader from_header2.
  all: destruct (parse_header_values_calls ih date_format)
         as (freed & -> & Hfreed).
  all: unfold parse_headers, parsed_values.
  all: destruct (xheader ih) as [x |];
         [destruct (parse_xheader x (xheader_size ih) date_format) |];
         (destruct (header2 ih) as [h2 |];
          [destruct (parse_header2 h2 (header2_size ih) date_format) |]);
         (destruct (header ih) as [h1 |];
          [destruct (parse_header h1 (header_size ih) date_format) |]);
         destruct Hfreed as [-> | ->]; simpl;
         intuition (try discriminate; try congruence).
Qed.

Lemma set_format_same (ih : libewf_internal_handle) :
  set_format ih (format ih) = ih.
Proof. destruct ih; reflexivity. Qed.

(** C10: when parsing succeeds on a handle of format EnCase2 and the parsed
    acquiry software version is present and starts with '3', the format of
    the handle becomes EnCase3; in every other case (another format, a
    version that is missing or starts otherwise, a failed parse) the
    format is the one the handle had. *)
Theorem parse_header_values_format
    (ih : libewf_internal_handle) (date_format : Z) :
  (preferred_header_values parse_xheader parse_header2 parse_header ih
     date_format = None ->
   snd (libewf_parse_header_values parse_xheader parse_header2 parse_header
          (Some ih) date_format)
   = Returns (-1) (Some ih))
  /\ (forall table,
        preferred_header_values parse_xheader parse_header2 parse_header ih
          date_format = Some table ->
        format ih <> LIBEWF_FORMAT_ENCASE2 ->
        exists ih',
          snd (libewf_parse_header_values parse_xheader parse_header2
                 parse_header (Some ih) date_format)
          = Returns 1 (Some ih')
          /\ ih' = set_header_values ih (Some table)
          /\ format ih' = format ih
          /\ header_values ih' = Some table)
  /\ (forall table version,
        preferred_header_values parse_xheader parse_header2 parse_header ih
          date_format = Some table ->
        format ih = LIBEWF_FORMAT_ENCASE2 ->
        nth_error (ValuesTable.values table)
          LIBEWF_HEADER_VALUES_INDEX_ACQUIRY_SOFTWARE_VERSION
        = Some version ->
        exists ih',
          snd (libewf_parse_header_values parse_xheader parse_header2
                 parse_header (Some ih) date_format)
          = Returns 1 (Some ih')
          /\ ih' = set_format (set_header_values ih (Some table))
                     (if version_starts_with_3 version
                      then LIBEWF_FORMAT_ENCASE3
                      else format ih)
          /\ format ih' = (if version_starts_with_3 version
                           then LIBEWF_FORMAT_ENCASE3
                           else format ih)
          /\ header_values ih' = Some table).
Proof.
  split; [apply parse_header_values_nothing |].
  split.
  - intros table; rewrite <- parse_headers_preferred.
    unfold libewf_parse_header_values.
    destruct (parse_headers parse_xheader parse_header2 parse_header ih
                date_format) as [calls parsed]; simpl.
    intros -> Hformat.
    replace (format (set_header_values ih (Some table))) with (format ih)
      by (destruct ih; reflexivity).
    apply Z.eqb_neq in Hformat; rewrite Hformat.
    eexists; split; [reflexivity |]; repeat split.
  - intros table version; rewrite <- parse_headers_preferred.
    unfold libewf_parse_header_values.
    destruct (parse_headers parse_xheader parse_header2 parse_header ih
                date_format) as [calls parsed]; simpl.
    intros -> Hformat Hversion; rewrite Hversion.
    replace (format (set_header_values ih (Some table))) with (format ih)
      by (destruct ih; reflexivity).
    rewrite Hformat, Z.eqb_refl.
    eexists; split; [| split; [reflexivity | split; reflexivity]].
    destruct version as [value |]; simpl.
    + destruct (first_character_is "3" value); [reflexivity |].
      rewrite <- Hformat.
      rewrite <- (set_format_same (set_header_values ih (Some table))) at 1.
      destruct ih; reflexivity.
    + rewrite <- Hformat.
      rewrite <- (set_format_same (set_header_values ih (Some table))) at 1.
      destruct ih; reflexivity.
Qed.

End ParseProperties.

(** ** The sector error lists *)

Section ErrorListProperties.

Context {definitions : libewf_definitions}.

Lemma error_sectors_find_in (entries : list ErrorSector.t) (sector : Z) :
  In sector (map ErrorSector.sector entries) ->
  error_sectors_find entries (List.length entries) sector = Some true.
Proof.
  induction entries as [| entry rest IH]; simpl; [intros [] |].
  intros Hin.
  destruct (ErrorSector.sector entry =? sector) eqn:Hsame; [reflexivity |].
  apply Z.eqb_neq in Hsame.
  destruct Hin as [Hhead | Hrest]; [contradiction | auto].
Qed.

Lemma error_sectors_find_not_in (entries : list ErrorSector.t) (sector : Z) :
  ~ In sector (map ErrorSector.sector entries) ->
  error_sectors_find entries (List.length entries) sector = Some false.
Proof.
  induction entries as [| entry rest IH]; simpl; [reflexivity |].
  intros Hnot.
  destruct (ErrorSector.sector entry =? sector) eqn:Hsame.
  - apply Z.eqb_eq in Hsame; tauto.
  - apply IH; tauto.
Qed.

Lemma error_sectors_find_false (entries : list ErrorSector.t) (amount : nat)
    (sector : Z) :
  error_sectors_find entries amount sector = Some false ->
  (amount <= List.length entries)%nat
  /\ ~ In sector (map ErrorSector.sector (firstn amount entries)).
Proof.
  revert entries; induction amount as [| amount IH]; intros entries; simpl.
  - intros _; split; [lia | tauto].
  - destruct entries as [| entry rest]; simpl;
      [intros Hfind; discriminate |].
    destruct (ErrorSector.sector entry =? sector) eqn:Hsame;
      [intros Hfind; discriminate |].
    apply Z.eqb_neq in Hsame.
    intros Hfind; destruct (IH rest Hfind) as [Hlen Hnot].
    simpl; split; [lia | tauto].
Qed.

Lemma error_sectors_capacity_exact (amount : Z) :
  0 < LIBEWF_ERROR_SECTOR_SIZE -> 0 <= amount ->
  LIBEWF_ERROR_SECTOR_SIZE * amount < SIZE_MODULUS ->
  error_sectors_capacity (LIBEWF_ERROR_SECTOR_SIZE * amount) = amount.
Proof.
  intros Hsize Hamount Hfits; unfold error_sectors_capacity, to_size_t.
  destruct (LIBEWF_ERROR_SECTOR_SIZE <=? 0) eqn:Hle;
    [apply Z.leb_le in Hle; lia |].
  rewrite Z.mod_small by nia.
  rewrite Z.mul_comm; apply Z.div_mul; lia.
Qed.

Lemma error_sectors_capacity_bound (size : Z) :
  error_sectors_capacity size < UINT32_MODULUS.
Proof.
  unfold error_sectors_capacity, to_size_t.
  change SIZE_MODULUS with 4294967296; change UINT32_MODULUS with 4294967296.
  destruct (LIBEWF_ERROR_SECTOR_SIZE <=? 0) eqn:Hle; [lia |].
  apply Z.leb_gt in Hle.
  pose proof (Z.mod_pos_bound size 4294967296 ltac:(lia)) as Hmod.
  apply Z.div_lt_upper_bound; nia.
Qed.

(** A store that stays inside the array appends the entry to a consistent
    list and keeps it consistent. *)
Lemma error_sectors_store_ok (error_sectors : option (list ErrorSector.t))
    (amount sector amount_of_sectors size : Z)
    (stored : list ErrorSector.t) :
  error_list_ok error_sectors amount ->
  ~ In sector (map ErrorSector.sector (error_sector_entries error_sectors)) ->
  error_sectors_store (error_sector_entries error_sectors)
    (error_sectors_capacity size) amount sector amount_of_sectors
  = Some stored ->
  stored = error_sector_entries error_sectors
           ++ [ErrorSector.mk sector amount_of_sectors]
  /\ to_uint32 (amount + 1) = amount + 1
  /\ error_list_ok (Some stored) (to_uint32 (amount + 1)).
Proof.
  intros [Hlength Hnodup] Hnot; unfold error_sectors_store.
  destruct ((0 <=? amount) && (amount <? error_sectors_capacity size))%bool
    eqn:Hinside; [| discriminate].
  apply andb_true_iff in Hinside; destruct Hinside as [Hlow Hhigh].
  apply Z.leb_le in Hlow; apply Z.ltb_lt in Hhigh.
  pose proof (error_sectors_capacity_bound size) as Hbound.
  intros Hstored; injection Hstored as <-.
  assert (Hall : firstn (Z.to_nat amount) (error_sector_entries error_sectors)
                 = error_sector_entries error_sectors).
  { apply firstn_all2; lia. }
  assert (Hwrap : to_uint32 (amount + 1) = amount + 1).
  { unfold to_uint32; apply Z.mod_small; lia. }
  rewrite Hall; split; [reflexivity |]; split; [exact Hwrap |].
  rewrite Hwrap; unfold error_list_ok; simpl.
  rewrite length_app, map_app; simpl; split; [lia |].
  apply NoDup_app; [exact Hnodup | repeat constructor; intros [] |].
  intros other Hin [<- | []]; contradiction.
Qed.

Lemma error_sectors_add_ok (error_sectors : option (list ErrorSector.t))
    (amount sector amount_of_sectors size : Z)
    (stored : list ErrorSector.t) :
  error_list_ok error_sectors amount ->
  match error_sectors with
  | Some entries =>
      error_sectors_find entries (Z.to_nat amount) sector = Some false
  | None => True
  end ->
  error_sectors_store (error_sector_entries error_sectors)
    (error_sectors_capacity size) amount sector amount_of_sectors
  = Some stored ->
  stored = error_sector_entries error_sectors
           ++ [ErrorSector.mk sector amount_of_sectors]
  /\ to_uint32 (amount + 1) = amount + 1
  /\ error_list_ok (Some stored) (to_uint32 (amount + 1)).
Proof.
  intros Hok Hfind; apply error_sectors_store_ok; [exact Hok |].
  destruct error_sectors as [entries |]; simpl; [| tauto].
  destruct Hok as [Hlength _]; simpl in Hlength.
  apply error_sectors_find_false in Hfind; destruct Hfind as [_ Hnot].
  rewrite firstn_all2 in Hnot by lia; exact Hnot.
Qed.

Lemma error_sectors_store_fits (error_sectors : option (list ErrorSector.t))
    (amount sector amount_of_sectors size : Z) :
  error_list_ok error_sectors amount ->
  0 < LIBEWF_ERROR_SECTOR_SIZE ->
  LIBEWF_ERROR_SECTOR_SIZE * (amount + 1) < SIZE_MODULUS ->
  size = LIBEWF_ERROR_SECTOR_SIZE * (amount + 1) ->
  to_uint32 (amount + 1) = amount + 1
  /\ to_size_t size = size
  /\ error_sectors_store (error_sector_entries error_sectors)
       (error_sectors_capacity size) amount sector amount_of_sectors
     = Some (error_sector_entries error_sectors
             ++ [ErrorSector.mk sector amount_of_sectors]).
Proof.
  intros [Hlength _] Hsize Hfits ->.
  assert (Hamount : 0 <= amount) by lia.
  split; [| split].
  - unfold to_uint32; apply Z.mod_small.
    change UINT32_MODULUS with 4294967296.
    change SIZE_MODULUS with 4294967296 in Hfits; nia.
  - unfold to_size_t; apply Z.mod_small; nia.
  - unfold error_sectors_store.
    rewrite error_sectors_capacity_exact by lia.
    destruct (0 <=? amount) eqn:Hlow; [| apply Z.leb_gt in Hlow; lia].
    destruct (amount <? amount + 1) eqn:Hhigh;
      [| apply Z.ltb_ge in Hhigh; lia].
    simpl; rewrite firstn_all2 by lia; reflexivity.
Qed.

Variables alloc realloc : Z -> bool.

Lemma add_acquiry_error_present
    (ih : libewf_internal_handle) (sector amount_of_sectors : Z) :
  handle_consistent ih ->
  In sector (map ErrorSector.sector (acquiry_errors ih)) ->
  libewf_add_acquiry_error alloc realloc (Some ih) sector amount_of_sectors
  = Returns 1 (Some ih).
Proof.
  intros (Hmedia & Hnonneg & [Hlength _] & _) Hin.
  assert (Hsector : 0 <= sector).
  { apply in_map_iff in Hin; destruct Hin as (entry & <- & Hentry).
    rewrite Forall_forall in Hnonneg; auto. }
  unfold libewf_add_acquiry_error, acquiry_errors in *.
  destruct (media ih); [| congruence].
  destruct (sector <=? -1) eqn:Hneg; [apply Z.leb_le in Hneg; lia |].
  destruct (acquiry_error_sectors ih) as [entries |]; simpl in *;
    [| contradiction].
  rewrite <- Hlength, Nat2Z.id, error_sectors_find_in by assumption.
  reflexivity.
Qed.

Lemma add_acquiry_error_absent
    (ih : libewf_internal_handle) (sector amount_of_sectors : Z) :
  handle_consistent ih ->
  0 <= sector ->
  ~ In sector (map ErrorSector.sector (acquiry_errors ih)) ->
  0 < LIBEWF_ERROR_SECTOR_SIZE ->
  LIBEWF_ERROR_SECTOR_SIZE * (acquiry_amount_of_errors ih + 1)
  < SIZE_MODULUS ->
  alloc LIBEWF_ERROR_SECTOR_SIZE = true ->
  realloc (LIBEWF_ERROR_SECTOR_SIZE * (acquiry_amount_of_errors ih + 1))
  = true ->
  libewf_add_acquiry_error alloc realloc (Some ih) sector amount_of_sectors
  = Returns 1
      (Some (set_acquiry_errors ih
               (Some (acquiry_errors ih
                      ++ [ErrorSector.mk sector amount_of_sectors]))
               (acquiry_amount_of_errors ih + 1))).
Proof.
  intros (Hmedia & _ & Hok & _) Hsector Hnot Hsize Hfits Halloc Hrealloc.
  unfold libewf_add_acquiry_error, acquiry_errors in *; cbv zeta.
  destruct (media ih); [| congruence].
  destruct (sector <=? -1) eqn:Hneg; [apply Z.leb_le in Hneg; lia |].
  destruct (acquiry_error_sectors ih) as [entries |] eqn:Hlist.
  - destruct (error_sectors_store_fits (Some entries)
                (acquiry_amount_of_errors ih) sector amount_of_sectors
                (LIBEWF_ERROR_SECTOR_SIZE * (acquiry_amount_of_errors ih + 1))
                Hok Hsize Hfits eq_refl) as (Hwrap & Hsame & Hstore).
    destruct Hok as [Hlength _]; simpl in *.
    rewrite <- Hlength at 1.
    rewrite Nat2Z.id, error_sectors_find_not_in by assumption.
    rewrite Hwrap, Hsame, Hrealloc, Hstore; reflexivity.
  - assert (Hzero : acquiry_amount_of_errors ih = 0)
      by (destruct Hok as [Hlength _]; simpl in Hlength; lia).
    destruct (error_sectors_store_fits None
                (acquiry_amount_of_errors ih) sector amount_of_sectors
                LIBEWF_ERROR_SECTOR_SIZE Hok Hsize Hfits
                ltac:(rewrite Hzero; lia)) as (Hwrap & _ & Hstore).
    simpl in Hstore; rewrite Halloc, Hstore, Hwrap; reflexivity.
Qed.

Lemma add_crc_error_present
    (ih : libewf_internal_handle) (sector amount_of_sectors : Z) :
  handle_consistent ih ->
  In sector (map ErrorSector.sector (crc_errors ih)) ->
  libewf_add_crc_error alloc realloc (Some ih) sector amount_of_sectors
  = Returns 1 (Some ih).
Proof.
  intros (Hmedia & _ & _ & Hcrc) Hin.
  unfold libewf_add_crc_error, crc_errors in *.
  destruct (media ih); [| congruence].
  destruct (read ih) as [r |]; simpl in *; [| contradiction].
  destruct Hcrc as [Hlength _].
  destruct (HandleRead.crc_error_sectors r) as [entries |]; simpl in *;
    [| contradiction].
  rewrite <- Hlength, Nat2Z.id, error_sectors_find_in by assumption.
  reflexivity.
Qed.

Lemma add_crc_error_absent
    (ih : libewf_internal_handle) (r : HandleRead.t)
    (sector amount_of_sectors : Z) :
  handle_consistent ih ->
  read ih = Some r ->
  ~ In sector (map ErrorSector.sector (crc_errors ih)) ->
  0 < LIBEWF_ERROR_SECTOR_SIZE ->
  LIBEWF_ERROR_SECTOR_SIZE * (HandleRead.crc_amount_of_errors r + 1)
  < SIZE_MODULUS ->
  alloc LIBEWF_ERROR_SECTOR_SIZE = true ->
  realloc (LIBEWF_ERROR_SECTOR_SIZE * (HandleRead.crc_amount_of_errors r + 1))
  = true ->
  libewf_add_crc_error alloc realloc (Some ih) sector amount_of_sectors
  = Returns 1
      (Some (set_read ih
         (Some (HandleRead.set_crc_errors r
                  (Some (crc_errors ih
                         ++ [ErrorSector.mk sector amount_of_sectors]))
                  (HandleRead.crc_amount_of_errors r + 1))))).
Proof.
  intros (Hmedia & _ & _ & Hok) Hread Hnot Hsize Hfits Halloc Hrealloc.
  unfold libewf_add_crc_error, crc_errors in *; cbv zeta.
  destruct (media ih); [| congruence].
  rewrite Hread in *.
  destruct (HandleRead.crc_error_sectors r) as [entries |] eqn:Hlist.
  - destruct (error_sectors_store_fits (Some entries)
                (HandleRead.crc_amount_of_errors r) sector amount_of_sectors
                (LIBEWF_ERROR_SECTOR_SIZE
                 * (HandleRead.crc_amount_of_errors r + 1))
                Hok Hsize Hfits eq_refl) as (Hwrap & Hsame & Hstore).
    destruct Hok as [Hlength _]; simpl in *.
    rewrite <- Hlength at 1.
    rewrite Nat2Z.id, error_sectors_find_not_in by assumption.
    rewrite Hwrap, Hsame, Hrealloc, Hstore; reflexivity.
  - assert (Hzero : HandleRead.crc_amount_of_errors r = 0)
      by (destruct Hok as [Hlength _]; simpl in Hlength; lia).
    destruct (error_sectors_store_fits None
                (HandleRead.crc_amount_of_errors r) sector amount_of_sectors
                LIBEWF_ERROR_SECTOR_SIZE Hok Hsize Hfits
                ltac:(rewrite Hzero; lia)) as (Hwrap & _ & Hstore).
    simpl in Hstore; rewrite Halloc, Hstore, Hwrap; reflexivity.
Qed.

End ErrorListProperties.

Section Invariant.

Context {definitions : libewf_definitions}.

Ltac split_guard_in H := revert H; split_guard; intros H.

Ltac returned H :=
  repeat split_guard_in H; try discriminate H;
  inversion H; subst; clear H.

Lemma handle_consistent_fields (ih ih' : libewf_internal_handle) :
  handle_consistent ih ->
  media ih' <> None ->
  read ih' = read ih ->
  acquiry_error_sectors ih' = acquiry_error_sectors ih ->
  acquiry_amount_of_errors ih' = acquiry_amount_of_errors ih ->
  handle_consistent ih'.
Proof.
  unfold handle_consistent, acquiry_errors.
  intros (Hmedia & Hnonneg & Hacquiry & Hcrc) Hmedia' -> -> ->; auto.
Qed.

Ltac unchanged_lists Hok :=
  first
    [ exact Hok
    | apply (handle_consistent_fields _ _ Hok);
      [ simpl; first [discriminate | apply Hok] | reflexivity .. ] ].

Lemma add_acquiry_error_consistent (alloc realloc : Z -> bool)
    (ih ih' : libewf_internal_handle) (sector amount_of_sectors value : Z) :
  handle_consistent ih ->
  libewf_add_acquiry_error alloc realloc (Some ih) sector amount_of_sectors
  = Returns value (Some ih') ->
  handle_consistent ih'.
Proof.
  intros Hok Hrun; pose proof Hok as (Hmedia & Hnonneg & Hacquiry & Hcrc).
  unfold libewf_add_acquiry_error in Hrun; cbv zeta in Hrun.
  destruct (media ih) eqn:Hm; [| congruence].
  destruct (sector <=? -1) eqn:Hneg; [inversion Hrun; subst; exact Hok |].
  apply Z.leb_gt in Hneg.
  assert (Hstep : forall size stored,
    match acquiry_error_sectors ih with
    | Some entries =>
        error_sectors_find entries
          (Z.to_nat (acquiry_amount_of_errors ih)) sector = Some false
    | None => True
    end ->
    error_sectors_store (error_sector_entries (acquiry_error_sectors ih))
      (error_sectors_capacity size) (acquiry_amount_of_errors ih) sector
      amount_of_sectors = Some stored ->
    handle_consistent
      (set_acquiry_errors ih (Some stored)
         (to_uint32 (acquiry_amount_of_errors ih + 1)))).
  { intros size stored Hfind Hstore.
    destruct (error_sectors_add_ok _ _ _ _ _ _ Hacquiry Hfind Hstore)
      as (-> & _ & Hlist).
    unfold handle_consistent, acquiry_errors; simpl.
    rewrite Hm; repeat split; try discriminate; try apply Hlist;
      try exact Hcrc.
    apply Forall_app; split; [exact Hnonneg |].
    repeat constructor; simpl; lia. }
  destruct (acquiry_error_sectors ih) as [entries |] eqn:Hlist.
  - destruct (error_sectors_find entries
                (Z.to_nat (acquiry_amount_of_errors ih)) sector)
      as [[|] |] eqn:Hfind; try discriminate.
    + inversion Hrun; subst; exact Hok.
    + destruct (realloc _); [| inversion Hrun; subst; exact Hok].
      match type of Hrun with
      | context [error_sectors_store ?l ?c ?a ?s ?n] =>
          destruct (error_sectors_store l c a s n) as [stored |] eqn:Hstore
      end; [| discriminate].
      inversion Hrun; subst; eapply Hstep; eauto.
  - destruct (alloc _); [| inversion Hrun; subst; exact Hok].
    match type of Hrun with
    | context [error_sectors_store ?l ?c ?a ?s ?n] =>
        destruct (error_sectors_store l c a s n) as [stored |] eqn:Hstore
    end; [| discriminate].
    inversion Hrun; subst; eapply Hstep; eauto.
Qed.

Lemma add_crc_error_consistent (alloc realloc : Z -> bool)
    (ih ih' : libewf_internal_handle) (sector amount_of_sectors value : Z) :
  handle_consistent ih ->
  libewf_add_crc_error alloc realloc (Some ih) sector amount_of_sectors
  = Returns value (Some ih') ->
  handle_consistent ih'.
Proof.
  intros Hok Hrun; pose proof Hok as (Hmedia & Hnonneg & Hacquiry & Hcrc).
  unfold libewf_add_crc_error in Hrun; cbv zeta in Hrun.
  destruct (media ih) eqn:Hm; [| congruence].
  destruct (read ih) as [r |] eqn:Hr; [| inversion Hrun; subst; exact Hok].
  assert (Hstep : forall size stored,
    match HandleRead.crc_error_sectors r with
    | Some entries =>
        error_sectors_find entries
          (Z.to_nat (HandleRead.crc_amount_of_errors r)) sector = Some false
    | None => True
    end ->
    error_sectors_store (error_sector_entries (HandleRead.crc_error_sectors r))
      (error_sectors_capacity size) (HandleRead.crc_amount_of_errors r) sector
      amount_of_sectors = Some stored ->
    handle_consistent
      (set_read ih
         (Some (HandleRead.set_crc_errors r (Some stored)
                  (to_uint32 (HandleRead.crc_amount_of_errors r + 1)))))).
  { intros size stored Hfind Hstore.
    destruct (error_sectors_add_ok _ _ _ _ _ _ Hcrc Hfind Hstore)
      as (-> & _ & Hlist).
    unfold handle_consistent, acquiry_errors; simpl.
    rewrite Hm; repeat split; try discriminate; try apply Hlist;
      try apply Hacquiry; exact Hnonneg. }
  destruct (HandleRead.crc_error_sectors r) as [entries |] eqn:Hlist.
  - destruct (error_sectors_find entries
                (Z.to_nat (HandleRead.crc_amount_of_errors r)) sector)
      as [[|] |] eqn:Hfind; try discriminate.
    + inversion Hrun; subst; exact Hok.
    + destruct (realloc _); [| inversion Hrun; subst; exact Hok].
      match type of Hrun with
      | context [error_sectors_store ?l ?c ?a ?s ?n] =>
          destruct (error_sectors_store l c a s n) as [stored |] eqn:Hstore
      end; [| discriminate].
      inversion Hrun; subst; eapply Hstep; eauto.
  - destruct (alloc _); [| inversion Hrun; subst; exact Hok].
    match type of Hrun with
    | context [error_sectors_store ?l ?c ?a ?s ?n] =>
        destruct (error_sectors_store l c a s n) as [stored |] eqn:Hstore
    end; [| discriminate].
    inversion Hrun; subst; eapply Hstep; eauto.
Qed.

(** Every operation that returns keeps the handle consistent. *)
Lemma run_consistent (op : operation) (ih ih' : libewf_internal_handle)
    (value : Z) :
  handle_consistent ih ->
  run op (Some ih) = Returns value (Some ih') ->
  handle_consistent ih'.
Proof.
  intros Hok Hrun; destruct op; cbn [run] in Hrun.
  - unfold libewf_set_sectors_per_chunk in Hrun; returned Hrun;
      unchanged_lists Hok.
  - unfold libewf_set_bytes_per_sector in Hrun; returned Hrun;
      unchanged_lists Hok.
  - unfold libewf_set_guid in Hrun; returned Hrun; unchanged_lists Hok.
  - unfold libewf_set_md5_hash in Hrun; returned Hrun; unchanged_lists Hok.
  - unfold libewf_set_delta_segment_filename in Hrun; returned Hrun;
      unchanged_lists Hok.
  - unfold libewf_set_write_segment_file_size in Hrun; returned Hrun;
      unchanged_lists Hok.
  - unfold libewf_set_write_error_granularity in Hrun; returned Hrun;
      unchanged_lists Hok.
  - unfold libewf_set_write_compression_values in Hrun; returned Hrun;
      unchanged_lists Hok.
  - unfold libewf_set_write_media_type in Hrun; returned Hrun;
      unchanged_lists Hok.
  - unfold libewf_set_write_format in Hrun; returned Hrun;
      unchanged_lists Hok.
  - unfold libewf_set_write_input_size in Hrun; returned Hrun;
      unchanged_lists Hok.
  - unfold libewf_parse_header_values in Hrun.
    destruct (parse_headers parse_xheader parse_header2 parse_header ih
                date_format) as [calls parsed].
    simpl in Hrun; returned Hrun; unchanged_lists Hok.
  - eapply add_acquiry_error_consistent; eauto.
  - eapply add_crc_error_consistent; eauto.
Qed.

Lemma reachable_consistent (initial ih : libewf_internal_handle) :
  handle_consistent initial -> reachable initial ih -> handle_consistent ih.
Proof.
  intros Hinitial Hreach; induction Hreach as [| ih ih' op value _ IH Hrun].
  - exact Hinitial.
  - exact (run_consistent op ih ih' value IH Hrun).
Qed.

End Invariant.

(** C7 (as amended): in every handle state reached from a consistent one,
    no start sector occurs twice in the acquiry error list or in the CRC
    error list and each counter is the length of its list.  Called with a
    start sector that is in the list, [libewf_add_acquiry_error] and
    [libewf_add_crc_error] return 1 and leave the handle as it is.  Called
    with another one, they return 1, append the entry and increase the
    counter by 1, provided the sector is not negative (acquiry errors) or
    the read sub handle is present (CRC errors), the allocator grants the
    request and the array size fits [size_t].  A negative sector makes
    [libewf_add_acquiry_error], and a missing read sub handle makes
    [libewf_add_crc_error], return -1 and leave the handle as it is. *)
Theorem error_lists_dedup_by_sector
    {definitions : libewf_definitions}
    (initial ih : libewf_internal_handle) :
  handle_consistent initial ->
  reachable initial ih ->
  NoDup (map ErrorSector.sector (acquiry_errors ih))
  /\ NoDup (map ErrorSector.sector (crc_errors ih))
  /\ acquiry_amount_of_errors ih = Z.of_nat (List.length (acquiry_errors ih))
  /\ crc_amount ih = Z.of_nat (List.length (crc_errors ih))
  /\ (forall alloc realloc sector amount_of_sectors,
        In sector (map ErrorSector.sector (acquiry_errors ih)) ->
        libewf_add_acquiry_error alloc realloc (Some ih) sector
          amount_of_sectors
        = Returns 1 (Some ih))
  /\ (forall alloc realloc sector amount_of_sectors,
        In sector (map ErrorSector.sector (crc_errors ih)) ->
        libewf_add_crc_error alloc realloc (Some ih) sector amount_of_sectors
        = Returns 1 (Some ih))
  /\ (forall alloc realloc sector amount_of_sectors,
        0 <= sector ->
        ~ In sector (map ErrorSector.sector (acquiry_errors ih)) ->
        0 < LIBEWF_ERROR_SECTOR_SIZE ->
        LIBEWF_ERROR_SECTOR_SIZE * (acquiry_amount_of_errors ih + 1)
        < SIZE_MODULUS ->
        alloc LIBEWF_ERROR_SECTOR_SIZE = true ->
        realloc (LIBEWF_ERROR_SECTOR_SIZE * (acquiry_amount_of_errors ih + 1))
        = true ->
        exists ih',
          libewf_add_acquiry_error alloc realloc (Some ih) sector
            amount_of_sectors
          = Returns 1 (Some ih')
          /\ acquiry_errors ih'
             = acquiry_errors ih ++ [ErrorSector.mk sector amount_of_sectors]
          /\ acquiry_amount_of_errors ih' = acquiry_amount_of_errors ih + 1)
  /\ (forall alloc realloc sector amount_of_sectors,
        read ih <> None ->
        ~ In sector (map ErrorSector.sector (crc_errors ih)) ->
        0 < LIBEWF_ERROR_SECTOR_SIZE ->
        LIBEWF_ERROR_SECTOR_SIZE * (crc_amount ih + 1) < SIZE_MODULUS ->
        alloc LIBEWF_ERROR_SECTOR_SIZE = true ->
        realloc (LIBEWF_ERROR_SECTOR_SIZE * (crc_amount ih + 1)) = true ->
        exists ih',
          libewf_add_crc_error alloc realloc (Some ih) sector
            amount_of_sectors
          = Returns 1 (Some ih')
          /\ crc_errors ih'
             = crc_errors ih ++ [ErrorSector.mk sector amount_of_sectors]
          /\ crc_amount ih' = crc_amount ih + 1)
  /\ (forall alloc realloc sector amount_of_sectors,
        sector < 0 ->
        libewf_add_acquiry_error alloc realloc (Some ih) sector
          amount_of_sectors
        = Returns (-1) (Some ih))
  /\ (forall alloc realloc sector amount_of_sectors,
        read ih = None ->
        libewf_add_crc_error alloc realloc (Some ih) sector amount_of_sectors
        = Returns (-1) (Some ih)).
Proof.
  intros Hinitial Hreach.
  pose proof (reachable_consistent initial ih Hinitial Hreach) as Hok.
  pose proof Hok as (Hmedia & Hnonneg & [Hlength Hnodup] & Hcrc).
  repeat match goal with |- _ /\ _ => split end.
  - exact Hnodup.
  - unfold crc_errors; destruct (read ih); [apply Hcrc | constructor].
  - unfold acquiry_errors; lia.
  - unfold crc_amount, crc_errors; destruct (read ih);
      [destruct Hcrc as [Hlength' _]; lia | reflexivity].
  - intros; now apply add_acquiry_error_present.
  - intros; now apply add_crc_error_present.
  - intros alloc realloc sector amount_of_sectors Hsector Hnot Hsize Hfits
      Halloc Hrealloc.
    eexists; split;
      [apply add_acquiry_error_absent; assumption |].
    split; reflexivity.
  - intros alloc realloc sector amount_of_sectors Hread Hnot Hsize Hfits
      Halloc Hrealloc.
    destruct (read ih) as [r |] eqn:Hr; [| congruence].
    unfold crc_amount in *; rewrite Hr in *.
    eexists; split;
      [apply add_crc_error_absent with (r := r); assumption |].
    unfold crc_errors, crc_amount; simpl; rewrite Hr; split; reflexivity.
  - intros alloc realloc sector amount_of_sectors Hnegative.
    unfold libewf_add_acquiry_error.
    destruct (media ih); [| reflexivity].
    destruct (sector <=? -1) eqn:Hle; [reflexivity |].
    apply Z.leb_gt in Hle; lia.
  - intros alloc realloc sector amount_of_sectors Hread.
    unfold libewf_add_crc_error; rewrite Hread.
    destruct (media ih); reflexivity.
Qed.

Lemma example_read_handle_consistent : handle_consistent example_read_handle.
Proof.
  unfold handle_consistent, error_list_ok; simpl.
  repeat split; try discriminate; constructor.
Qed.

Lemma error_lists_dedup_by_sector_witness :
  let first :=
    set_acquiry_errors example_read_handle (Some [ErrorSector.mk 100 8]) 1 in
  @libewf_add_acquiry_error example_definitions example_granted
    example_granted (Some first) 100 4
  = Returns 1 (Some first)
  /\ @libewf_add_acquiry_error example_definitions example_granted
       example_granted (Some first) 200 16
     = Returns 1
         (Some (set_acquiry_errors first
                  (Some [ErrorSector.mk 100 8; ErrorSector.mk 200 16]) 2)).
Proof.
  intros first.
  assert (Hreach : @reachable example_definitions example_read_handle first).
  { apply reachable_step
      with (internal_handle := example_read_handle)
           (op := AddAcquiryError example_granted example_granted 100 8)
           (value := 1);
      [apply reachable_initial | reflexivity]. }
  destruct (@error_lists_dedup_by_sector example_definitions
              example_read_handle first example_read_handle_consistent
              Hreach)
    as (_ & _ & _ & _ & Hpresent & _ & Habsent & _).
  split.
  - apply Hpresent; simpl; auto.
  - destruct (Habsent example_granted example_granted 200 16)
      as (ih' & Hrun & _);
      [ lia | simpl; intuition lia | reflexivity | reflexivity
      | reflexivity | reflexivity |].
    rewrite Hrun; vm_compute in Hrun.
    injection Hrun as Hsame; rewrite <- Hsame; reflexivity.
Defined.

Lemma example_write_handle_consistent :
  handle_consistent example_write_handle.
Proof.
  unfold handle_consistent, error_list_ok; simpl.
  repeat split; try discriminate; constructor.
Qed.

(** C7 (as stated) fails: in a consistent state, sector -1 is not in the
    acquiry error list, yet [libewf_add_acquiry_error] does not append it:
    it returns -1 and the handle, list and counter included, is as
    before.  Likewise [libewf_add_crc_error] on a handle opened for
    writing, which has no read sub handle, returns -1 and appends nothing,
    though the allocator grants every request. *)
Lemma add_error_refused_counterexample :
  @reachable example_definitions example_read_handle example_read_handle
  /\ handle_consistent example_read_handle
  /\ ~ In (-1) (map ErrorSector.sector (acquiry_errors example_read_handle))
  /\ @libewf_add_acquiry_error example_definitions example_granted
       example_granted (Some example_read_handle) (-1) 8
     = Returns (-1) (Some example_read_handle)
  /\ @reachable example_definitions example_write_handle example_write_handle
  /\ handle_consistent example_write_handle
  /\ ~ In 320 (map ErrorSector.sector (crc_errors example_write_handle))
  /\ @libewf_add_crc_error example_definitions example_granted
       example_granted (Some example_write_handle) 320 64
     = Returns (-1) (Some example_write_handle).
Proof.
  split; [apply reachable_initial |].
  split; [apply example_read_handle_consistent |].
  split; [simpl; tauto |].
  split; [reflexivity |].
  split; [apply reachable_initial |].
  split; [apply example_write_handle_consistent |].
  split; [simpl; tauto | reflexivity].
Qed.

Lemma parse_header_values_preference_witness :
  @libewf_parse_header_values example_definitions example_parse_fails
    example_parse_fails (example_parse (Some "4.01"%string))
    (Some example_read_handle) 1
  = ([CallParseHeader],
     Returns 1
       (Some (set_header_values example_read_handle
                (Some (example_values (Some "4.01"%string))))))
  /\ snd (@libewf_parse_header_values example_definitions example_parse_fails
            example_parse_fails example_parse_fails
            (Some example_read_handle) 1)
     = Returns (-1) (Some example_read_handle).
Proof.
  destruct (@parse_header_values_preference example_definitions
              example_parse_fails example_parse_fails example_parse_fails
              example_read_handle 1) as (_ & _ & _ & _ & Hnothing).
  split; [reflexivity | apply Hnothing; reflexivity].
Defined.

Lemma parse_header_values_format_witness :
  (exists ih',
     snd (@libewf_parse_header_values example_definitions example_parse_fails
            example_parse_fails (example_parse (Some "3.18b"%string))
            (Some example_read_handle) 1)
     = Returns 1 (Some ih')
     /\ format ih' = 3)
  /\ format example_read_handle = 2
  /\ (exists ih',
        snd (@libewf_parse_header_values example_definitions
               example_parse_fails example_parse_fails
               (example_parse (Some "4.01"%string))
               (Some example_read_handle) 1)
        = Returns 1 (Some ih')
        /\ format ih' = 2)
  /\ snd (@libewf_parse_header_values example_definitions example_parse_fails
            example_parse_fails (example_parse (Some "3.18b"%string))
            (Some example_write_handle) 1)
     = Returns (-1) (Some example_write_handle).
Proof.
  split; [| split; [reflexivity | split]].
  - destruct (@parse_header_values_format example_definitions
                example_parse_fails example_parse_fails
                (example_parse (Some "3.18b"%string))
                example_read_handle 1) as (_ & _ & Hparsed).
    destruct (Hparsed (example_values (Some "3.18b"%string))
                (Some "3.18b"%string) eq_refl eq_refl eq_refl)
      as (ih' & Hresult & _ & Hformat & _).
    exists ih'; split; [exact Hresult | rewrite Hformat; reflexivity].
  - destruct (@parse_header_values_format example_definitions
                example_parse_fails example_parse_fails
                (example_parse (Some "4.01"%string))
                example_read_handle 1) as (_ & _ & Hparsed).
    destruct (Hparsed (example_values (Some "4.01"%string))
                (Some "4.01"%string) eq_refl eq_refl eq_refl)
      as (ih' & Hresult & _ & Hformat & _).
    exists ih'; split; [exact Hresult | rewrite Hformat; reflexivity].
  - destruct (@parse_header_values_format example_definitions
                example_parse_fails example_parse_fails
                (example_parse (Some "3.18b"%string))
                example_write_handle 1) as (Hnothing & _ & _).
    apply Hnothing; reflexivity.
Defined.

(** ** The refusals behind the side conditions *)

(** A negative sector is refused by [libewf_add_acquiry_error], whatever
    the list holds. *)
Lemma add_acquiry_error_negative_sector
    {definitions : libewf_definitions} (alloc realloc : Z -> bool)
    (ih : libewf_internal_handle) (sector amount_of_sectors : Z) :
  sector < 0 ->
  libewf_add_acquiry_error alloc realloc (Some ih) sector amount_of_sectors
  = Returns (-1) (Some ih).
Proof.
  intros Hneg; unfold libewf_add_acquiry_error.
  destruct (media ih); [| reflexivity].
  destruct (sector <=? -1) eqn:Hle; [reflexivity |].
  apply Z.leb_gt in Hle; lia.
Qed.

(** When the allocator refuses the request the call fails and the list is
    as before. *)
Lemma add_acquiry_error_allocation_refused
    {definitions : libewf_definitions} (ih : libewf_internal_handle)
    (sector amount_of_sectors : Z) :
  handle_consistent ih ->
  0 <= sector ->
  ~ In sector (map ErrorSector.sector (acquiry_errors ih)) ->
  libewf_add_acquiry_error (fun _ => false) (fun _ => false) (Some ih) sector
    amount_of_sectors
  = Returns (-1) (Some ih).
Proof.
  intros (Hmedia & _ & [Hlength _] & _) Hsector Hnot.
  unfold libewf_add_acquiry_error, acquiry_errors in *; cbv zeta.
  destruct (media ih); [| congruence].
  destruct (sector <=? -1) eqn:Hneg; [apply Z.leb_le in Hneg; lia |].
  destruct (acquiry_error_sectors ih) as [entries |]; simpl in *;
    [| reflexivity].
  rewrite <- Hlength, Nat2Z.id, error_sectors_find_not_in by assumption.
  reflexivity.
Qed.

(** A chunk seek that fails makes [libewf_seek_offset] fail. *)
Lemma seek_offset_chunk_seek_fails
    (seek_chunk_offset :
       libewf_internal_handle -> Z -> Z * libewf_internal_handle)
    (ih ih_sought : libewf_internal_handle) (m : HandleMedia.t)
    (offset : Z) :
  media ih = Some m ->
  HandleMedia.media_size m <= INT64_MAX ->
  0 < HandleMedia.chunk_size m ->
  0 <= offset < HandleMedia.media_size m ->
  offset / HandleMedia.chunk_size m < INT32_MAX ->
  seek_chunk_offset ih (offset / HandleMedia.chunk_size m)
  = (-1, ih_sought) ->
  libewf_seek_offset seek_chunk_offset (Some ih) offset
  = Returns (-1) (Some ih_sought).
Proof.
  intros Hm Hsmall Hchunk_size Hoffset Hchunk Hseek.
  unfold libewf_seek_offset; rewrite Hm.
  destruct (offset <=? -1) eqn:Hneg; [apply Z.leb_le in Hneg; lia |].
  rewrite to_int64_small by lia.
  destruct (offset >=? HandleMedia.media_size m) eqn:Hge;
    [rewrite Z.geb_leb in Hge; apply Z.leb_le in Hge; lia |].
  destruct (HandleMedia.chunk_size m =? 0) eqn:Hzero;
    [apply Z.eqb_eq in Hzero; lia |].
  destruct (offset / HandleMedia.chunk_size m >=? INT32_MAX) eqn:Hlimit;
    [rewrite Z.geb_leb in Hlimit; apply Z.leb_le in Hlimit; lia |].
  rewrite Hseek; reflexivity.
Qed.

(** * Further properties of libewf_file.c *)

(** ** Proof support *)

Ltac case_outcome H :=
  repeat (revert H; split_guard; intros H); try discriminate H.

Lemma set_media_media (ih : libewf_internal_handle)
    (m : option HandleMedia.t) :
  media (set_media ih m) = m.
Proof. reflexivity. Qed.

Lemma set_media_again (ih : libewf_internal_handle)
    (m m' : option HandleMedia.t) :
  set_media (set_media ih m) m' = set_media ih m'.
Proof. reflexivity. Qed.

Lemma set_media_unchanged (ih : libewf_internal_handle) (m : HandleMedia.t) :
  media ih = Some m -> set_media ih (Some m) = ih.
Proof. destruct ih; simpl; intros ->; reflexivity. Qed.

Lemma gtb_false_le (a b : Z) : a <= b -> (a >? b) = false.
Proof. intros H; rewrite Z.gtb_ltb; apply Z.ltb_ge; exact H. Qed.

Lemma gtb_true_lt (a b : Z) : b < a -> (a >? b) = true.
Proof. intros H; rewrite Z.gtb_ltb; apply Z.ltb_lt; exact H. Qed.

(** ** Round trips through the media values *)

Section MediaRoundTrips.

Context {definitions : libewf_definitions}.

(** X1: a value stored by [libewf_set_sectors_per_chunk] or
    [libewf_set_bytes_per_sector] is the one the matching getter returns,
    and the other of the two values reads as before. *)
Theorem geometry_set_get_round_trip
    (ih ih' : libewf_internal_handle) (v out : Z) :
  (libewf_set_sectors_per_chunk (Some ih) v = Returns 1 (Some ih') ->
   libewf_get_sectors_per_chunk (Some ih') (Some out)
   = (Returns 1 (Some ih'), Some v)
   /\ snd (libewf_get_bytes_per_sector (Some ih') (Some out))
      = snd (libewf_get_bytes_per_sector (Some ih) (Some out)))
  /\ (libewf_set_bytes_per_sector (Some ih) v = Returns 1 (Some ih') ->
      libewf_get_bytes_per_sector (Some ih') (Some out)
      = (Returns 1 (Some ih'), Some v)
      /\ snd (libewf_get_sectors_per_chunk (Some ih') (Some out))
         = snd (libewf_get_sectors_per_chunk (Some ih) (Some out))).
Proof.
  split; intros Hset.
  - unfold libewf_set_sectors_per_chunk in Hset; case_outcome Hset.
    injection Hset as <-.
    apply orb_false_iff in Heqb; destruct Heqb as [_ Hmax].
    unfold libewf_get_sectors_per_chunk, libewf_get_bytes_per_sector.
    rewrite set_media_media, Heqo; simpl; rewrite Hmax.
    split; [reflexivity |].
    destruct (HandleMedia.bytes_per_sector t >? INT32_MAX); reflexivity.
  - unfold libewf_set_bytes_per_sector in Hset; case_outcome Hset.
    injection Hset as <-.
    apply orb_false_iff in Heqb; destruct Heqb as [_ Hmax].
    unfold libewf_get_sectors_per_chunk, libewf_get_bytes_per_sector.
    rewrite set_media_media, Heqo; simpl; rewrite Hmax.
    split; [reflexivity |].
    destruct (HandleMedia.sectors_per_chunk t >? INT32_MAX); reflexivity.
Qed.


End MediaRoundTrips.

Lemma geometry_set_get_round_trip_witness :
  libewf_get_sectors_per_chunk
    (Some (set_media example_write_handle
             (Some (HandleMedia.set_sectors_per_chunk example_media 128))))
    (Some 0)
  = (Returns 1
       (Some (set_media example_write_handle
                (Some (HandleMedia.set_sectors_per_chunk example_media 128)))),
     Some 128).
Proof.
  destruct (geometry_set_get_round_trip example_write_handle
              (set_media example_write_handle
                 (Some (HandleMedia.set_sectors_per_chunk example_media 128)))
              128 0) as [Hsectors _].
  apply Hsectors; reflexivity.
Defined.


(** ** Round trips through GUID and MD5 hash *)

(** X3: after a successful [libewf_set_guid], [libewf_get_guid] with a
    buffer of at least 16 bytes returns 1 and the first 16 bytes of the
    buffer are the first 16 bytes that were set; the rest of the buffer is
    as it was. *)
Theorem guid_set_get_round_trip
    (ih ih' : libewf_internal_handle) (bytes buffer : list Byte.byte)
    (size size' : Z) :
  libewf_set_guid (Some ih) (Some bytes) size = Returns 1 (Some ih') ->
  16 <= size' ->
  libewf_get_guid (Some ih') (Some buffer) size'
  = (Returns 1 (Some ih'), Some (firstn 16 bytes ++ skipn 16 buffer)).
Proof.
  intros Hset Hsize.
  unfold libewf_set_guid in Hset; case_outcome Hset; injection Hset as <-;
    unfold libewf_get_guid;
    (destruct (size' <? 16) eqn:Hlt; [apply Z.ltb_lt in Hlt; lia |]);
    unfold memcpy_into, libewf_common_memcpy; cbn [guid set_guid];
    change (Z.to_nat 16) with 16%nat;
    rewrite firstn_firstn; reflexivity.
Qed.

Lemma guid_set_get_round_trip_witness :
  libewf_get_guid
    (Some (set_guid example_write_handle (repeat Byte.xff 16)))
    (Some (zero_bytes 20)) 20
  = (Returns 1 (Some (set_guid example_write_handle (repeat Byte.xff 16))),
     Some (repeat Byte.xff 16 ++ zero_bytes 4)).
Proof.
  apply (guid_set_get_round_trip example_write_handle
           (set_guid example_write_handle (repeat Byte.xff 16))
           (repeat Byte.xff 16) (zero_bytes 20) 16 20);
    [reflexivity | lia].
Defined.

(** X4: [libewf_get_md5_hash] returns 0 and leaves the buffer alone as
    long as no hash was set; after a successful [libewf_set_md5_hash] it
    returns 1 and puts the first 16 bytes that were set at the start of a
    buffer of at least 16 bytes. *)
Theorem md5_hash_set_get_round_trip
    (ih ih' : libewf_internal_handle) (bytes buffer : list Byte.byte)
    (size size' : Z) :
  libewf_set_md5_hash (Some ih) (Some bytes) size = Returns 1 (Some ih') ->
  16 <= size' ->
  libewf_get_md5_hash (Some ih) (Some buffer) size'
  = (Returns 0 (Some ih), Some buffer)
  /\ libewf_get_md5_hash (Some ih') (Some buffer) size'
     = (Returns 1 (Some ih'), Some (firstn 16 bytes ++ skipn 16 buffer)).
Proof.
  intros Hset Hsize.
  unfold libewf_set_md5_hash in Hset; case_outcome Hset; injection Hset as <-.
  apply negb_false_iff in Heqb0.
  unfold libewf_get_md5_hash; rewrite Heqb0; split; [reflexivity |].
  cbn [md5_hash md5_hash_set set_md5_hash set_md5_hash_set].
  unfold EWF_DIGEST_HASH_SIZE_MD5 in *.
  destruct (size' <? 16) eqn:Hlt; [apply Z.ltb_lt in Hlt; lia |].
  unfold memcpy_into, libewf_common_memcpy.
  change (Z.to_nat 16) with 16%nat; change (1 =? 0) with false.
  rewrite firstn_firstn; reflexivity.
Qed.

Lemma md5_hash_set_get_round_trip_witness :
  libewf_get_md5_hash
    (Some (set_md5_hash_set
             (set_md5_hash example_write_handle (repeat Byte.xff 16)) 1))
    (Some (zero_bytes 16)) 16
  = (Returns 1
       (Some (set_md5_hash_set
                (set_md5_hash example_write_handle (repeat Byte.xff 16)) 1)),
     Some (repeat Byte.xff 16)).
Proof.
  destruct (md5_hash_set_get_round_trip example_write_handle
              (set_md5_hash_set
                 (set_md5_hash example_write_handle (repeat Byte.xff 16)) 1)
              (repeat Byte.xff 16) (zero_bytes 16) 16 16 eq_refl)
    as [_ Hafter]; [lia |].
  exact Hafter.
Defined.

(** ** Media type and volume type *)

Lemma testbit_two (i : Z) : 0 <= i -> Z.testbit 2 i = (1 =? i).
Proof. intros Hi; change 2 with (2 ^ 1); apply Z.pow2_bits_eqb; lia. Qed.

Lemma land_two (x : Z) : Z.land x 2 = if Z.testbit x 1 then 2 else 0.
Proof.
  apply Z.bits_inj'; intros i Hi.
  rewrite Z.land_spec, testbit_two by exact Hi.
  destruct (1 =? i) eqn:Hone.
  - apply Z.eqb_eq in Hone; subst i.
    destruct (Z.testbit x 1); reflexivity.
  - rewrite andb_false_r.
    destruct (Z.testbit x 1);
      [rewrite testbit_two by exact Hi; rewrite Hone | rewrite Z.bits_0];
      reflexivity.
Qed.

Lemma testbit_to_uint8 (x i : Z) :
  0 <= i ->
  Z.testbit (to_uint8 x) i = if i <? 8 then Z.testbit x i else false.
Proof.
  intros Hi; unfold to_uint8, UINT8_MODULUS.
  destruct (i <? 8) eqn:Hlow.
  - apply Z.ltb_lt in Hlow; apply Z.mod_pow2_bits_low; lia.
  - apply Z.ltb_ge in Hlow; apply Z.mod_pow2_bits_high; lia.
Qed.

Lemma testbit_uint8_high (x i : Z) :
  is_uint8 x -> 8 <= i -> Z.testbit x i = false.
Proof.
  intros Hx Hi; unfold is_uint8, UINT8_MODULUS in Hx.
  rewrite <- (Z.mod_small x (2 ^ 8)) by lia.
  apply Z.mod_pow2_bits_high; lia.
Qed.

Section MediaType.

Context {definitions : libewf_definitions}.

(** What a successful [libewf_set_write_media_type] leaves behind. *)
Lemma set_write_media_type_success
    (ih ih' : libewf_internal_handle) (media_type volume_type : Z) :
  libewf_set_write_media_type (Some ih) media_type volume_type
  = Returns 1 (Some ih') ->
  exists m flags,
    media ih = Some m
    /\ ih' = set_media ih
               (Some (HandleMedia.set_media_flags
                        (HandleMedia.set_media_type m media_type) flags))
    /\ ((volume_type = LIBEWF_VOLUME_TYPE_LOGICAL
         /\ flags = to_uint8 (Z.land (HandleMedia.media_flags m)
                                (Z.lnot EWF_MEDIA_FLAGS_IS_PHYSICAL)))
        \/ (volume_type <> LIBEWF_VOLUME_TYPE_LOGICAL
            /\ volume_type = LIBEWF_VOLUME_TYPE_PHYSICAL
            /\ flags = to_uint8 (Z.lor (HandleMedia.media_flags m)
                                   EWF_MEDIA_FLAGS_IS_PHYSICAL))).
Proof.
  intros Hset; unfold libewf_set_write_media_type in Hset.
  destruct (media ih) as [m |] eqn:Hm; [| discriminate].
  destruct (volume_type =? LIBEWF_VOLUME_TYPE_LOGICAL) eqn:Hlogical.
  - injection Hset as <-; apply Z.eqb_eq in Hlogical.
    eexists; eexists; split; [reflexivity |]; split; [reflexivity |].
    left; split; [exact Hlogical | reflexivity].
  - destruct (volume_type =? LIBEWF_VOLUME_TYPE_PHYSICAL) eqn:Hphysical;
      [| discriminate].
    injection Hset as <-.
    apply Z.eqb_neq in Hlogical; apply Z.eqb_eq in Hphysical.
    eexists; eexists; split; [reflexivity |]; split; [reflexivity |].
    right; repeat split; assumption.
Qed.

(** X5: after a successful [libewf_set_write_media_type],
    [libewf_get_volume_type] returns the volume type that was set (as
    [int8_t]); [libewf_get_media_type] returns the media type that was set
    when it is at most [INT8_MAX], and fails for a larger one, which the
    setter stores all the same. *)
Theorem media_type_set_get_round_trip
    (ih ih' : libewf_internal_handle) (media_type volume_type out : Z) :
  libewf_set_write_media_type (Some ih) media_type volume_type
  = Returns 1 (Some ih') ->
  libewf_get_volume_type (Some ih') (Some out)
  = (Returns 1 (Some ih'), Some (to_int8 volume_type))
  /\ (media_type <= INT8_MAX ->
      libewf_get_media_type (Some ih') (Some out)
      = (Returns 1 (Some ih'), Some media_type))
  /\ (INT8_MAX < media_type ->
      libewf_get_media_type (Some ih') (Some out)
      = (Returns (-1) (Some ih'), Some out)).
Proof.
  intros Hset.
  destruct (set_write_media_type_success _ _ _ _ Hset)
    as (m & flags & Hm & -> & Hflags).
  unfold libewf_get_volume_type, libewf_get_media_type.
  rewrite set_media_media; cbn [HandleMedia.media_flags
    HandleMedia.media_type HandleMedia.set_media_flags
    HandleMedia.set_media_type].
  split; [| split; intros Hv;
             [rewrite gtb_false_le by exact Hv
             | rewrite gtb_true_lt by exact Hv]; reflexivity].
  rewrite land_two.
  destruct Hflags as [[-> ->] | (Hlogical & -> & ->)];
    rewrite testbit_to_uint8 by lia; change (1 <? 8) with true; cbv iota.
  - rewrite Z.land_spec, Z.lnot_spec by lia.
    unfold EWF_MEDIA_FLAGS_IS_PHYSICAL; rewrite testbit_two by lia.
    rewrite andb_false_r; reflexivity.
  - rewrite Z.lor_spec.
    unfold EWF_MEDIA_FLAGS_IS_PHYSICAL; rewrite testbit_two by lia.
    rewrite orb_true_r; reflexivity.
Qed.

(** X6: a successful [libewf_set_write_media_type] changes bit 1 of the
    media flags only: it is clear after a logical and set after a physical
    volume type, every other bit is as before and the flags stay a
    [uint8_t]; media size, chunk size and the sector values are
    untouched. *)
Theorem set_write_media_type_changes_bit_1_only
    (ih ih' : libewf_internal_handle) (m : HandleMedia.t)
    (media_type volume_type : Z) :
  media ih = Some m ->
  is_uint8 (HandleMedia.media_flags m) ->
  libewf_set_write_media_type (Some ih) media_type volume_type
  = Returns 1 (Some ih') ->
  exists m',
    media ih' = Some m'
    /\ is_uint8 (HandleMedia.media_flags m')
    /\ Z.testbit (HandleMedia.media_flags m') 1
       = negb (volume_type =? LIBEWF_VOLUME_TYPE_LOGICAL)
    /\ (forall i, 0 <= i -> i <> 1 ->
          Z.testbit (HandleMedia.media_flags m') i
          = Z.testbit (HandleMedia.media_flags m) i)
    /\ HandleMedia.media_size m' = HandleMedia.media_size m
    /\ HandleMedia.chunk_size m' = HandleMedia.chunk_size m
    /\ HandleMedia.sectors_per_chunk m' = HandleMedia.sectors_per_chunk m
    /\ HandleMedia.bytes_per_sector m' = HandleMedia.bytes_per_sector m
    /\ HandleMedia.amount_of_sectors m' = HandleMedia.amount_of_sectors m.
Proof.
  intros Hm Hflags Hset.
  destruct (set_write_media_type_success _ _ _ _ Hset)
    as (m0 & flags & Hm0 & -> & Hcases).
  rewrite Hm in Hm0; injection Hm0 as <-.
  eexists; split; [reflexivity |].
  cbn [HandleMedia.media_flags HandleMedia.media_type
       HandleMedia.set_media_flags HandleMedia.set_media_type
       HandleMedia.media_size HandleMedia.chunk_size
       HandleMedia.sectors_per_chunk HandleMedia.bytes_per_sector
       HandleMedia.amount_of_sectors].
  assert (Hrange : is_uint8 flags).
  { destruct Hcases as [[_ ->] | (_ & _ & ->)]; unfold is_uint8, to_uint8;
      apply Z.mod_pos_bound; unfold UINT8_MODULUS; lia. }
  split; [exact Hrange |].
  split; [| split; [| repeat split]].
  - destruct Hcases as [[-> ->] | (Hlogical & _ & ->)];
      rewrite testbit_to_uint8 by lia; change (1 <? 8) with true; cbv iota.
    + rewrite Z.eqb_refl, Z.land_spec, Z.lnot_spec by lia.
      unfold EWF_MEDIA_FLAGS_IS_PHYSICAL; rewrite testbit_two by lia.
      rewrite andb_false_r; reflexivity.
    + apply Z.eqb_neq in Hlogical; rewrite Hlogical, Z.lor_spec.
      unfold EWF_MEDIA_FLAGS_IS_PHYSICAL; rewrite testbit_two by lia.
      rewrite orb_true_r; reflexivity.
  - intros i Hi Hother.
    assert (Hbit : Z.testbit 2 i = false).
    { rewrite testbit_two by exact Hi; apply Z.eqb_neq; lia. }
    destruct Hcases as [[_ ->] | (_ & _ & ->)];
      rewrite testbit_to_uint8 by exact Hi;
      (destruct (i <? 8) eqn:Hlow;
       [| apply Z.ltb_ge in Hlow; symmetry;
          apply testbit_uint8_high; assumption]);
      unfold EWF_MEDIA_FLAGS_IS_PHYSICAL.
    + rewrite Z.land_spec, Z.lnot_spec, Hbit by exact Hi.
      apply andb_true_r.
    + rewrite Z.lor_spec, Hbit; apply orb_false_r.
Qed.

End MediaType.

Lemma media_type_set_get_round_trip_witness :
  @libewf_get_volume_type example_definitions
    (Some (set_media example_write_handle
             (Some (HandleMedia.set_media_flags
                      (HandleMedia.set_media_type example_media 200) 3))))
    (Some 0)
  = (Returns 1
       (Some (set_media example_write_handle
                (Some (HandleMedia.set_media_flags
                         (HandleMedia.set_media_type example_media 200) 3)))),
     Some 1)
  /\ libewf_get_media_type
       (Some (set_media example_write_handle
                (Some (HandleMedia.set_media_flags
                         (HandleMedia.set_media_type example_media 200) 3))))
       (Some 0)
     = (Returns (-1)
          (Some (set_media example_write_handle
                   (Some (HandleMedia.set_media_flags
                            (HandleMedia.set_media_type example_media 200)
                            3)))),
        Some 0).
Proof.
  destruct (@media_type_set_get_round_trip example_definitions
              example_write_handle
              (set_media example_write_handle
                 (Some (HandleMedia.set_media_flags
                          (HandleMedia.set_media_type example_media 200) 3)))
              200 1 0 eq_refl) as (Hvolume & _ & Hlarge).
  split; [exact Hvolume | apply Hlarge; unfold INT8_MAX; lia].
Defined.

Lemma set_write_media_type_changes_bit_1_only_witness :
  exists m',
    media (set_media example_write_handle
             (Some (HandleMedia.set_media_flags
                      (HandleMedia.set_media_type example_media 1) 3)))
    = Some m'
    /\ Z.testbit (HandleMedia.media_flags m') 1 = true
    /\ Z.testbit (HandleMedia.media_flags m') 0
       = Z.testbit (HandleMedia.media_flags example_media) 0.
Proof.
  destruct (@set_write_media_type_changes_bit_1_only example_definitions
              example_write_handle
              (set_media example_write_handle
                 (Some (HandleMedia.set_media_flags
                          (HandleMedia.set_media_type example_media 1) 3)))
              example_media 1 1 eq_refl)
    as (m' & Hm' & _ & Hbit & Hother & _);
    [unfold is_uint8, UINT8_MODULUS; simpl; lia | reflexivity |].
  exists m'; split; [exact Hm' |]; split;
    [rewrite Hbit; reflexivity | apply Hother; lia].
Defined.

(** ** Compression values and format *)

Section CompressionFormat.

Context {definitions : libewf_definitions}.

(** X7: [libewf_set_write_compression_values] needs nothing but the write
    sub handle.  It always stores the compression level, which
    [libewf_get_compression_level] returns unless it is negative; the
    compress-empty-block flag is stored only together with the level
    [EWF_COMPRESSION_NONE] and is otherwise as before. *)
Theorem compression_values_set_get
    (ih : libewf_internal_handle) (w : HandleWrite.t)
    (level empty out : Z) :
  write ih = Some w ->
  exists ih' w',
    libewf_set_write_compression_values (Some ih) level empty
    = Returns 1 (Some ih')
    /\ write ih' = Some w'
    /\ HandleWrite.compress_empty_block w'
       = (if level =? EWF_COMPRESSION_NONE then empty
          else HandleWrite.compress_empty_block w)
    /\ HandleWrite.values_initialized w' = HandleWrite.values_initialized w
    /\ (0 <= level ->
        libewf_get_compression_level (Some ih') (Some out)
        = (Returns 1 (Some ih'), Some level))
    /\ (level < 0 ->
        libewf_get_compression_level (Some ih') (Some out)
        = (Returns (-1) (Some ih'), Some out)).
Proof.
  intros Hw; unfold libewf_set_write_compression_values; rewrite Hw.
  destruct (level =? EWF_COMPRESSION_NONE);
    eexists; eexists; (split; [reflexivity |]);
    cbn [write set_write set_compression_level];
    (split; [first [reflexivity | exact Hw] |]);
    (split; [reflexivity |]); (split; [reflexivity |]);
    unfold libewf_get_compression_level;
    cbn [compression_level set_write set_compression_level];
    (split; intros Hlevel;
     [destruct (level <=? -1) eqn:Hneg;
      [apply Z.leb_le in Hneg; lia | reflexivity]
     |destruct (level <=? -1) eqn:Hneg;
      [reflexivity | apply Z.leb_gt in Hneg; lia]]).
Qed.

End CompressionFormat.

Lemma compression_values_set_get_witness :
  exists ih',
    @libewf_set_write_compression_values example_definitions
      (Some example_write_handle) 2 1
    = Returns 1 (Some ih')
    /\ option_map HandleWrite.compress_empty_block (write ih') = Some 0
    /\ libewf_get_compression_level (Some ih') (Some 0)
       = (Returns 1 (Some ih'), Some 2).
Proof.
  destruct (@compression_values_set_get example_definitions
              example_write_handle example_write 2 1 0 eq_refl)
    as (ih' & w' & Hset & Hw' & Hempty & _ & Hget & _).
  exists ih'; split; [exact Hset |].
  split; [rewrite Hw'; simpl; rewrite Hempty; reflexivity |].
  apply Hget; lia.
Defined.

(** X8: [libewf_set_write_format] stores the format on any handle, but
    [libewf_get_format] returns it only on a handle with a media sub
    handle and for a format of at most [INT8_MAX]; otherwise it fails and
    leaves the caller's variable alone. *)
Theorem format_set_get
    (ih : libewf_internal_handle) (value out : Z) :
  exists ih',
    libewf_set_write_format (Some ih) value = Returns 1 (Some ih')
    /\ format ih' = value
    /\ (media ih <> None -> value <= INT8_MAX ->
        libewf_get_format (Some ih') (Some out)
        = (Returns 1 (Some ih'), Some value))
    /\ (media ih = None \/ INT8_MAX < value ->
        libewf_get_format (Some ih') (Some out)
        = (Returns (-1) (Some ih'), Some out)).
Proof.
  exists (set_format ih value); split; [reflexivity |].
  split; [reflexivity |].
  unfold libewf_get_format; cbn [media format set_format].
  split.
  - intros Hmedia Hvalue.
    destruct (media ih); [| congruence].
    rewrite gtb_false_le by exact Hvalue; reflexivity.
  - intros [Hmedia | Hvalue].
    + rewrite Hmedia; reflexivity.
    + destruct (media ih); [| reflexivity].
      rewrite gtb_true_lt by exact Hvalue; reflexivity.
Qed.

Lemma format_set_get_witness :
  libewf_get_format (Some (set_format example_write_handle 6)) (Some 0)
  = (Returns 1 (Some (set_format example_write_handle 6)), Some 6).
Proof.
  destruct (format_set_get example_write_handle 6 0)
    as (ih' & Hset & _ & Hget & _).
  injection Hset as <-.
  apply Hget; [discriminate | unfold INT8_MAX; lia].
Defined.

(** ** The media size *)

(** X9: [libewf_get_media_size] fills in a media size of zero with the
    amount of sectors times the bytes per sector and stores it on the
    handle.  When it returns 1, the value it gives is that product (for a
    size of zero) or the stored size, it is at most [INT64_MAX], and a
    second call returns the same value and leaves the handle as the first
    call left it. *)
Theorem get_media_size_fills_in_and_repeats
    (ih ih' : libewf_internal_handle) (m : HandleMedia.t)
    (out out' value : Z) :
  media ih = Some m ->
  libewf_get_media_size (Some ih) (Some out)
  = (Returns 1 (Some ih'), Some value) ->
  value = (if HandleMedia.media_size m =? 0
           then (HandleMedia.amount_of_sectors m
                 * HandleMedia.bytes_per_sector m) mod UINT64_MODULUS
           else HandleMedia.media_size m)
  /\ value <= INT64_MAX
  /\ option_map HandleMedia.media_size (media ih') = Some value
  /\ libewf_get_media_size (Some ih') (Some out')
     = (Returns 1 (Some ih'), Some value).
Proof.
  intros Hm Hget; unfold libewf_get_media_size in *; rewrite Hm in Hget.
  destruct m as [size chunk spc bps sectors granularity type flags].
  cbn [HandleMedia.media_size HandleMedia.set_media_size
       HandleMedia.amount_of_sectors HandleMedia.bytes_per_sector] in *.
  destruct (size =? 0) eqn:Hzero;
    cbn [HandleMedia.media_size HandleMedia.set_media_size] in Hget;
    match type of Hget with
    | context [?v >? INT64_MAX] => destruct (v >? INT64_MAX) eqn:Hmax
    end; try discriminate;
    injection Hget as <- <-;
    (split; [reflexivity |]);
    (split; [rewrite Z.gtb_ltb in Hmax; apply Z.ltb_ge in Hmax; exact Hmax |]);
    (split; [reflexivity |]);
    rewrite set_media_media;
    cbn [HandleMedia.media_size HandleMedia.set_media_size
         HandleMedia.amount_of_sectors HandleMedia.bytes_per_sector].
  - destruct ((sectors * bps) mod UINT64_MODULUS =? 0) eqn:Hagain;
      unfold HandleMedia.set_media_size;
      cbn [HandleMedia.media_size HandleMedia.amount_of_sectors
           HandleMedia.bytes_per_sector];
      rewrite Hmax, set_media_again; reflexivity.
  - rewrite Hzero; cbn [HandleMedia.media_size];
      rewrite Hmax, set_media_again; reflexivity.
Qed.

Lemma get_media_size_fills_in_and_repeats_witness :
  let filled :=
    set_media example_write_handle
      (Some (HandleMedia.set_media_size
               (HandleMedia.set_media_size example_media 0) 1048576)) in
  libewf_get_media_size
    (Some (set_media example_write_handle
             (Some (HandleMedia.set_media_size example_media 0))))
    (Some 5)
  = (Returns 1 (Some filled), Some 1048576)
  /\ libewf_get_media_size (Some filled) (Some 5)
     = (Returns 1 (Some filled), Some 1048576).
Proof.
  intros filled; split; [reflexivity |].
  apply (get_media_size_fills_in_and_repeats
           (set_media example_write_handle
              (Some (HandleMedia.set_media_size example_media 0)))
           filled (HandleMedia.set_media_size example_media 0) 5 5 1048576);
    reflexivity.
Defined.

(** ** Reading the sector error lists *)

Lemma error_sectors_get_lookup (handle : option libewf_internal_handle)
    (error_sectors : option (list ErrorSector.t)) (amount index s0 n0 : Z) :
  error_list_ok error_sectors amount ->
  amount <> 0 -> 0 <= index ->
  error_sectors_get handle error_sectors amount index (Some s0) (Some n0)
  = match nth_error (error_sector_entries error_sectors) (Z.to_nat index) with
    | Some entry =>
        (Returns 1 handle, Some (ErrorSector.sector entry),
         Some (ErrorSector.amount_of_sectors entry))
    | None => (Returns (-1) handle, Some s0, Some n0)
    end.
Proof.
  intros [Hlength _] Hamount Hindex; unfold error_sectors_get.
  destruct error_sectors as [entries |]; simpl in *; [| lia].
  destruct (index >=? amount) eqn:Hge; rewrite Z.geb_leb in Hge.
  - apply Z.leb_le in Hge.
    assert (Hnone : nth_error entries (Z.to_nat index) = None)
      by (apply nth_error_None; lia).
    rewrite Hnone; reflexivity.
  - destruct (nth_error entries (Z.to_nat index)) eqn:Hnth; [reflexivity |].
    apply Z.leb_gt in Hge; apply nth_error_None in Hnth; lia.
Qed.

(** X12: on a consistent handle [libewf_get_acquiry_error] and
    [libewf_get_crc_error] answer an index as the list does: 1 and the
    entry for an index inside the list; outside it the caller's variables
    are left alone and the result is 0 for an empty list and -1
    otherwise. *)
Theorem get_error_lookup
    (ih : libewf_internal_handle) (index s0 n0 : Z) :
  handle_consistent ih ->
  0 <= index ->
  libewf_get_acquiry_error (Some ih) index (Some s0) (Some n0)
  = match nth_error (acquiry_errors ih) (Z.to_nat index) with
    | Some entry =>
        (Returns 1 (Some ih), Some (ErrorSector.sector entry),
         Some (ErrorSector.amount_of_sectors entry))
    | None =>
        (Returns (if acquiry_amount_of_errors ih =? 0 then 0 else -1)
           (Some ih), Some s0, Some n0)
    end
  /\ (read ih <> None ->
      libewf_get_crc_error (Some ih) index (Some s0) (Some n0)
      = match nth_error (crc_errors ih) (Z.to_nat index) with
        | Some entry =>
            (Returns 1 (Some ih), Some (ErrorSector.sector entry),
             Some (ErrorSector.amount_of_sectors entry))
        | None =>
            (Returns (if crc_amount ih =? 0 then 0 else -1) (Some ih),
             Some s0, Some n0)
        end).
Proof.
  intros (_ & _ & Hacquiry & Hcrc) Hindex; split.
  - unfold libewf_get_acquiry_error, acquiry_errors.
    destruct (acquiry_amount_of_errors ih =? 0) eqn:Hzero.
    + apply Z.eqb_eq in Hzero; destruct Hacquiry as [Hlength _].
      destruct (error_sector_entries (acquiry_error_sectors ih));
        simpl in Hlength; [| lia].
      destruct (Z.to_nat index); reflexivity.
    + apply Z.eqb_neq in Hzero.
      now apply error_sectors_get_lookup.
  - intros Hread; unfold libewf_get_crc_error, crc_errors, crc_amount.
    destruct (read ih) as [r |]; [| congruence].
    destruct (HandleRead.crc_amount_of_errors r =? 0) eqn:Hzero.
    + apply Z.eqb_eq in Hzero; destruct Hcrc as [Hlength _].
      destruct (error_sector_entries (HandleRead.crc_error_sectors r));
        simpl in Hlength; [| lia].
      destruct (Z.to_nat index); reflexivity.
    + apply Z.eqb_neq in Hzero.
      now apply error_sectors_get_lookup.
Qed.

Lemma get_error_lookup_witness :
  let ih :=
    set_acquiry_errors example_read_handle
      (Some [ErrorSector.mk 100 8; ErrorSector.mk 200 16]) 2 in
  libewf_get_acquiry_error (Some ih) 1 (Some 0) (Some 0)
  = (Returns 1 (Some ih), Some 200, Some 16)
  /\ libewf_get_acquiry_error (Some ih) 2 (Some 0) (Some 0)
     = (Returns (-1) (Some ih), Some 0, Some 0).
Proof.
  intros ih.
  assert (Hok : handle_consistent ih).
  { unfold handle_consistent, error_list_ok; simpl.
    repeat split; try discriminate; repeat constructor; simpl;
      intuition lia. }
  split.
  - destruct (get_error_lookup ih 1 0 0 Hok) as [Hlookup _]; [lia |].
    exact Hlookup.
  - destruct (get_error_lookup ih 2 0 0 Hok) as [Hlookup _]; [lia |].
    exact Hlookup.
Defined.

Section AddThenGet.

Context {definitions : libewf_definitions}.

Variables alloc realloc : Z -> bool.

(** What [libewf_add_acquiry_error] leaves behind when it returns 1 for a
    sector that was not in the list. *)
Lemma add_acquiry_error_appended
    (ih ih' : libewf_internal_handle) (sector amount_of_sectors : Z) :
  handle_consistent ih ->
  ~ In sector (map ErrorSector.sector (acquiry_errors ih)) ->
  libewf_add_acquiry_error alloc realloc (Some ih) sector amount_of_sectors
  = Returns 1 (Some ih') ->
  ih' = set_acquiry_errors ih
          (Some (acquiry_errors ih
                 ++ [ErrorSector.mk sector amount_of_sectors]))
          (acquiry_amount_of_errors ih + 1).
Proof.
  intros (Hmedia & _ & Hok & _) Hnot Hadd.
  unfold libewf_add_acquiry_error, acquiry_errors in *; cbv zeta in Hadd.
  destruct (media ih); [| congruence].
  destruct (sector <=? -1); [discriminate |].
  assert (Hfind :
    match acquiry_error_sectors ih with
    | Some entries =>
        error_sectors_find entries
          (Z.to_nat (acquiry_amount_of_errors ih)) sector = Some false
    | None => True
    end).
  { destruct (acquiry_error_sectors ih) as [entries |]; [| exact I].
    destruct Hok as [Hlength _]; simpl in *.
    rewrite <- Hlength, Nat2Z.id; now apply error_sectors_find_not_in. }
  destruct (acquiry_error_sectors ih) as [entries |] eqn:Hlist.
  - rewrite Hfind in Hadd.
    destruct (realloc _); [| discriminate].
    match type of Hadd with
    | context [error_sectors_store ?l ?c ?a ?s ?n] =>
        destruct (error_sectors_store l c a s n) as [stored |] eqn:Hstore
    end; [| discriminate].
    destruct (error_sectors_add_ok (Some entries) _ _ _ _ _ Hok Hfind Hstore)
      as (-> & Hwrap & _).
    rewrite Hwrap in Hadd; injection Hadd as <-; reflexivity.
  - destruct (alloc _); [| discriminate].
    match type of Hadd with
    | context [error_sectors_store ?l ?c ?a ?s ?n] =>
        destruct (error_sectors_store l c a s n) as [stored |] eqn:Hstore
    end; [| discriminate].
    destruct (error_sectors_add_ok None _ _ _ _ _ Hok Hfind Hstore)
      as (-> & Hwrap & _).
    rewrite Hwrap in Hadd; injection Hadd as <-; reflexivity.
Qed.

(** X10: after [libewf_add_acquiry_error] returned 1 for a sector that was
    not in the list, [libewf_get_amount_of_acquiry_errors] gives one more
    than the old amount, [libewf_get_acquiry_error] at the old amount
    gives the sector and amount of sectors that were added, and every
    earlier entry is read back at its index. *)
Theorem add_acquiry_error_then_get
    (ih ih' : libewf_internal_handle) (sector amount_of_sectors : Z)
    (out s0 n0 : Z) :
  handle_consistent ih ->
  ~ In sector (map ErrorSector.sector (acquiry_errors ih)) ->
  libewf_add_acquiry_error alloc realloc (Some ih) sector amount_of_sectors
  = Returns 1 (Some ih') ->
  libewf_get_amount_of_acquiry_errors (Some ih') (Some out)
  = (Returns 1 (Some ih'), Some (acquiry_amount_of_errors ih + 1))
  /\ libewf_get_acquiry_error (Some ih') (acquiry_amount_of_errors ih)
       (Some s0) (Some n0)
     = (Returns 1 (Some ih'), Some sector, Some amount_of_sectors)
  /\ (forall index entry,
        0 <= index ->
        nth_error (acquiry_errors ih) (Z.to_nat index) = Some entry ->
        libewf_get_acquiry_error (Some ih') index (Some s0) (Some n0)
        = (Returns 1 (Some ih'), Some (ErrorSector.sector entry),
           Some (ErrorSector.amount_of_sectors entry))).
Proof.
  intros Hok Hnot Hadd.
  pose proof (add_acquiry_error_consistent alloc realloc ih ih' sector
                amount_of_sectors 1 Hok Hadd) as Hok'.
  pose proof (add_acquiry_error_appended ih ih' sector amount_of_sectors
                Hok Hnot Hadd) as Hih'.
  destruct Hok as (_ & _ & [Hlength _] & _).
  fold (acquiry_errors ih) in Hlength.
  assert (Hlist : acquiry_errors ih'
                  = acquiry_errors ih
                    ++ [ErrorSector.mk sector amount_of_sectors])
    by (rewrite Hih'; reflexivity).
  split; [rewrite Hih'; reflexivity |].
  split.
  - destruct (get_error_lookup ih' (acquiry_amount_of_errors ih) s0 n0 Hok')
      as [Hlookup _]; [lia |].
    rewrite Hlookup, Hlist, nth_error_app2 by lia.
    replace (Z.to_nat (acquiry_amount_of_errors ih)
             - List.length (acquiry_errors ih))%nat with 0%nat by lia.
    reflexivity.
  - intros index entry Hindex Hnth.
    destruct (get_error_lookup ih' index s0 n0 Hok') as [Hlookup _];
      [lia |].
    rewrite Hlookup, Hlist, nth_error_app1
      by (apply nth_error_Some; congruence).
    rewrite Hnth; reflexivity.
Qed.

(** What [libewf_add_crc_error] leaves behind when it returns 1 for a
    sector that was not in the list. *)
Lemma add_crc_error_appended
    (ih ih' : libewf_internal_handle) (r : HandleRead.t)
    (sector amount_of_sectors : Z) :
  handle_consistent ih ->
  read ih = Some r ->
  ~ In sector (map ErrorSector.sector (crc_errors ih)) ->
  libewf_add_crc_error alloc realloc (Some ih) sector amount_of_sectors
  = Returns 1 (Some ih') ->
  ih' = set_read ih
          (Some (HandleRead.set_crc_errors r
                   (Some (crc_errors ih
                          ++ [ErrorSector.mk sector amount_of_sectors]))
                   (HandleRead.crc_amount_of_errors r + 1))).
Proof.
  intros (Hmedia & _ & _ & Hok) Hread Hnot Hadd.
  unfold libewf_add_crc_error, crc_errors in *; cbv zeta in Hadd.
  destruct (media ih); [| congruence].
  rewrite Hread in *.
  assert (Hfind :
    match HandleRead.crc_error_sectors r with
    | Some entries =>
        error_sectors_find entries
          (Z.to_nat (HandleRead.crc_amount_of_errors r)) sector = Some false
    | None => True
    end).
  { destruct (HandleRead.crc_error_sectors r) as [entries |]; [| exact I].
    destruct Hok as [Hlength _]; simpl in *.
    rewrite <- Hlength, Nat2Z.id; now apply error_sectors_find_not_in. }
  destruct (HandleRead.crc_error_sectors r) as [entries |] eqn:Hlist.
  - rewrite Hfind in Hadd.
    destruct (realloc _); [| discriminate].
    match type of Hadd with
    | context [error_sectors_store ?l ?c ?a ?s ?n] =>
        destruct (error_sectors_store l c a s n) as [stored |] eqn:Hstore
    end; [| discriminate].
    destruct (error_sectors_add_ok (Some entries) _ _ _ _ _ Hok Hfind Hstore)
      as (-> & Hwrap & _).
    rewrite Hwrap in Hadd; injection Hadd as <-; reflexivity.
  - destruct (alloc _); [| discriminate].
    match type of Hadd with
    | context [error_sectors_store ?l ?c ?a ?s ?n] =>
        destruct (error_sectors_store l c a s n) as [stored |] eqn:Hstore
    end; [| discriminate].
    destruct (error_sectors_add_ok None _ _ _ _ _ Hok Hfind Hstore)
      as (-> & Hwrap & _).
    rewrite Hwrap in Hadd; injection Hadd as <-; reflexivity.
Qed.

(** X11: the same for the CRC errors: after [libewf_add_crc_error]
    returned 1 for a sector that was not in the list, the amount read back
    is one more, the new entry is at the old amount and the earlier
    entries are at their indices. *)
Theorem add_crc_error_then_get
    (ih ih' : libewf_internal_handle) (sector amount_of_sectors : Z)
    (out s0 n0 : Z) :
  handle_consistent ih ->
  ~ In sector (map ErrorSector.sector (crc_errors ih)) ->
  libewf_add_crc_error alloc realloc (Some ih) sector amount_of_sectors
  = Returns 1 (Some ih') ->
  libewf_get_amount_of_crc_errors (Some ih') (Some out)
  = (Returns 1 (Some ih'), Some (crc_amount ih + 1))
  /\ libewf_get_crc_error (Some ih') (crc_amount ih) (Some s0) (Some n0)
     = (Returns 1 (Some ih'), Some sector, Some amount_of_sectors)
  /\ (forall index entry,
        0 <= index ->
        nth_error (crc_errors ih) (Z.to_nat index) = Some entry ->
        libewf_get_crc_error (Some ih') index (Some s0) (Some n0)
        = (Returns 1 (Some ih'), Some (ErrorSector.sector entry),
           Some (ErrorSector.amount_of_sectors entry))).
Proof.
  intros Hok Hnot Hadd.
  assert (Hread : exists r, read ih = Some r).
  { unfold libewf_add_crc_error in Hadd.
    destruct (media ih); [| discriminate].
    destruct (read ih) as [r |]; [eauto | discriminate]. }
  destruct Hread as [r Hread].
  pose proof (add_crc_error_consistent alloc realloc ih ih' sector
                amount_of_sectors 1 Hok Hadd) as Hok'.
  pose proof (add_crc_error_appended ih ih' r sector amount_of_sectors
                Hok Hread Hnot Hadd) as Hih'.
  destruct Hok as (_ & _ & _ & Hcrc).
  rewrite Hread in Hcrc; destruct Hcrc as [Hlength _].
  assert (Hamount : crc_amount ih = HandleRead.crc_amount_of_errors r)
    by (unfold crc_amount; rewrite Hread; reflexivity).
  assert (Hentries : crc_errors ih
                     = error_sector_entries (HandleRead.crc_error_sectors r))
    by (unfold crc_errors; rewrite Hread; reflexivity).
  rewrite <- Hentries in Hlength.
  assert (Hlist : crc_errors ih'
                  = crc_errors ih
                    ++ [ErrorSector.mk sector amount_of_sectors])
    by (rewrite Hih'; reflexivity).
  assert (Hread' : read ih' <> None) by (rewrite Hih'; discriminate).
  split; [rewrite Hamount, Hih'; reflexivity |].
  split.
  - destruct (get_error_lookup ih' (crc_amount ih) s0 n0 Hok')
      as [_ Hlookup]; [lia |].
    rewrite (Hlookup Hread'), Hlist, nth_error_app2 by lia.
    replace (Z.to_nat (crc_amount ih) - List.length (crc_errors ih))%nat
      with 0%nat by lia.
    reflexivity.
  - intros index entry Hindex Hnth.
    destruct (get_error_lookup ih' index s0 n0 Hok') as [_ Hlookup];
      [lia |].
    rewrite (Hlookup Hread'), Hlist, nth_error_app1
      by (apply nth_error_Some; congruence).
    rewrite Hnth; reflexivity.
Qed.

End AddThenGet.

Lemma add_acquiry_error_then_get_witness :
  let added :=
    set_acquiry_errors example_read_handle (Some [ErrorSector.mk 100 8]) 1 in
  libewf_get_amount_of_acquiry_errors (Some added) (Some 0)
  = (Returns 1 (Some added), Some 1)
  /\ libewf_get_acquiry_error (Some added) 0 (Some 0) (Some 0)
     = (Returns 1 (Some added), Some 100, Some 8).
Proof.
  intros added.
  destruct (@add_acquiry_error_then_get example_definitions example_granted
              example_granted example_read_handle added 100 8 0 0 0
              example_read_handle_consistent)
    as (Hamount & Hentry & _);
    [simpl; tauto | reflexivity |].
  split; [exact Hamount | exact Hentry].
Defined.

Lemma add_crc_error_then_get_witness :
  let added :=
    set_read example_read_handle
      (Some (HandleRead.set_crc_errors example_read
               (Some [ErrorSector.mk 320 64]) 1)) in
  libewf_get_amount_of_crc_errors (Some added) (Some 0)
  = (Returns 1 (Some added), Some 1)
  /\ libewf_get_crc_error (Some added) 0 (Some 0) (Some 0)
     = (Returns 1 (Some added), Some 320, Some 64).
Proof.
  intros added.
  destruct (@add_crc_error_then_get example_definitions example_granted
              example_granted example_read_handle added 320 64 0 0 0
              example_read_handle_consistent)
    as (Hamount & Hentry & _);
    [simpl; tauto | reflexivity |].
  split; [exact Hamount | exact Hentry].
Defined.

(** ** Opening: which functions are called *)

Section OpenCalls.

Context {definitions : libewf_definitions}.

Variable handle_alloc : Z -> option libewf_internal_handle.
Variables read_initialize determine_format :
  libewf_internal_handle -> Z * libewf_internal_handle.
Variable read_open :
  libewf_internal_handle -> list string -> Z -> Z -> Z * libewf_internal_handle.
Variable write_open :
  libewf_internal_handle -> list string -> Z -> Z * libewf_internal_handle.

(** X13: with the read flag among the flags, alone or together with the
    write flag, [libewf_open] takes the read path: the segment files are
    never opened for writing, and a handle it returns has a media size of
    amount of sectors times bytes per sector.  Without the read flag no
    read function is called. *)
Theorem open_read_flag_decides_path
    (filenames : option (list string)) (file_amount flags : Z) :
  let opened :=
    libewf_open handle_alloc read_initialize read_open determine_format
      write_open filenames file_amount flags in
  (Z.land flags LIBEWF_FLAG_READ = LIBEWF_FLAG_READ ->
   ~ In CallSegmentFileWriteOpen (fst opened)
   /\ forall ih,
        snd opened = OpenReturns (Some ih) ->
        exists m,
          media ih = Some m
          /\ HandleMedia.media_size m
             = (HandleMedia.amount_of_sectors m
                * HandleMedia.bytes_per_sector m) mod UINT64_MODULUS)
  /\ (Z.land flags LIBEWF_FLAG_READ <> LIBEWF_FLAG_READ ->
      ~ In CallHandleReadInitialize (fst opened)
      /\ ~ In CallSegmentFileReadOpen (fst opened)
      /\ ~ In CallHandleDetermineFormat (fst opened)).
Proof.
  intros opened; subst opened; unfold libewf_open; split; intros Hread.
  - rewrite Hread, Z.eqb_refl.
    repeat split_guard; simpl;
      (split;
       [intuition discriminate
       | intros ih Hopened; try discriminate Hopened]).
    injection Hopened as <-.
    eexists; split; [reflexivity |]; reflexivity.
  - apply Z.eqb_neq in Hread; rewrite Hread.
    repeat split_guard; simpl; intuition discriminate.
Qed.

(** X14: [libewf_open] does not leak the handle it allocated: when it
    returns NULL after a successful allocation, its last call frees the
    handle; when it returns a handle, the handle was not freed. *)
Theorem open_frees_handle_on_failure
    (filenames : option (list string)) (file_amount flags : Z) :
  let opened :=
    libewf_open handle_alloc read_initialize read_open determine_format
      write_open filenames file_amount flags in
  (snd opened = OpenReturns None ->
   In CallHandleAlloc (fst opened) ->
   handle_alloc flags <> None ->
   List.last (fst opened) CallHandleAlloc = CallHandleFree)
  /\ (forall ih,
        snd opened = OpenReturns (Some ih) ->
        ~ In CallHandleFree (fst opened)).
Proof.
  intros opened; subst opened; unfold libewf_open.
  repeat split_guard; simpl; split;
    try (intros ih Hopened; try discriminate Hopened;
         intuition discriminate);
    intros Hnull Hcalls Halloc;
    try discriminate Hnull; try reflexivity; try tauto; try congruence.
Qed.

End OpenCalls.

Lemma open_read_flag_decides_path_witness :
  ~ In CallSegmentFileWriteOpen
      (fst (@libewf_open example_definitions
              (fun _ => Some example_read_handle)
              (example_helper 1) (fun h _ _ _ => (1, h)) (example_helper 1)
              (fun h _ _ => (1, h)) (Some ["image.E01"%string]) 1 3))
  /\ exists m,
       media example_read_handle = Some m
       /\ snd (@libewf_open example_definitions
                 (fun _ => Some example_read_handle)
                 (example_helper 1) (fun h _ _ _ => (1, h)) (example_helper 1)
                 (fun h _ _ => (1, h)) (Some ["image.E01"%string]) 1 3)
          = OpenReturns
              (Some (set_media example_read_handle
                       (Some (HandleMedia.set_media_size m 1048576)))).
Proof.
  destruct (@open_read_flag_decides_path example_definitions
              (fun _ => Some example_read_handle)
              (example_helper 1) (example_helper 1) (fun h _ _ _ => (1, h))
              (fun h _ _ => (1, h)) (Some ["image.E01"%string]) 1 3)
    as [Hread _].
  destruct (Hread eq_refl) as [Hnever _].
  split; [exact Hnever |].
  eexists; split; reflexivity.
Defined.

Lemma open_frees_handle_on_failure_witness :
  List.last
    (fst (@libewf_open example_definitions
            (fun _ => Some example_read_handle)
            (example_helper 1) (fun h _ _ _ => (0, h)) (example_helper 1)
            (fun h _ _ => (1, h)) (Some ["image.E01"%string]) 1 1))
    CallHandleAlloc
  = CallHandleFree.
Proof.
  destruct (@open_frees_handle_on_failure example_definitions
              (fun _ => Some example_read_handle)
              (example_helper 1) (example_helper 1) (fun h _ _ _ => (0, h))
              (fun h _ _ => (1, h)) (Some ["image.E01"%string]) 1 1)
    as [Hfreed _].
  apply Hfreed; [reflexivity | simpl; tauto | discriminate].
Defined.

(** ** Closing: which functions are called *)

Section CloseCalls.

Variables write_finalize segment_file_close_all :
  libewf_internal_handle -> Z * libewf_internal_handle.

(** X15: [libewf_close] calls the write finalization exactly when the
    handle has a write sub handle that is not finalized, and it frees the
    handle exactly when it returns 0; when closing the segment files
    fails, the handle is still there afterwards. *)
Theorem close_finalizes_and_frees_exactly
    (ih : libewf_internal_handle) :
  let closed :=
    libewf_close write_finalize segment_file_close_all (Some ih) in
  (In CallWriteFinalize (fst closed) <->
   exists w, write ih = Some w /\ HandleWrite.write_finalized w = 0)
  /\ (In CallHandleFree (fst closed) <-> snd closed = Returns 0 None)
  /\ (snd closed = Returns 0 None
      \/ exists ih', snd closed = Returns (-1) (Some ih')).
Proof.
  intros closed; subst closed; unfold libewf_close.
  destruct (write ih) as [w |];
    [destruct (HandleWrite.write_finalized w =? 0) eqn:Hfinalized |];
    match goal with
    | |- context [segment_file_close_all ?h] =>
        destruct (segment_file_close_all h) as [result ih']
    end;
    destruct (result =? 1); simpl;
    (split; [| split; [| eauto]]);
    try (split; [intuition discriminate | discriminate]);
    try (split; [intuition discriminate | reflexivity]);
    try (split; [intuition discriminate
                | intros (w' & Hw' & _); discriminate Hw']);
    try (apply Z.eqb_eq in Hfinalized; split; [eauto | tauto]);
    try (apply Z.eqb_neq in Hfinalized; split;
         [intuition discriminate
         | intros (w' & Hw' & Hzero); injection Hw' as <-; contradiction]);
    split; tauto.
Qed.

End CloseCalls.

(** ** Checking the file signature *)

Section CheckFileSignatureProperties.

Variable open_read : Z.
Variable filename_open : string -> Z -> Z.
Variables check_file_signature common_close : Z -> Z.

(** X16: [libewf_check_file_signature] closes every descriptor it opened,
    whatever the signature check said; its result is the answer of the
    signature check only when that answer is not negative and the file was
    closed without error, and -1 in every other case. *)
Theorem check_file_signature_closes_descriptor (name : string) :
  let file_descriptor := filename_open name open_read in
  let checked :=
    libewf_check_file_signature open_read filename_open check_file_signature
      common_close (Some name) in
  (0 <= file_descriptor ->
   fst checked
   = [CallFilenameOpen; CallCheckFileSignature file_descriptor;
      CallCommonClose file_descriptor])
  /\ (file_descriptor < 0 ->
      checked = ([CallFilenameOpen], -1))
  /\ (snd checked <> -1 ->
      0 <= file_descriptor
      /\ common_close file_descriptor = 0
      /\ 0 <= check_file_signature file_descriptor
      /\ snd checked = check_file_signature file_descriptor)
  /\ (0 <= file_descriptor ->
      common_close file_descriptor = 0 ->
      0 <= check_file_signature file_descriptor ->
      snd checked = check_file_signature file_descriptor).
Proof.
  intros file_descriptor checked; subst file_descriptor checked.
  unfold libewf_check_file_signature.
  destruct (filename_open name open_read <? 0) eqn:Hopen;
    [apply Z.ltb_lt in Hopen | apply Z.ltb_ge in Hopen].
  - repeat split; intros; simpl in *; try lia; try reflexivity;
      congruence.
  - destruct (common_close (filename_open name open_read) =? 0) eqn:Hclose;
      [apply Z.eqb_eq in Hclose | apply Z.eqb_neq in Hclose]; simpl;
      (destruct (check_file_signature (filename_open name open_read) <=? -1)
         eqn:Hcheck;
       [apply Z.leb_le in Hcheck | apply Z.leb_gt in Hcheck]); simpl;
      repeat split; intros; try lia; try reflexivity; try congruence.
Qed.

End CheckFileSignatureProperties.

Lemma check_file_signature_closes_descriptor_witness :
  libewf_check_file_signature 1 (example_filename_open 3)
    (example_file_answer 1) (example_file_answer 0) (Some "image.E01"%string)
  = ([CallFilenameOpen; CallCheckFileSignature 3; CallCommonClose 3], 1)
  /\ snd (libewf_check_file_signature 1 (example_filename_open 3)
            (example_file_answer 1) (example_file_answer 5)
            (Some "image.E01"%string))
     = -1.
Proof.
  destruct (check_file_signature_closes_descriptor 1
              (example_filename_open 3) (example_file_answer 1)
              (example_file_answer 0) "image.E01"%string)
    as (Hcalls & _ & _ & Hresult).
  split; [| reflexivity].
  apply injective_projections;
    [apply Hcalls; simpl; unfold example_filename_open; lia
    | apply Hresult; unfold example_filename_open, example_file_answer; lia].
Defined.

(** With a NULL filename nothing is opened. *)
Lemma check_file_signature_null_filename
    (open_read : Z) (filename_open : string -> Z -> Z)
    (check_file_signature common_close : Z -> Z) :
  libewf_check_file_signature open_read filename_open check_file_signature
    common_close None
  = ([], -1).
Proof. reflexivity. Qed.

(** ** The flag getters and [libewf_open] *)

Section Flags.

Context {definitions : libewf_definitions}.

Lemma land_to_uint8_lor_l (a b : Z) :
  is_uint8 a -> Z.land (to_uint8 (Z.lor a b)) a = a.
Proof.
  intros Ha; apply Z.bits_inj'; intros i Hi.
  rewrite Z.land_spec, testbit_to_uint8, Z.lor_spec by exact Hi.
  destruct (i <? 8) eqn:Hlow.
  - destruct (Z.testbit a i), (Z.testbit b i); reflexivity.
  - apply Z.ltb_ge in Hlow.
    rewrite (testbit_uint8_high a i Ha Hlow); reflexivity.
Qed.

Lemma to_uint8_small (a : Z) : is_uint8 a -> to_uint8 a = a.
Proof. intros Ha; apply Z.mod_small; exact Ha. Qed.

Variable handle_alloc : Z -> option libewf_internal_handle.
Variables read_initialize determine_format :
  libewf_internal_handle -> Z * libewf_internal_handle.
Variable read_open :
  libewf_internal_handle -> list string -> Z -> Z -> Z * libewf_internal_handle.
Variable write_open :
  libewf_internal_handle -> list string -> Z -> Z * libewf_internal_handle.

(** X17: the flags the three flag getters return pass the flag test of
    [libewf_open]: with a filenames array and at least one file the handle
    allocation is called.  The read-write flags hold the read flag, so
    that they open for reading. *)
Theorem flag_getters_accepted_by_open
    (names : list string) (file_amount : Z) :
  is_uint8 LIBEWF_FLAG_READ -> is_uint8 LIBEWF_FLAG_WRITE ->
  1 <= file_amount ->
  (forall flags,
     flags = libewf_get_flags_read \/ flags = libewf_get_flags_write
     \/ flags = libewf_get_flags_read_write ->
     exists rest,
       fst (libewf_open handle_alloc read_initialize read_open
              determine_format write_open (Some names) file_amount flags)
       = CallHandleAlloc :: rest)
  /\ Z.land libewf_get_flags_read_write LIBEWF_FLAG_READ = LIBEWF_FLAG_READ
  /\ Z.land libewf_get_flags_read_write LIBEWF_FLAG_WRITE = LIBEWF_FLAG_WRITE.
Proof.
  intros Hread Hwrite Hamount.
  assert (Hrw_read :
    Z.land libewf_get_flags_read_write LIBEWF_FLAG_READ = LIBEWF_FLAG_READ)
    by (apply land_to_uint8_lor_l; exact Hread).
  assert (Hrw_write :
    Z.land libewf_get_flags_read_write LIBEWF_FLAG_WRITE = LIBEWF_FLAG_WRITE).
  { unfold libewf_get_flags_read_write; rewrite Z.lor_comm.
    apply land_to_uint8_lor_l; exact Hwrite. }
  split; [| split; assumption].
  intros flags Hflags; apply open_valid_arguments_allocate; [exact Hamount |].
  destruct Hflags as [-> | [-> | ->]].
  - left; unfold libewf_get_flags_read.
    rewrite to_uint8_small by exact Hread; apply Z.land_diag.
  - right; unfold libewf_get_flags_write.
    rewrite to_uint8_small by exact Hwrite; apply Z.land_diag.
  - left; exact Hrw_read.
Qed.

End Flags.

Lemma flag_getters_accepted_by_open_witness :
  @libewf_get_flags_read_write example_definitions = 3
  /\ exists rest,
       fst (@libewf_open example_definitions
              (fun _ => Some example_read_handle)
              (example_helper 1) (fun h _ _ _ => (1, h)) (example_helper 1)
              (fun h _ _ => (1, h)) (Some ["image.E01"%string]) 1 3)
       = CallHandleAlloc :: rest.
Proof.
  split; [reflexivity |].
  destruct (@flag_getters_accepted_by_open example_definitions
              (fun _ => Some example_read_handle)
              (example_helper 1) (example_helper 1) (fun h _ _ _ => (1, h))
              (fun h _ _ => (1, h)) ["image.E01"%string] 1)
    as (Haccepted & _ & _);
    [unfold is_uint8, UINT8_MODULUS; simpl; lia
    | unfold is_uint8, UINT8_MODULUS; simpl; lia | lia |].
  apply (Haccepted 3); right; right; reflexivity.
Defined.

(** ** The chunk size getter *)

Section ChunkSizeProperties.

Variable write_initialize :
  libewf_internal_handle -> Z * libewf_internal_handle.

(** X18: [libewf_get_chunk_size] initializes the write values when the
    handle has a write sub handle that is not initialized, and then
    returns the chunk size of the initialized handle, or -1 when the
    initialization fails.  On every other handle it returns the stored
    chunk size and leaves the handle alone.  A chunk size above
    [INT32_MAX] is refused before any initialization. *)
Theorem get_chunk_size_initializes_write
    (ih : libewf_internal_handle) (m : HandleMedia.t) (out : Z) :
  media ih = Some m ->
  (INT32_MAX < HandleMedia.chunk_size m ->
   libewf_get_chunk_size write_initialize (Some ih) (Some out)
   = (Returns (-1) (Some ih), Some out))
  /\ (HandleMedia.chunk_size m <= INT32_MAX ->
      (write ih = None
       \/ exists w, write ih = Some w
                    /\ HandleWrite.values_initialized w <> 0) ->
      libewf_get_chunk_size write_initialize (Some ih) (Some out)
      = (Returns 1 (Some ih), Some (HandleMedia.chunk_size m)))
  /\ (forall w result ih' ,
        HandleMedia.chunk_size m <= INT32_MAX ->
        write ih = Some w -> HandleWrite.values_initialized w = 0 ->
        write_initialize ih = (result, ih') ->
        (result <> 1 ->
         libewf_get_chunk_size write_initialize (Some ih) (Some out)
         = (Returns (-1) (Some ih'), Some out))
        /\ (forall m',
              result = 1 -> media ih' = Some m' ->
              libewf_get_chunk_size write_initialize (Some ih) (Some out)
              = (Returns 1 (Some ih'), Some (HandleMedia.chunk_size m')))).
Proof.
  intros Hm; unfold libewf_get_chunk_size; rewrite Hm.
  split; [| split].
  - intros Hlarge; rewrite gtb_true_lt by exact Hlarge; reflexivity.
  - intros Hsmall Hwrite; rewrite gtb_false_le by exact Hsmall.
    destruct Hwrite as [-> | (w & -> & Hinit)].
    + simpl; rewrite Hm; reflexivity.
    + apply Z.eqb_neq in Hinit; rewrite Hinit; simpl; rewrite Hm;
        reflexivity.
  - intros w result ih' Hsmall Hw Hinit Hrun.
    rewrite gtb_false_le by exact Hsmall.
    rewrite Hw, Hinit, Hrun; simpl; split.
    + intros Hresult; apply Z.eqb_neq in Hresult; rewrite Hresult;
        reflexivity.
    + intros m' -> Hm'; simpl; rewrite Hm'; reflexivity.
Qed.

End ChunkSizeProperties.

Lemma get_chunk_size_initializes_write_witness :
  libewf_get_chunk_size (example_helper 0) (Some example_read_handle) (Some 0)
  = (Returns 1 (Some example_read_handle), Some 32768)
  /\ libewf_get_chunk_size (example_helper 0) (Some example_write_handle)
       (Some 0)
     = (Returns (-1) (Some example_write_handle), Some 0).
Proof.
  destruct (get_chunk_size_initializes_write (example_helper 0)
              example_read_handle example_media 0 eq_refl)
    as (_ & Hplain & _).
  destruct (get_chunk_size_initializes_write (example_helper 0)
              example_write_handle example_media 0 eq_refl)
    as (_ & _ & Hpending).
  split.
  - apply Hplain; [unfold INT32_MAX; simpl; lia | left; reflexivity].
  - destruct (Hpending example_write 0 example_write_handle) as [Hfails _];
      [unfold INT32_MAX; simpl; lia | reflexivity | reflexivity
      | reflexivity |].
    apply Hfails; lia.
Defined.

(** ** Setting a header value *)

Section SetHeaderValueProperties.

Variable default_amount : Z.
Variable values_table_alloc : Z -> option ValuesTable.t.
Variable header_values_initialize : ValuesTable.t -> Z * ValuesTable.t.
Variable values_table_set_value :
  ValuesTable.t -> string -> option string -> Z -> Z * ValuesTable.t.

(** X19: [libewf_set_header_value] creates the header values table on
    first use.  When the initialization of the new table fails it returns
    -1, yet the table stays on the handle; the next call finds a table,
    allocates and initializes nothing and sets the value in the table
    whose initialization failed. *)
Theorem set_header_value_keeps_uninitialized_table
    (ih : libewf_internal_handle) (fresh failed : ValuesTable.t)
    (result : Z) (name name' : string) (value value' : option string)
    (length length' : Z) :
  header_values ih = None ->
  values_table_alloc default_amount = Some fresh ->
  header_values_initialize fresh = (result, failed) ->
  result <> 1 ->
  let after := set_header_values ih (Some failed) in
  libewf_set_header_value default_amount values_table_alloc
    header_values_initialize values_table_set_value (Some ih) (Some name)
    value length
  = ([CallValuesTableAlloc; CallHeaderValuesInitialize],
     Returns (-1) (Some after))
  /\ libewf_set_header_value default_amount values_table_alloc
       header_values_initialize values_table_set_value (Some after)
       (Some name') value' length'
     = ([CallValuesTableSetValue],
        Returns (fst (values_table_set_value failed name' value' length'))
          (Some (set_header_values ih
                   (Some (snd (values_table_set_value failed name' value'
                                 length')))))).
Proof.
  intros Hnone Halloc Hinit Hresult after; subst after.
  unfold libewf_set_header_value; split.
  - rewrite Hnone, Halloc, Hinit.
    apply Z.eqb_neq in Hresult; rewrite Hresult; reflexivity.
  - cbn [header_values set_header_values].
    destruct (values_table_set_value failed name' value' length');
      reflexivity.
Qed.

(** A handle that has header values is never given a new table, and a
    NULL identifier is refused before anything is called. *)
Lemma set_header_value_existing_table
    (ih : libewf_internal_handle) (table : ValuesTable.t)
    (name : string) (value : option string) (length : Z) :
  header_values ih = Some table ->
  fst (libewf_set_header_value default_amount values_table_alloc
         header_values_initialize values_table_set_value (Some ih)
         (Some name) value length)
  = [CallValuesTableSetValue]
  /\ libewf_set_header_value default_amount values_table_alloc
       header_values_initialize values_table_set_value (Some ih) None value
       length
     = ([], Returns (-1) (Some ih)).
Proof.
  intros Htable; unfold libewf_set_header_value; rewrite Htable.
  destruct (values_table_set_value table name value length); split;
    reflexivity.
Qed.

End SetHeaderValueProperties.

Lemma set_header_value_keeps_uninitialized_table_witness :
  let after :=
    set_header_values example_write_handle (Some (example_values None)) in
  libewf_set_header_value 14 (fun _ => Some (example_values None))
    (fun table => (-1, table)) (fun table _ _ _ => (1, table))
    (Some after) (Some "case_number"%string) (Some "A"%string) 1
  = ([CallValuesTableSetValue], Returns 1 (Some after)).
Proof.
  intros after.
  destruct (set_header_value_keeps_uninitialized_table 14
              (fun _ => Some (example_values None))
              (fun table => (-1, table)) (fun table _ _ _ => (1, table))
              example_write_handle (example_values None)
              (example_values None) (-1) "examiner"%string
              "case_number"%string (Some "X"%string) (Some "A"%string) 1 1
              eq_refl eq_refl eq_refl)
    as [_ Hsecond]; [lia |].
  exact Hsecond.
Defined.

(** ** Parsed header values and their amount *)

Section ParseThenGet.

Context {definitions : libewf_definitions}.

Variables parse_xheader parse_header2 parse_header :
  list Byte.byte -> Z -> Z -> option ValuesTable.t.

(** X20: [libewf_get_amount_of_header_values] returns 0 and leaves the
    caller's variable alone while the handle has no header values; after
    [libewf_parse_header_values] returned 1 it returns 1 and the amount of
    the table of the first header that yielded values.  After a parse that
    returned -1 it answers as before the parse. *)
Theorem parse_header_values_then_get_amount
    (ih ih' : libewf_internal_handle) (date_format value out : Z) :
  snd (libewf_parse_header_values parse_xheader parse_header2 parse_header
         (Some ih) date_format)
  = Returns value (Some ih') ->
  (header_values ih = None ->
   libewf_get_amount_of_header_values (Some ih) (Some out)
   = (Returns 0 (Some ih), Some out))
  /\ (value = 1 ->
      exists table,
        preferred_header_values parse_xheader parse_header2 parse_header ih
          date_format = Some table
        /\ libewf_get_amount_of_header_values (Some ih') (Some out)
           = (Returns 1 (Some ih'), Some (ValuesTable.amount table)))
  /\ (value <> 1 -> ih' = ih).
Proof.
  intros Hparse.
  split; [intros Hnone; unfold libewf_get_amount_of_header_values;
          rewrite Hnone; reflexivity |].
  rewrite <- parse_headers_preferred.
  unfold libewf_parse_header_values in Hparse.
  destruct (parse_headers parse_xheader parse_header2 parse_header ih
              date_format) as [calls [table |]]; simpl in Hparse |- *.
  - assert (Hvalues : header_values ih' = Some table /\ value = 1).
    { case_outcome Hparse; injection Hparse as <- <-; split; reflexivity. }
    destruct Hvalues as [Hvalues ->].
    split; [| congruence].
    intros _; exists table; split; [reflexivity |].
    unfold libewf_get_amount_of_header_values; rewrite Hvalues; reflexivity.
  - injection Hparse as <- <-.
    split; [intros Hvalue; discriminate | reflexivity].
Qed.

End ParseThenGet.

Lemma parse_header_values_then_get_amount_witness :
  libewf_get_amount_of_header_values
    (Some (set_header_values example_read_handle
             (Some (example_values (Some "4.01"%string)))))
    (Some 0)
  = (Returns 1
       (Some (set_header_values example_read_handle
                (Some (example_values (Some "4.01"%string))))),
     Some 14).
Proof.
  destruct (@parse_header_values_then_get_amount example_definitions
              example_parse_fails example_parse_fails
              (example_parse (Some "4.01"%string)) example_read_handle
              (set_header_values example_read_handle
                 (Some (example_values (Some "4.01"%string))))
              1 1 0 eq_refl) as (_ & Hparsed & _).
  destruct (Hparsed eq_refl) as (table & Htable & Hget).
  injection Htable as <-; exact Hget.
Defined.

(** ** What a seek can return *)

Section SeekResult.

Variable seek_chunk_offset :
  libewf_internal_handle -> Z -> Z * libewf_internal_handle.

(** X21: whatever the chunk seek does, [libewf_seek_offset] returns either
    -1 or the offset it was given.  When it returns the offset, the offset
    is not negative and below the media size (as [off64_t]) of the handle
    it was called on, and the offset within the chunk it stored is the
    offset modulo the chunk size of the handle afterwards, below
    [INT32_MAX]. *)
Theorem seek_offset_returns_offset_or_fails
    (ih ih' : libewf_internal_handle) (offset value : Z) :
  libewf_seek_offset seek_chunk_offset (Some ih) offset
  = Returns value (Some ih') ->
  value = -1
  \/ (value = offset
      /\ 0 <= offset
      /\ (exists m,
            media ih = Some m
            /\ offset < to_int64 (HandleMedia.media_size m)
            /\ HandleMedia.chunk_size m <> 0
            /\ offset / HandleMedia.chunk_size m < INT32_MAX)
      /\ exists m',
           media ih' = Some m'
           /\ HandleMedia.chunk_size m' <> 0
           /\ current_chunk_offset ih'
              = offset mod HandleMedia.chunk_size m'
           /\ current_chunk_offset ih' < INT32_MAX).
Proof.
  intros Hseek; unfold libewf_seek_offset in Hseek.
  destruct (media ih) as [m |] eqn:Hm;
    [| injection Hseek as <- _; left; reflexivity].
  destruct (offset <=? -1) eqn:Hneg;
    [injection Hseek as <- _; left; reflexivity |].
  destruct (offset >=? to_int64 (HandleMedia.media_size m)) eqn:Hsize;
    [injection Hseek as <- _; left; reflexivity |].
  destruct (HandleMedia.chunk_size m =? 0) eqn:Hzero; [discriminate |].
  destruct (offset / HandleMedia.chunk_size m >=? INT32_MAX) eqn:Hchunk;
    [injection Hseek as <- _; left; reflexivity |].
  destruct (seek_chunk_offset ih (offset / HandleMedia.chunk_size m))
    as [sought ih_sought].
  destruct (sought =? -1); [injection Hseek as <- _; left; reflexivity |].
  destruct (media ih_sought) as [m' |] eqn:Hm'; [| discriminate].
  destruct (HandleMedia.chunk_size m' =? 0) eqn:Hzero'; [discriminate |].
  destruct (offset mod HandleMedia.chunk_size m' >=? INT32_MAX) eqn:Hintra;
    [injection Hseek as <- _; left; reflexivity |].
  injection Hseek as <- <-; right.
  apply Z.leb_gt in Hneg.
  rewrite Z.geb_leb in Hsize, Hchunk, Hintra.
  apply Z.leb_gt in Hsize, Hchunk, Hintra.
  apply Z.eqb_neq in Hzero, Hzero'.
  split; [reflexivity |]; split; [lia |]; split.
  - exists m; repeat split; assumption.
  - exists m'; repeat split; assumption.
Qed.

End SeekResult.

Lemma seek_offset_returns_offset_or_fails_witness :
  exists m',
    media (set_current_chunk_offset
             (set_current_chunk example_read_handle 2) 4464) = Some m'
    /\ 4464 = 70000 mod HandleMedia.chunk_size m'.
Proof.
  destruct (seek_offset_returns_offset_or_fails (example_seek_chunk_offset 32)
              example_read_handle
              (set_current_chunk_offset
                 (set_current_chunk example_read_handle 2) 4464)
              70000 70000 eq_refl)
    as [Hfailed | (_ & _ & _ & m' & Hm' & _ & Hintra & _)];
    [discriminate Hfailed |].
  exists m'; split; [exact Hm' | exact Hintra].
Defined.

(** ** The plain getters *)

Section PlainGetters.

Context {definitions : libewf_definitions}.

Ltac getter :=
  unfold getter_contract;
  repeat split_guard; simpl;
  eexists; (split; [reflexivity |]); split;
  first [tauto | congruence | (intros Hnot; congruence)].

(** X22: the getters of the stored values never change the handle, return
    1, 0 or -1, and write the caller's variable only when they return 1.
    ([libewf_get_media_size] and [libewf_get_chunk_size] are no such
    getters: they can change the handle.) *)
Theorem plain_getters_only_read
    (ih : libewf_internal_handle) (out : option Z)
    (buffer : option (list Byte.byte)) (size : Z) :
  getter_contract ih out (libewf_get_sectors_per_chunk (Some ih) out)
  /\ getter_contract ih out (libewf_get_bytes_per_sector (Some ih) out)
  /\ getter_contract ih out (libewf_get_amount_of_sectors (Some ih) out)
  /\ getter_contract ih out (libewf_get_error_granularity (Some ih) out)
  /\ getter_contract ih out (libewf_get_compression_level (Some ih) out)
  /\ getter_contract ih out (libewf_get_media_type (Some ih) out)
  /\ getter_contract ih out (libewf_get_media_flags (Some ih) out)
  /\ getter_contract ih out (libewf_get_volume_type (Some ih) out)
  /\ getter_contract ih out (libewf_get_format (Some ih) out)
  /\ getter_contract ih out (libewf_get_write_amount_of_chunks (Some ih) out)
  /\ getter_contract ih out
       (libewf_get_amount_of_header_values (Some ih) out)
  /\ getter_contract ih out
       (libewf_get_amount_of_acquiry_errors (Some ih) out)
  /\ getter_contract ih out (libewf_get_amount_of_crc_errors (Some ih) out)
  /\ getter_contract ih buffer (libewf_get_guid (Some ih) buffer size)
  /\ getter_contract ih buffer (libewf_get_md5_hash (Some ih) buffer size).
Proof.
  repeat match goal with |- _ /\ _ => split end.
  - unfold libewf_get_sectors_per_chunk; getter.
  - unfold libewf_get_bytes_per_sector; getter.
  - unfold libewf_get_amount_of_sectors; getter.
  - unfold libewf_get_error_granularity; getter.
  - unfold libewf_get_compression_level; getter.
  - unfold libewf_get_media_type; getter.
  - unfold libewf_get_media_flags; getter.
  - unfold libewf_get_volume_type; getter.
  - unfold libewf_get_format; getter.
  - unfold libewf_get_write_amount_of_chunks; getter.
  - unfold libewf_get_amount_of_header_values; getter.
  - unfold libewf_get_amount_of_acquiry_errors; getter.
  - unfold libewf_get_amount_of_crc_errors; getter.
  - unfold libewf_get_guid; getter.
  - unfold libewf_get_md5_hash; getter.
Qed.

End PlainGetters.
